(** * West Virginia bill scraper: version reconciliation and vote parsing

    A shallow embedding of [openstates/wv/bills.py] (Python 2): the
    comparable URL object [_Url], the three version adapters, the
    reconciler [scrape_versions], the legacy index builder
    [_get_version_filenames], the roll-call parser [scrape_vote], and
    the bill type and the action table of [scrape_bill].

    Python byte strings are [string]; Python integers are [Z]; a raised
    exception is the [Raise] branch of [result]; generators are finite
    lazy sequences that may end in an exception. *)

From Stdlib Require Import Ascii String List ZArith Lia Bool.
From stdpp Require Import base decidable countable gmap strings list.

Import ListNotations.
Open Scope string_scope.
Open Scope list_scope.
Open Scope nat_scope.

(** ** Exceptions and the error monad *)

Inductive exn : Type :=
| AttributeError (what : string)
| IndexError
| KeyError (key : string)
| ValueError (what : string)
| UnboundLocalError (var : string)
| AssertionError
| HTTPError
| IOError
| OtherError (what : string).

Inductive result (A : Type) : Type :=
| Ok (a : A)
| Raise (e : exn).
Arguments Ok {A} a.
Arguments Raise {A} e.

Definition rbind {A B} (m : result A) (k : A -> result B) : result B :=
  match m with
  | Ok a => k a
  | Raise e => Raise e
  end.

#[global] Instance result_ret : MRet result := fun A a => Ok a.
#[global] Instance result_bind : MBind result := fun A B k m => rbind m k.

#[global] Instance result_fmap : FMap result := fun A B f m =>
  match m with
  | Ok a => Ok (f a)
  | Raise e => Raise e
  end.

Definition is_ok {A} (r : result A) : bool :=
  match r with Ok _ => true | Raise _ => false end.

(** ** Python [str] methods *)

Definition newline : ascii := "010"%char.
Definition carriage_return : ascii := "013"%char.

Module Str.

Definition chr (n : nat) : ascii := ascii_of_nat n.
Definition ord (c : ascii) : nat := nat_of_ascii c.

Definition in_range (lo hi : nat) (c : ascii) : bool :=
  (lo <=? ord c) && (ord c <=? hi).

Definition is_upper (c : ascii) : bool := in_range 65 90 c.
Definition is_lower (c : ascii) : bool := in_range 97 122 c.
Definition is_digit (c : ascii) : bool := in_range 48 57 c.
Definition is_alpha (c : ascii) : bool := is_upper c || is_lower c.

(** [string.whitespace], also the class [\s] of [re]. *)
Definition is_space (c : ascii) : bool :=
  (ord c =? 32) || in_range 9 13 c.

Definition lower_char (c : ascii) : ascii :=
  if is_upper c then chr (ord c + 32) else c.

(** [s.lower()] *)
Fixpoint lower (s : string) : string :=
  match s with
  | "" => ""
  | String c s' => String (lower_char c) (lower s')
  end.

Definition eqc (a b : ascii) : bool := Ascii.eqb a b.

(** [c in s] for a one-character [c] *)
Fixpoint mem (c : ascii) (s : string) : bool :=
  match s with
  | "" => false
  | String a s' => eqc a c || mem c s'
  end.

(** [all(p(c) for c in s)] *)
Fixpoint all (p : ascii -> bool) (s : string) : bool :=
  match s with
  | "" => true
  | String a s' => p a && all p s'
  end.

(** [s.startswith(p)] *)
Definition startswith (p s : string) : bool := String.prefix p s.

Fixpoint rev_acc (s acc : string) : string :=
  match s with
  | "" => acc
  | String a s' => rev_acc s' (String a acc)
  end.
Definition rev (s : string) : string := rev_acc s "".

(** [s.endswith(p)] *)
Definition endswith (p s : string) : bool := startswith (rev p) (rev s).

(** [s[n:]] and [s[:n]] for [n >= 0] *)
Fixpoint drop (n : nat) (s : string) : string :=
  match n, s with
  | O, _ => s
  | S _, "" => ""
  | S k, String _ s' => drop k s'
  end.
Fixpoint take (n : nat) (s : string) : string :=
  match n, s with
  | O, _ => ""
  | S _, "" => ""
  | S k, String a s' => String a (take k s')
  end.

(** [(s[:i], s[i+1:])] for the first index [i] with [s[i] == c], the
    two pieces [s.split(c, 1)] returns when [c in s]. *)
Fixpoint cut (c : ascii) (s : string) : option (string * string) :=
  match s with
  | "" => None
  | String a s' =>
      if eqc a c then Some ("", s')
      else match cut c s' with
           | Some (h, t) => Some (String a h, t)
           | None => None
           end
  end.

(** [s.split(sep)] for a non-empty separator; [skip] counts the
    characters of a separator just matched that are still to be
    consumed. *)
Fixpoint split_skip (sep : string) (skip : nat) (s : string) : list string :=
  match s with
  | "" => [""]
  | String a s' =>
      match skip with
      | S k => split_skip sep k s'
      | O =>
          if startswith sep s
          then "" :: split_skip sep (String.length sep - 1) s'
          else match split_skip sep 0 s' with
               | h :: t => String a h :: t
               | [] => [String a ""]
               end
      end
  end.
Definition split (sep s : string) : list string := split_skip sep 0 s.

(** [sep.join(l)] *)
Fixpoint join (sep : string) (l : list string) : string :=
  match l with
  | [] => ""
  | [x] => x
  | x :: l' => x +:+ sep +:+ join sep l'
  end.

(** [s.replace(old, new)] for a one-character [old] *)
Fixpoint replace (old : ascii) (new : string) (s : string) : string :=
  match s with
  | "" => ""
  | String a s' =>
      if eqc a old then new +:+ replace old new s'
      else String a (replace old new s')
  end.

(** [s.lstrip()], [s.rstrip()], [s.strip()] *)
Fixpoint lstrip (s : string) : string :=
  match s with
  | "" => ""
  | String a s' => if is_space a then lstrip s' else s
  end.
Definition rstrip (s : string) : string := rev (lstrip (rev s)).
Definition strip (s : string) : string := rstrip (lstrip s).

(** The longest prefix without a character of class [p], and the rest. *)
Fixpoint break (p : ascii -> bool) (s : string) : string * string :=
  match s with
  | "" => ("", "")
  | String a s' =>
      if p a then ("", s)
      else let '(h, t) := break p s' in (String a h, t)
  end.

(** The longest prefix whose characters are all in class [p], and the
    rest: a greedy [p*]. *)
Fixpoint span (p : ascii -> bool) (s : string) : string * string :=
  match s with
  | "" => ("", "")
  | String a s' =>
      if p a then let '(h, t) := span p s' in (String a h, t)
      else ("", s)
  end.

(** [s.splitlines()], for the line breaks [brk]; a carriage return
    followed by a newline is one break. *)
Fixpoint splitlines_by (brk : ascii -> bool) (s : string) : list string :=
  match s with
  | "" => []
  | String a s' =>
      if brk a then
        if eqc a carriage_return then
          match s' with
          | String b s'' =>
              if eqc b newline then "" :: splitlines_by brk s''
              else "" :: splitlines_by brk s'
          | "" => [""]
          end
        else "" :: splitlines_by brk s'
      else match splitlines_by brk s' with
           | h :: t => String a h :: t
           | [] => [String a ""]
           end
  end.

(** [sub in s] *)
Fixpoint contains (sub s : string) : bool :=
  startswith sub s ||
  match s with
  | "" => false
  | String _ s' => contains sub s'
  end.

(** [s.split()]: the maximal runs of characters that are not
    whitespace, for the whitespace class [sp].  [cur] is the run being
    read, if any. *)
Fixpoint split_ws_from (sp : ascii -> bool) (cur : option string) (s : string)
  : list string :=
  match s with
  | "" => match cur with Some w => [w] | None => [] end
  | String a s' =>
      if sp a
      then match cur with
           | Some w => w :: split_ws_from sp None s'
           | None => split_ws_from sp None s'
           end
      else split_ws_from sp (Some (default "" cur +:+ String a "")) s'
  end.
Definition split_ws (s : string) : list string := split_ws_from is_space None s.

(** [s[:j]] for the last index [j] with [s[j] == c] *)
Definition before_last (c : ascii) (s : string) : option string :=
  match cut c (rev s) with
  | Some (_, h) => Some (rev h)
  | None => None
  end.

End Str.

(** ** The [urllib] and [urlparse] functions the scraper imports

    Python 2.7 semantics, on byte strings. *)

Module Urllib.
Import Str.

Definition hexval (c : ascii) : option nat :=
  if is_digit c then Some (ord c - 48)
  else if in_range 65 70 c then Some (ord c - 55)
  else if in_range 97 102 c then Some (ord c - 87)
  else None.

Definition hexdigit (n : nat) : ascii :=
  if n <? 10 then chr (48 + n) else chr (55 + n).

(** ['%{:02X}'.format(i)] *)
Definition pct (c : ascii) : string :=
  String "%" (String (hexdigit (ord c / 16)) (String (hexdigit (ord c mod 16)) "")).

Definition always_safe (c : ascii) : bool :=
  is_alpha c || is_digit c || mem c "_.-".

Definition quoter (safe : string) (c : ascii) : string :=
  if always_safe c || mem c safe then String c "" else pct c.

(** [''.join(map(quoter, s))] *)
Fixpoint quote_with (safe : string) (s : string) : string :=
  match s with
  | "" => ""
  | String c s' => quoter safe c +:+ quote_with safe s'
  end.

(** [quote(s)], with its default [safe='/'] *)
Definition quote (s : string) : string := quote_with "/" s.

(** [quote_plus(s)], with its default [safe=''] *)
Definition quote_plus (s : string) : string :=
  if mem " " s then replace " " "+" (quote_with " " s)
  else quote_with "" s.

(** [urlencode(query)] on a list of pairs, [doseq=0] *)
Definition urlencode (query : list (string * string)) : string :=
  join "&" (map (fun kv => quote_plus (fst kv) +:+ "=" +:+ quote_plus (snd kv)) query).

(** One piece of [s.split('%')[1:]] in [unquote]: the [_hextochr]
    lookup of [item[:2]], and the [KeyError] branch. *)
Definition unquote_item (item : string) : string :=
  match item with
  | String a (String b rest) =>
      match hexval a, hexval b with
      | Some x, Some y => String (chr (16 * x + y)) rest
      | _, _ => String "%" item
      end
  | _ => String "%" item
  end.

(** [unquote(s)] *)
Definition unquote (s : string) : string :=
  match split "%" s with
  | [] => s
  | b0 :: bits => b0 +:+ String.concat "" (map unquote_item bits)
  end.

(** [unquote_plus(s)] *)
Definition unquote_plus (s : string) : string := unquote (replace "+" " " s).

End Urllib.

Module Urlparse.
Import Str.

(** The named tuple [ParseResult]; [_Url] stores one whose [query] is a
    frozenset, hence the parameter. *)
Record ParseResult (Q : Type) : Type := mkParseResult {
  scheme : string;
  netloc : string;
  path : string;
  params : string;
  query : Q;
  fragment : string
}.
Arguments mkParseResult {Q}.
Arguments scheme {Q}.
Arguments netloc {Q}.
Arguments path {Q}.
Arguments params {Q}.
Arguments query {Q}.
Arguments fragment {Q}.

Definition uses_params : list string :=
  ["ftp"; "hdl"; "prospero"; "http"; "imap"; "https"; "shttp"; "rtsp";
   "rtspu"; "sip"; "sips"; "mms"; ""; "sftp"; "tel"].

Definition uses_netloc : list string :=
  ["ftp"; "http"; "gopher"; "nntp"; "telnet"; "imap"; "wais"; "file";
   "mms"; "https"; "shttp"; "snews"; "prospero"; "rtsp"; "rtspu";
   "rsync"; ""; "svn"; "svn+ssh"; "sftp"; "nfs"; "git"; "git+ssh"].

Definition scheme_char (c : ascii) : bool :=
  is_alpha c || is_digit c || mem c "+-.".

(** [_splitnetloc(url, 2)] *)
Definition _splitnetloc (url : string) : string * string :=
  break (fun c => mem c "/?#") (drop 2 url).

(** The scheme part of [urlsplit]: [(scheme, rest)]. *)
Definition split_scheme (url : string) : string * string :=
  match cut ":" url with
  | Some (String a h, rest) =>
      let pre := String a h in
      if String.eqb pre "http" then ("http", rest)
      else if all scheme_char pre
      then if (String.eqb rest "") || negb (all is_digit rest)
           then (lower pre, rest)
           else ("", url)
      else ("", url)
  | _ => ("", url)
  end.

(** The netloc part of [urlsplit], with its check of the brackets of
    an IPv6 address: [(netloc, rest)]. *)
Definition split_netloc (url : string) : result (string * string) :=
  if startswith "//" url
  then let '(net, rest) := _splitnetloc url in
       if (mem "[" net && negb (mem "]" net)) ||
          (mem "]" net && negb (mem "[" net))
       then Raise (ValueError "Invalid IPv6 URL")
       else Ok (net, rest)
  else Ok ("", url).

(** [if c in url: url, x = url.split(c, 1)], with [x = ''] otherwise *)
Definition split_off (c : ascii) (url : string) : string * string :=
  match cut c url with
  | Some (u, x) => (u, x)
  | None => (url, "")
  end.

(** [urlsplit(url)]: [(scheme, netloc, url, query, fragment)] *)
Definition urlsplit (url : string)
  : result (string * string * string * string * string) :=
  let '(sch, url) := split_scheme url in
  '(net, url) ← split_netloc url;
  let '(url, frag) := split_off "#" url in
  let '(url, qry) := split_off "?" url in
  Ok (sch, net, url, qry, frag).

(** [_splitparams(url)], called when [';' in url] *)
Definition _splitparams (url : string) : string * string :=
  let r := rev url in
  match cut "/" r with
  | Some (tl, hd) =>
      (* [tl] is the reversed text after the last '/' *)
      match cut ";" (rev tl) with
      | Some (a, b) => (rev hd +:+ "/" +:+ a, b)
      | None => (url, "")
      end
  | None =>
      match cut ";" url with
      | Some (a, b) => (a, b)
      | None => (url, "")
      end
  end.

(** The params part of [urlparse]: [(url, params)] *)
Definition split_path (sch url : string) : string * string :=
  if bool_decide (sch ∈ uses_params) && mem ";" url
  then _splitparams url else (url, "").

(** [urlparse(url)] *)
Definition urlparse (url : string) : result (ParseResult string) :=
  '(sch, net, url, qry, frag) ← urlsplit url;
  let '(url, prm) := split_path sch url in
  Ok (mkParseResult sch net url prm qry frag).

(** [parse_qsl(qs)], [keep_blank_values=0], [strict_parsing=0] *)
Definition parse_nv (name_value : string) : list (string * string) :=
  match cut "=" name_value with
  | Some (n, v) =>
      if String.eqb v "" then []
      else [(Urllib.unquote (replace "+" " " n),
             Urllib.unquote (replace "+" " " v))]
  | None => []
  end.

Definition parse_qsl (qs : string) : list (string * string) :=
  let pairs := concat (map (split ";") (split "&" qs)) in
  concat (map parse_nv pairs).

(** [urlunsplit] and [urlunparse] *)
Definition urlunsplit (sch net url qry frag : string) : string :=
  let url :=
    if negb (String.eqb net "") ||
       (negb (String.eqb sch "") && bool_decide (sch ∈ uses_netloc)
        && negb (startswith "//" url))
    then "//" +:+ net +:+
         (if negb (String.eqb url "") && negb (startswith "/" url)
          then "/" +:+ url else url)
    else url in
  let url := if String.eqb sch "" then url else sch +:+ ":" +:+ url in
  let url := if String.eqb qry "" then url else url +:+ "?" +:+ qry in
  if String.eqb frag "" then url else url +:+ "#" +:+ frag.

Definition urlunparse (sch net url prm qry frag : string) : string :=
  let url := if String.eqb prm "" then url else url +:+ ";" +:+ prm in
  urlunsplit sch net url qry frag.

End Urlparse.

(** ** [class _Url] *)

Import Urlparse.

(** [parts] of a [_Url] object: a [ParseResult] whose query is a
    frozenset of pairs.  [__eq__] compares the [parts] and [__hash__]
    hashes them, so a [_Url] is its [parts]. *)
Definition UrlParts : Type := ParseResult (gset (string * string)).

(** [_Url.__init__] *)
Definition _Url (url : string) : result UrlParts :=
  parts ← urlparse (Str.lower url);
  let _query : gset (string * string) := list_to_set (parse_qsl (query parts)) in
  let _path := Urllib.unquote_plus (path parts) in
  Ok (mkParseResult (scheme parts) (netloc parts) _path (params parts)
                    _query (fragment parts)).

#[global] Instance ParseResult_eq_dec {Q} `{EqDecision Q} : EqDecision (ParseResult Q).
Proof. solve_decision. Defined.

#[global] Instance ParseResult_countable {Q} `{Countable Q} : Countable (ParseResult Q).
Proof.
  refine (inj_countable'
    (fun p => (scheme p, netloc p, path p, params p, query p, fragment p))
    (fun t => let '(a, b, c, d, e, f) := t in mkParseResult a b c d e f) _).
  intros []; reflexivity.
Defined.

(** ** Bill versions and the objects the scraper reads *)

Inductive mimetype : Type :=
| text_html
| application_wordperfect.

(** The dict [{'name': .., 'url': .., 'mimetype': ..}].  [url] is what
    [link.get('href')] returned for a linked version: [None] when the
    anchor has no [href]. *)
Record version : Type := mkVersion {
  name : string;
  url : option string;
  mimetype_of : mimetype
}.

(** An [a] element of the detail page, by the two attributes the
    scraper reads; [page] lists the [a] elements in document order. *)
Record anchor : Type := mkAnchor {
  title : option string;
  href : option string
}.
Definition page : Type := list anchor.

(** [self._version_filenames]: bill id to [(folder, filename)] pairs,
    as the adapters read it.  It is a plain dict after a cache load: a
    missing key raises the [KeyError] the adapters catch.  It is a
    [defaultdict(list)] after a rebuild: a missing key is then added
    with an empty list by the lookup itself.  Both give no entries for
    the key, which is all a reader sees; the key a [defaultdict] gains
    is not kept here. *)
Definition version_filenames : Type := gmap string (list (string * string)).

(** The attributes of the scraper object that [scrape_versions] uses.
    [guess_count] is [None] while the attribute has not been set. *)
Record scraper : Type := mkScraper {
  _version_filenames : version_filenames;
  guess_count : option Z
}.

(** ** Generators *)

(** A generator, unfolded: the values it yields, ending normally or in
    an exception raised by its body. *)
Inductive gen (A : Type) : Type :=
| Stop
| Yield (a : A) (rest : gen A)
| Throw (e : exn).
Arguments Stop {A}.
Arguments Yield {A} a rest.
Arguments Throw {A} e.

(** [for x in l: yield f(x)], followed by [k]. *)
Fixpoint gen_for {A B} (f : A -> result B) (l : list A) (k : gen B) : gen B :=
  match l with
  | [] => k
  | x :: l' =>
      match f x with
      | Ok b => Yield b (gen_for f l' k)
      | Raise e => Throw e
      end
  end.

(** The values yielded before the generator stops or raises. *)
Fixpoint yielded {A} (g : gen A) : list A :=
  match g with
  | Yield a g' => a :: yielded g'
  | _ => []
  end.

(** The exception that ends the generator, if any. *)
Fixpoint thrown {A} (g : gen A) : option exn :=
  match g with
  | Stop => None
  | Yield _ g' => thrown g'
  | Throw e => Some e
  end.

(** ** The three version adapters *)

Definition quote_char : ascii := "034"%char.

(** [re.compile(r'\"(.+)"').search(s)]: [group(1)] of the leftmost
    match, greedy; [.] does not match a newline. *)
Definition get_name_at (t : string) : option string :=
  match Str.before_last quote_char (fst (Str.break (Str.eqc newline) t)) with
  | Some (String a h) => Some (String a h)
  | _ => None
  end.

Fixpoint get_name (s : string) : option string :=
  match s with
  | "" => None
  | String a s' =>
      if Str.eqc a quote_char
      then match get_name_at s' with
           | Some g => Some g
           | None => get_name s'
           end
      else get_name s'
  end.

(** [//a[starts-with(@title, 'HTML -')]] *)
Definition is_html_link (a : anchor) : bool :=
  match title a with
  | Some t => Str.startswith "HTML -" t
  | None => false
  end.

(** [//a[contains(@title, 'WordPerfect')]] *)
Definition is_wpd_link (a : anchor) : bool :=
  match title a with
  | Some t => Str.contains "WordPerfect" t
  | None => false
  end.

Definition html_version (link : anchor) : result version :=
  match Str.split " - " (default "" (title link)) with
  | _ :: name :: _ => Ok (mkVersion name (href link) text_html)
  | _ => Raise IndexError
  end.

Definition wpd_version (link : anchor) : result version :=
  match get_name (default "" (title link)) with
  | Some name => Ok (mkVersion name (href link) application_wordperfect)
  | None => Raise (AttributeError "group")
  end.

Definition _scrape_versions_normally (pg : page) : gen version :=
  gen_for html_version (List.filter is_html_link pg)
    (gen_for wpd_version (List.filter is_wpd_link pg) Stop).

(** [bill_id.replace(' ', '').lower()] *)
Definition normalize_bill_id (bill_id : string) : string :=
  Str.lower (Str.replace " " "" bill_id).

Definition guess_url (session i filename : string) : string :=
  let _filename := Str.replace "+" "%20" filename +:+ ".htm" in
  urlunparse "http" "www.legis.state.wv.us" "/Bill_Status/bills_text.cfm" ""
    (Urllib.urlencode [("billdoc", _filename); ("yr", session);
                       ("sesstype", "RS"); ("i", i)])
    "".

Definition _scrape_versions_guess_url (self : scraper) (session bill_id : string)
  : gen (string * string) :=
  let _bill_id := normalize_bill_id bill_id in
  match Str.split_ws bill_id with
  | [billtype; i] =>
      let filenames := default [] (_version_filenames self !! _bill_id) in
      gen_for (fun e => Ok (snd e, guess_url session i (snd e))) filenames Stop
  | _ => Throw (ValueError "unpack")
  end.

Definition chamber_names (chamber : string) : result string :=
  if String.eqb chamber "upper" then Ok "senate"
  else if String.eqb chamber "lower" then Ok "House"
  else Raise (KeyError chamber).

(** The loop of [_scrape_versions_wpd]; [url] is the local variable the
    loop body reads and assigns. *)
Fixpoint wpd_loop (chamber_name url : string) (filenames : list (string * string))
  : gen version :=
  match filenames with
  | [] => Stop
  | (folder, filename) :: rest =>
      let _filename := Urllib.quote (filename +:+ ".wpd") in
      let url := Str.join "/" [url; chamber_name; folder; _filename] in
      Yield (mkVersion filename (Some url) application_wordperfect)
            (wpd_loop chamber_name url rest)
  end.

Definition _scrape_versions_wpd (self : scraper) (session chamber bill_id : string)
  : gen version :=
  match chamber_names chamber with
  | Raise e => Throw e
  | Ok chamber_name =>
      let _bill_id := normalize_bill_id bill_id in
      let url := "ftp://www.legis.state.wv.us/publicdocs/" +:+ session +:+ "/RS" in
      wpd_loop chamber_name url (default [] (_version_filenames self !! _bill_id))
  end.

(** ** [scrape_versions] *)

(** [_Url(data['url'])]: [None.lower()] is an [AttributeError]. *)
Definition _Url_obj (u : option string) : result UrlParts :=
  match u with
  | Some s => _Url s
  | None => Raise (AttributeError "lower")
  end.

Definition not_available : list string :=
  ["let us know that the text for"; "is not available"].

(** [for s in not_available: if s not in html: continue].  The body
    has nothing after the [if], so each phrase goes on to the next one
    whether it is found or not. *)
Fixpoint not_available_loop (html : string) (phrases : list string) : unit :=
  match phrases with
  | [] => tt
  | s :: rest =>
      if negb (Str.contains s html)
      then not_available_loop html rest
      else not_available_loop html rest
  end.

Section Reconciler.

(** [self.urlopen(url, retry_on_404=False)]: the fetched text, or the
    exception the fetch raised. *)
Variable urlopen : string -> result string.

Definition versions_state : Type := list version * gset UrlParts.

(** The loop over the first and over the third adapter:
    [if _url not in cache: cache.add(_url); res.append(data)]. *)
Fixpoint add_versions (g : gen version) (st : versions_state)
  : result versions_state :=
  match g with
  | Stop => Ok st
  | Throw e => Raise e
  | Yield data g' =>
      _url ← _Url_obj (url data);
      if bool_decide (_url ∉ st.2)
      then add_versions g' (st.1 ++ [data], {[_url]} ∪ st.2)
      else add_versions g' st
  end.

(** The loop over the guessed urls. *)
Fixpoint add_guesses (g : gen (string * string))
    (st : versions_state) (count : option Z)
  : result (versions_state * option Z) :=
  match g with
  | Stop => Ok (st, count)
  | Throw e => Raise e
  | Yield (filename, u) g' =>
      _url ← _Url u;
      if bool_decide (_url ∉ st.2)
      then match urlopen u with
           | Raise HTTPError => add_guesses g' st count
           | Raise e => Raise e
           | Ok body =>
               let html := Str.lower body in
               let _ := not_available_loop html not_available in
               match count with
               | None => Raise (AttributeError "guess_count")
               | Some n =>
                   let data := mkVersion filename (Some u) text_html in
                   add_guesses g' (st.1 ++ [data], {[_url]} ∪ st.2)
                               (Some (n + 1)%Z)
               end
           end
      else add_guesses g' st count
  end.

(** [scrape_versions]: the list returned, with the scraper and its
    counter as the call leaves it; the index goes through as it was
    read. *)
Definition scrape_versions (self : scraper)
    (session chamber : string) (pg : page) (bill_id : string)
  : result (list version * scraper) :=
  st ← add_versions (_scrape_versions_normally pg) ([], ∅);
  '(st, count) ← add_guesses (_scrape_versions_guess_url self session bill_id)
                             st (guess_count self);
  st ← add_versions (_scrape_versions_wpd self session chamber bill_id) st;
  Ok (st.1, mkScraper (_version_filenames self) count).

End Reconciler.

(** ** The regular expressions of [scrape_vote] *)

Module Re.
Import Str.

(** A greedy [p+] *)
Definition many1 (p : ascii -> bool) (s : string) : option (string * string) :=
  match span p s with
  | (String a h, t) => Some (String a h, t)
  | _ => None
  end.

(** A literal *)
Definition lit (l s : string) : option string :=
  if startswith l s then Some (drop (String.length l) s) else None.

(** [int(g)] for a string of decimal digits *)
Definition int (g : string) : Z :=
  let fix go (acc : Z) (s : string) : Z :=
    match s with
    | "" => acc
    | String a s' => go (10 * acc + Z.of_nat (ord a - 48))%Z s'
    end in
  go 0%Z g.

(** [re.search(r'(\d+)/(\d+)/(\d{4,4})$', line)]: the three groups
    of the leftmost match.  Read from the end of the line: four
    digits, a slash, a run of digits, a slash, a run of digits. *)
Definition search_date (line : string) : option (string * string * string) :=
  let r := rev line in
  let y := take 4 r in
  if (String.length y =? 4) && all is_digit y then
    s ← lit "/" (drop 4 r);
    '(d, s) ← many1 is_digit s;
    s ← lit "/" s;
    '(m, _) ← many1 is_digit s;
    Some (rev m, rev d, rev y)
  else None.

(** [re.match(r'\s+YEAS: (\d+)\s+NAYS: (\d+)\s+NOT VOTING: (\d+)', line)] *)
Definition match_tally (line : string) : option (string * string * string) :=
  '(_, s) ← many1 is_space line;
  s ← lit "YEAS: " s;
  '(y, s) ← many1 is_digit s;
  '(_, s) ← many1 is_space s;
  s ← lit "NAYS: " s;
  '(n, s) ← many1 is_digit s;
  '(_, s) ← many1 is_space s;
  s ← lit "NOT VOTING: " s;
  '(o, _) ← many1 is_digit s;
  Some (y, n, o).

(** [re.search(r'EXCUSED: (\d+)', line)] *)
Fixpoint search_excused (line : string) : option string :=
  match lit "EXCUSED: " line ≫= many1 is_digit with
  | Some (g, _) => Some g
  | None =>
      match line with
      | "" => None
      | String _ s' => search_excused s'
      end
  end.

(** [re.match(r'(YEAS|NAYS|NOT VOTING|PAIRED|EXCUSED):\s+(\d+)\s*$', line)] *)
Fixpoint first_lit (alts : list string) (s : string) : option (string * string) :=
  match alts with
  | [] => None
  | k :: alts' =>
      match lit k s with
      | Some t => Some (k, t)
      | None => first_lit alts' s
      end
  end.

Definition match_header (line : string) : option (string * string) :=
  '(k, s) ← first_lit ["YEAS"; "NAYS"; "NOT VOTING"; "PAIRED"; "EXCUSED"] line;
  s ← lit ":" s;
  '(_, s) ← many1 is_space s;
  '(g, s) ← many1 is_digit s;
  if all is_space s then Some (k, g) else None.

(** [re.match(r'([^\(]+)\((YEA|NAY)\)', line)] *)
Definition match_pair (line : string) : option (string * string) :=
  '(nm, s) ← many1 (fun c => negb (eqc c "(")) line;
  s ← lit "(" s;
  '(k, s) ← first_lit ["YEA"; "NAY"] s;
  _ ← lit ")" s;
  Some (nm, k).

End Re.

(** ** [scrape_vote] *)

(** [text.splitlines()] on a byte string *)
Definition splitlines (s : string) : list string :=
  Str.splitlines_by (fun c => Str.eqc c newline || Str.eqc c carriage_return) s.

(** [l[i]] with Python's negative indices *)
Definition getitem {A} (l : list A) (i : Z) : result A :=
  let j := if (i <? 0)%Z then (i + Z.of_nat (length l))%Z else i in
  if (j <? 0)%Z then Raise IndexError
  else match l !! Z.to_nat j with
       | Some x => Ok x
       | None => Raise IndexError
       end.

Record date : Type := mkDate { year : nat; month : nat; day : nat }.

Definition is_leap (y : nat) : bool :=
  (y mod 4 =? 0) && (negb (y mod 100 =? 0) || (y mod 400 =? 0)).

Definition days_in_month (y m : nat) : nat :=
  match m with
  | 2 => if is_leap y then 29 else 28
  | 4 | 6 | 9 | 11 => 30
  | _ => 31
  end.

(** [datetime.datetime.strptime(s, "%m/%d/%Y")] on the text of a match
    of the date pattern: [%m] and [%d] take one or two digits. *)
Definition strptime (m d y : string) : result date :=
  let mv := Z.to_nat (Re.int m) in
  let dv := Z.to_nat (Re.int d) in
  let yv := Z.to_nat (Re.int y) in
  if (String.length m <=? 2) && (1 <=? mv) && (mv <=? 12) &&
     (String.length d <=? 2) && (1 <=? dv) && (dv <=? days_in_month yv mv) &&
     (1 <=? yv)
  then Ok (mkDate yv mv dv)
  else Raise (ValueError "strptime").

(** The values [vote_type] takes once set *)
Inductive vote_type_t : Type := vt_yes | vt_no | vt_other | vt_paired.

#[global] Instance vote_type_eq_dec : EqDecision vote_type_t.
Proof. solve_decision. Defined.

Definition vote_type_of (keyword : string) : result vote_type_t :=
  if String.eqb keyword "YEAS" then Ok vt_yes
  else if String.eqb keyword "NAYS" then Ok vt_no
  else if String.eqb keyword "NOT VOTING" then Ok vt_other
  else if String.eqb keyword "EXCUSED" then Ok vt_other
  else if String.eqb keyword "PAIRED" then Ok vt_paired
  else Raise (KeyError keyword).

(** The local variables of [scrape_vote] that the loop assigns; [None]
    is a name not bound yet ([vote_type] starts as Python's [None]).
    [votes] is the [defaultdict(list)], by its three keys that are
    read. *)
Record locals : Type := mkLocals {
  l_date : option date;
  l_motion : option string;
  l_yes_count : option Z;
  l_no_count : option Z;
  l_other_count : option Z;
  l_passed : option bool;
  l_vote_type : option vote_type_t;
  votes_yes : list string;
  votes_no : list string;
  votes_other : list string
}.

Definition locals0 : locals :=
  mkLocals None None None None None None None [] [] [].

Definition set_date (d : date) (st : locals) : locals :=
  mkLocals (Some d) (l_motion st) (l_yes_count st) (l_no_count st)
    (l_other_count st) (l_passed st) (l_vote_type st)
    (votes_yes st) (votes_no st) (votes_other st).

Definition set_tally (mo : string) (y n o : Z) (p : bool) (st : locals) : locals :=
  mkLocals (l_date st) (Some mo) (Some y) (Some n) (Some o) (Some p)
    (l_vote_type st) (votes_yes st) (votes_no st) (votes_other st).

Definition set_vote_type (t : vote_type_t) (st : locals) : locals :=
  mkLocals (l_date st) (l_motion st) (l_yes_count st) (l_no_count st)
    (l_other_count st) (l_passed st) (Some t)
    (votes_yes st) (votes_no st) (votes_other st).

(** [votes[key].append(name)] *)
Definition votes_append (key : vote_type_t) (nm : string) (st : locals) : locals :=
  mkLocals (l_date st) (l_motion st) (l_yes_count st) (l_no_count st)
    (l_other_count st) (l_passed st) (l_vote_type st)
    (match key with vt_yes => votes_yes st ++ [nm] | _ => votes_yes st end)
    (match key with vt_no => votes_no st ++ [nm] | _ => votes_no st end)
    (match key with vt_other => votes_other st ++ [nm] | _ => votes_other st end).

(** The loop over [line.split('   ')] when [vote_type == 'paired'].
    The pattern is matched against [line], as in the source. *)
Fixpoint paired_loop (line : string) (parts : list string) (st : locals)
  : result locals :=
  match parts with
  | [] => Ok st
  | part :: rest =>
      let part := Str.strip part in
      if String.eqb part "" then paired_loop line rest st
      else match Re.match_pair line with
           | None => Raise (AttributeError "groups")
           | Some (nm, pair_type) =>
               let nm := Str.strip nm in
               if String.eqb pair_type "YEA"
               then paired_loop line rest (votes_append vt_yes nm st)
               else if String.eqb pair_type "NAY"
               then paired_loop line rest (votes_append vt_no nm st)
               else paired_loop line rest st
           end
  end.

(** The loop over [line.split('   ')] for the other vote types. *)
Fixpoint names_loop (key : vote_type_t) (parts : list string) (st : locals)
  : locals :=
  match parts with
  | [] => st
  | nm :: rest =>
      let nm := Str.strip nm in
      if String.eqb nm "" then names_loop key rest st
      else names_loop key rest (votes_append key nm st)
  end.

(** One iteration of [for idx, line in enumerate(lines)]. *)
Definition vote_line (lines : list string) (idx : nat) (line : string)
    (st : locals) : result locals :=
  let line := Str.rstrip line in
  match Re.search_date line with
  | Some (m, d, y) =>
      dt ← strptime m d y;
      Ok (set_date dt st)
  | None =>
      match Re.match_tally line with
      | Some (y, n, o) =>
          l ← getitem lines (Z.of_nat idx - 2);
          let motion := Str.strip l in
          let other_count :=
            match Re.search_excused line with
            | Some g => (Re.int o + Re.int g)%Z
            | None => Re.int o
            end in
          let passed := Str.endswith "ADOPTED" line || Str.endswith "PASSED" line in
          Ok (set_tally motion (Re.int y) (Re.int n) other_count passed st)
      | None =>
          match Re.match_header line with
          | Some (k, _) =>
              t ← vote_type_of k;
              Ok (set_vote_type t st)
          | None =>
              match l_vote_type st with
              | Some vt_paired => paired_loop line (Str.split "   " line) st
              | Some key => Ok (names_loop key (Str.split "   " line) st)
              | None => Ok st
              end
          end
      end
  end.

Fixpoint vote_lines (lines : list string) (idx : nat) (todo : list string)
    (st : locals) : result locals :=
  match todo with
  | [] => Ok st
  | line :: rest =>
      st' ← vote_line lines idx line st;
      vote_lines lines (S idx) rest st'
  end.

(** The [Vote] object handed to [bill.add_vote]. *)
Record vote : Type := mkVote {
  chamber : string;
  date_of : date;
  motion : string;
  passed : bool;
  yes_count : Z;
  no_count : Z;
  other_count : Z;
  yes_votes : list string;
  no_votes : list string;
  other_votes : list string
}.

(** Reading a local variable *)
Definition local {A} (var : string) (v : option A) : result A :=
  match v with
  | Some a => Ok a
  | None => Raise (UnboundLocalError var)
  end.

(** [assert c] *)
Definition assert (c : bool) : result unit :=
  if c then Ok tt else Raise AssertionError.

(** The statements of [scrape_vote] after the loop. *)
Definition make_vote (st : locals) : result vote :=
  d ← local "date" (l_date st);
  mo ← local "motion" (l_motion st);
  p ← local "passed" (l_passed st);
  y ← local "yes_count" (l_yes_count st);
  n ← local "no_count" (l_no_count st);
  o ← local "other_count" (l_other_count st);
  let v := mkVote "lower" d mo p y n o (votes_yes st) (votes_no st) (votes_other st) in
  _ ← assert (Z.of_nat (length (yes_votes v)) =? y)%Z;
  _ ← assert (Z.of_nat (length (no_votes v)) =? n)%Z;
  _ ← assert (Z.of_nat (length (other_votes v)) =? o)%Z;
  Ok v.

(** [scrape_vote], from the text [convert_pdf] returned to the vote
    added to the bill. *)
Definition scrape_vote (text : string) : result vote :=
  let lines := splitlines text in
  st ← vote_lines lines 0 lines locals0;
  make_vote st.

(** ** [_get_version_filenames] *)

(** The listing text is decoded from ISO-8859-1 before it is split, so
    these are the [unicode] methods: their line breaks and whitespace
    include control characters that the [str] methods leave alone. *)
Definition unicode_linebreak (c : ascii) : bool :=
  Str.in_range 10 13 c || Str.in_range 28 30 c || (Str.ord c =? 133).

Definition unicode_space (c : ascii) : bool :=
  Str.in_range 9 13 c || Str.in_range 28 32 c || (Str.ord c =? 133)
  || (Str.ord c =? 160).

Definition unicode_lower_char (c : ascii) : ascii :=
  if Str.is_upper c
     || (Str.in_range 192 222 c && negb (Str.ord c =? 215))
  then Str.chr (Str.ord c + 32) else c.

Fixpoint unicode_lower (s : string) : string :=
  match s with
  | "" => ""
  | String c s' => String (unicode_lower_char c) (unicode_lower s')
  end.

(** [' '.join(x.split()[3:])] *)
Definition listing_dir (x : string) : string :=
  Str.join " " (skipn 3 (Str.split_ws_from unicode_space None x)).

(** [re.compile(r'\s+').split(x, n)[-1]] *)
Fixpoint resplit_last (n : nat) (x : string) : string :=
  match n with
  | O => x
  | S k =>
      match snd (Str.break Str.is_space x) with
      | "" => x
      | t => resplit_last k (snd (Str.span Str.is_space t))
      end
  end.

(** [re.compile(r'\.wpd$', re.I).search] as a test *)
Definition matchwpd (fn : string) : bool :=
  let n := String.length fn in
  (4 <=? n) && String.eqb (Str.lower (Str.drop (n - 4) fn)) ".wpd".

(** [os.path.splitext(fn)[0]] for a name accepted by [matchwpd]: the
    extension is split off unless the base name before it is empty or
    all dots. *)
Definition splitext_root (fn : string) : string :=
  let stem := Str.take (String.length fn - 4) fn in
  let base :=
    match Str.cut "/" (Str.rev stem) with
    | Some (b, _) => b
    | None => stem
    end in
  if Str.all (fun c => Str.eqc c ".") base then fn else stem.

(** [version_filenames[key].append(entry)] on the [defaultdict(list)] *)
Definition append_entry (key : string) (entry : string * string)
    (m : version_filenames) : version_filenames :=
  <[key := default [] (m !! key) ++ [entry]]> m.

(** The loop [for fn in filenames] for one directory [d]. *)
Fixpoint add_filenames (d : string) (filenames : list string)
    (m : version_filenames) : result version_filenames :=
  match filenames with
  | [] => Ok m
  | fn :: rest =>
      let fn := splitext_root fn in
      match Str.cut " " fn with
      | Some (bill_id, _) =>
          add_filenames d rest (append_entry (unicode_lower bill_id) (d, fn) m)
      | None => Raise (ValueError "unpack")
      end
  end.

(** What [open] and [json.load] make of a file: a JSON document
    holding a mapping, or text that [json.load] rejects. *)
Inductive file : Type :=
| json_file (m : version_filenames)
| not_json (text : string).

(** The files under [/tmp], by path. *)
Definition files : Type := gmap string file.

Definition cache_path (chamber : string) : string :=
  "/tmp/" +:+ chamber +:+ ".wv_version_filenames.json".

(** [open(path)], for reading *)
Definition open (fs : files) (path : string) : result file :=
  match fs !! path with
  | Some f => Ok f
  | None => Raise IOError
  end.

(** [json.load(f)] *)
Definition json_load (f : file) : result version_filenames :=
  match f with
  | json_file m => Ok m
  | not_json _ => Raise (ValueError "No JSON object could be decoded")
  end.

Section Builder.

Variable urlopen : string -> result string.

(** A computation that fetches: the urls it opened, in order, and its
    result. *)
Definition fetching (A : Type) : Type := list string * result A.

(** The loop [for d in dirs]. *)
Fixpoint scan_dirs (ftp_url : string) (dirs : list string)
    (m : version_filenames) : fetching version_filenames :=
  match dirs with
  | [] => ([], Ok m)
  | d :: rest =>
      let url := Str.replace " " "%20" (ftp_url +:+ d +:+ "/") in
      match urlopen url with
      | Raise e => ([url], Raise e)
      | Ok html =>
          let filenames :=
            List.filter matchwpd
                   (map (resplit_last 3) (Str.splitlines_by unicode_linebreak html)) in
          match add_filenames d filenames m with
          | Raise e => ([url], Raise e)
          | Ok m' =>
              let '(log, r) := scan_dirs ftp_url rest m' in
              (url :: log, r)
          end
      end
  end.

(** The statements after the [try], up to the assignment of
    [self._version_filenames]. *)
Definition rebuild (session chamber : string) : fetching version_filenames :=
  match chamber_names chamber with
  | Raise e => ([], Raise e)
  | Ok chamber_name =>
      let ftp_url := "ftp://www.legis.state.wv.us/publicdocs/" +:+ session
                     +:+ "/RS/" +:+ chamber_name +:+ "/" in
      match urlopen ftp_url with
      | Raise e => ([ftp_url], Raise e)
      | Ok html =>
          let dirs := map listing_dir (Str.splitlines_by unicode_linebreak html) in
          let '(log, r) := scan_dirs ftp_url dirs ∅ in
          (ftp_url :: log, r)
      end
  end.

(** [_get_version_filenames]: the urls fetched, and the scraper and
    the files as the call leaves them. *)
Definition _get_version_filenames (fs : files) (self : scraper)
    (session chamber : string) : fetching (scraper * files) :=
  match open fs (cache_path chamber) with
  | Ok f =>
      ([], version_filenames ← json_load f;
           Ok (mkScraper version_filenames (guess_count self), fs))
  | Raise IOError =>
      let '(log, r) := rebuild session chamber in
      (log, version_filenames ← r;
            Ok (mkScraper version_filenames (guess_count self),
                <[cache_path chamber := json_file version_filenames]> fs))
  | Raise e => ([], Raise e)
  end.

End Builder.

(** * Specification-side definitions *)

(** ** Reconciliation as the specification words it

    The candidates are taken in order; one is added when its canonical
    key has not been seen, and its key is then seen. *)
Fixpoint reconcile (l : list version) (seen : gset UrlParts) : list version :=
  match l with
  | [] => []
  | v :: l' =>
      match _Url_obj (url v) with
      | Ok k =>
          if bool_decide (k ∉ seen)
          then v :: reconcile l' ({[k]} ∪ seen)
          else reconcile l' seen
      | Raise _ => reconcile l' seen
      end
  end.

(** The canonical keys of a list of versions *)
Fixpoint keyset (l : list version) : gset UrlParts :=
  match l with
  | [] => ∅
  | v :: l' =>
      match _Url_obj (url v) with
      | Ok k => {[k]} ∪ keyset l'
      | Raise _ => keyset l'
      end
  end.

(** The html-typed version made from a guessed [(filename, url)] *)
Definition guess_version (c : string * string) : version :=
  mkVersion c.1 (Some c.2) text_html.

(** The guessed candidates whose fetch returned a page *)
Definition fetched (urlopen : string -> result string)
    (l : list (string * string)) : list (string * string) :=
  List.filter (fun c => is_ok (urlopen c.2)) l.

(** [_Url(u) not in seen] *)
Definition unseen (u : string) (seen : gset UrlParts) : bool :=
  match _Url u with
  | Ok k => bool_decide (k ∉ seen)
  | Raise _ => false
  end.

(** A fetch that returns a page or fails with the HTTP error that
    [scrape_versions] catches *)
Definition page_or_http_error (r : result string) : Prop :=
  match r with
  | Ok _ | Raise HTTPError => True
  | Raise _ => False
  end.

#[global] Instance page_or_http_error_dec r : Decision (page_or_http_error r).
Proof. destruct r as [|[]]; cbn; apply _. Defined.

(** ** Sample inputs *)

Module Sample.

(** A legacy index with two entries for SB 1 *)
Definition index : version_filenames :=
  {[ "sb1" := [("01-12", "sb1 intr"); ("02-20", "sb1 sub1")] ]}.

(** A scraper as the class leaves it: [guess_count] was never set. *)
Definition self : scraper := mkScraper index None.

(** A detail page with one linked html version *)
Definition detail_page : page :=
  [mkAnchor (Some "HTML - Introduced Version - SB 1")
            (Some "http://www.legis.state.wv.us/Bill_Status/bills_text.cfm?billdoc=SB1%20INTR.htm&yr=2011&sesstype=RS&i=1");
   mkAnchor (Some "Sponsors") (Some "http://www.legis.state.wv.us/Bill_Status/Bills_Sponsors.cfm")].

(** A site without guessed documents: every fetch is a 404. *)
Definition site_404 (u : string) : result string := Raise HTTPError.

(** A site that answers every guess with its placeholder page. *)
Definition placeholder : string :=
  "<p>Please let us know that the text for this bill Is Not Available.</p>".
Definition site_placeholder (u : string) : result string := Ok placeholder.

(** The remote listing: two dated folders, three files *)
Definition nl : string := String newline "".

Definition ftp_site (u : string) : result string :=
  if String.eqb u "ftp://www.legis.state.wv.us/publicdocs/2011/RS/senate/"
  then Ok ("01-12-11  03:04PM  <DIR>  jan 12" +:+ nl +:+
           "02-20-11  03:04PM  <DIR>  feb20")
  else if String.eqb u "ftp://www.legis.state.wv.us/publicdocs/2011/RS/senate/jan%2012/"
  then Ok ("01-12-11  03:04PM  1234 SB1 intr.WPD" +:+ nl +:+
           "01-12-11  03:05PM  2345 sb2 intr.htm")
  else if String.eqb u "ftp://www.legis.state.wv.us/publicdocs/2011/RS/senate/feb20/"
  then Ok "02-20-11  03:04PM  1234 sb1 sub1.wpd"
  else Raise HTTPError.

(** A cache file that is not JSON *)
Definition corrupt_cache : files :=
  {[ cache_path "upper" := not_json "{" ]}.

(** The text of a vote record: two yeas, one nay, two others *)
Definition vote_text : string :=
  "On passage of the bill" +:+ nl +:+
  "  HB 2001   03/12/2011" +:+ nl +:+
  "" +:+ nl +:+
  "  YEAS: 2   NAYS: 1   NOT VOTING: 1   EXCUSED: 1  PASSED" +:+ nl +:+
  "YEAS: 2" +:+ nl +:+
  "  Smith   Jones (Kanawha)" +:+ nl +:+
  "NAYS: 1" +:+ nl +:+
  " Adams" +:+ nl +:+
  "NOT VOTING: 1" +:+ nl +:+
  "Brown" +:+ nl +:+
  "EXCUSED: 1" +:+ nl +:+
  "Green".

(** A vote record with a pair: Smith for, Jones against *)
Definition paired_text : string :=
  "On passage of the bill" +:+ nl +:+
  "  HB 2001   03/12/2011" +:+ nl +:+
  "" +:+ nl +:+
  "  YEAS: 1   NAYS: 1   NOT VOTING: 0  PASSED" +:+ nl +:+
  "PAIRED: 2" +:+ nl +:+
  "Smith (YEA)   Jones (NAY)".

End Sample.

(** The url the legacy-index adapter is described to build for one
    entry: the remote root, the chamber's folder, the entry's dated
    folder and its quoted file name. *)
Definition wpd_url (session chamber_name folder filename : string) : string :=
  Str.join "/" ["ftp://www.legis.state.wv.us/publicdocs/" +:+ session +:+ "/RS";
                chamber_name; folder; Urllib.quote (filename +:+ ".wpd")].

(** The query parameters a server decodes from a url *)
Definition query_params (u : string) : result (list (string * string)) :=
  parts ← urlparse u;
  Ok (parse_qsl (query parts)).

(** A generator that yields the elements of a list and stops *)
Fixpoint gen_of_list {A} (l : list A) : gen A :=
  match l with
  | [] => Stop
  | x :: l' => Yield x (gen_of_list l')
  end.

(** [quote_plus], one character at a time: a space becomes a plus
    sign, a letter, a digit or one of [_.-] stays, anything else is
    escaped. *)
Definition quote_plus_char (c : ascii) : string :=
  if Str.eqc c " " then "+" else Urllib.quoter "" c.

Fixpoint quote_plus_chars (s : string) : string :=
  match s with
  | "" => ""
  | String c s' => quote_plus_char c +:+ quote_plus_chars s'
  end.

(** A character that is not a delimiter of a query string *)
Definition query_safe (c : ascii) : bool := negb (Str.mem c "#&;=").

(** ** Urls that differ in form only *)

(** A path character that may stand for itself *)
Definition plain (c : ascii) : bool := negb (Str.mem c "%?#;").


(** [x] is a percent-escape of the byte [c]; its hex digits may be in
    either case. *)
Definition escapes (c : ascii) (x : string) : Prop :=
  Str.lower x = Str.lower (Urllib.pct c).

(** [path_spelling lit b e]: [e] spells the bytes [b], each byte
    written as itself, when [lit] allows it, or as a percent-escape. *)
Inductive path_spelling (lit : ascii -> bool) : string -> string -> Prop :=
| spell_nil : path_spelling lit "" ""
| spell_lit c b e :
    lit c = true -> path_spelling lit b e ->
    path_spelling lit (String c b) (String c e)
| spell_esc c x b e :
    escapes c x -> path_spelling lit b e ->
    path_spelling lit (String c b) (x +:+ e).


(** A character that does not end the path *)
Definition path_char (a : ascii) : bool := negb (Str.mem a "?#;").

(** The url [sch://host/p] followed by [rest] *)
Definition absolute (sch host p rest : string) : string :=
  sch +:+ "://" +:+ host +:+ "/" +:+ p +:+ rest.

(** What may follow the path: nothing, a query or a fragment *)
Definition after_path (rest : string) : bool :=
  match rest with
  | "" => true
  | String c _ => Str.mem c "?#"
  end.

Definition host_char (c : ascii) : bool := negb (Str.mem c "/?#").

(** Two absolute urls that differ only in how the bytes of the path
    are percent-encoded *)
Definition differ_in_path_encoding (u1 u2 : string) : Prop :=
  exists sch host b p1 p2 rest,
    sch <> "" /\ Str.all scheme_char sch = true /\
    Str.all host_char host = true /\ after_path rest = true /\
    path_spelling plain b p1 /\ path_spelling plain b p2 /\
    u1 = absolute sch host p1 rest /\ u2 = absolute sch host p2 rest.

(** The text left of the query mark, free of query and fragment marks *)
Definition markless (b : string) : Prop :=
  Str.mem "?" b = false /\ Str.mem "#" b = false.

(** A query segment: no ampersand, no fragment mark *)
Definition segment (s : string) : Prop :=
  Str.mem "&" s = false /\ Str.mem "#" s = false.

(** A query segment that carries no value: no equals sign, or nothing
    after its only one *)
Definition blank_segment (s : string) : Prop :=
  Str.mem ";" s = false /\
  (Str.mem "=" s = false \/ exists k, s = k +:+ "=" /\ Str.mem "=" k = false).


(** ** The legacy index, by key *)

(** The key a listed [.wpd] name is filed under: its first word,
    lower-cased; [None] when the name, less its extension, has no
    space. *)
Definition entry_key (fn : string) : option string :=
  match Str.cut " " (splitext_root fn) with
  | Some (bill_id, _) => Some (unicode_lower bill_id)
  | None => None
  end.

(** The entries of a mapping under a key, none when the key is absent *)
Definition entries_of (m : version_filenames) (k : string) : list (string * string) :=
  default [] (m !! k).

(** The url of the listing of the dated folder [d] *)
Definition dir_url (ftp_url d : string) : string :=
  Str.replace " " "%20" (ftp_url +:+ d +:+ "/").

(** Every entry is filed under the lower-cased first word of its file
    name. *)
Definition well_keyed (m : version_filenames) : Prop :=
  forall k folder filename,
    (folder, filename) ∈ entries_of m k ->
    exists bill_id rest,
      filename = bill_id +:+ " " +:+ rest /\ Str.mem " " bill_id = false /\
      k = unicode_lower bill_id.

(** ** The roll-call parser, by line *)

(** The member list of a vote type; nothing is kept under [paired]. *)
Definition votes_of (key : vote_type_t) (st : locals) : list string :=
  match key with
  | vt_yes => votes_yes st
  | vt_no => votes_no st
  | vt_other => votes_other st
  | vt_paired => []
  end.

(** The names on a line: its pieces between runs of three spaces,
    stripped, the blank ones left out *)
Definition fragments (line : string) : list string :=
  List.filter (fun nm => negb (String.eqb nm ""))
              (map Str.strip (Str.split "   " line)).

(** What a tally line assigns *)
Definition tally_fields (st : locals)
  : option string * option Z * option Z * option Z * option bool :=
  (l_motion st, l_yes_count st, l_no_count st, l_other_count st, l_passed st).

(** A line the loop takes for a date line *)
Definition is_date_line (raw : string) : bool :=
  match Re.search_date (Str.rstrip raw) with
  | Some _ => true
  | None => false
  end.

(** A line the loop takes for a tally summary *)
Definition is_tally_line (raw : string) : bool :=
  negb (is_date_line raw) &&
  match Re.match_tally (Str.rstrip raw) with
  | Some _ => true
  | None => false
  end.

(** A line the loop takes for a category header *)
Definition is_header_line (raw : string) : bool :=
  negb (is_date_line raw) && negb (is_tally_line raw) &&
  match Re.match_header (Str.rstrip raw) with
  | Some _ => true
  | None => false
  end.

(** The category headers and the vote type each one selects *)
Definition headers : list (string * vote_type_t) :=
  [("YEAS", vt_yes); ("NAYS", vt_no); ("NOT VOTING", vt_other);
   ("PAIRED", vt_paired); ("EXCUSED", vt_other)].

(** ** [scrape_bill]: the type of the bill and its actions

    The bill id and the text of the table cells are byte strings, as
    [lxml] gives them for a page in ASCII. *)

(** The class attribute [bill_types], with the [KeyError] of a
    missing key *)
Definition bill_types (key : string) : result string :=
  if String.eqb key "B" then Ok "bill"
  else if String.eqb key "R" then Ok "resolution"
  else if String.eqb key "CR" then Ok "concurrent resolution"
  else if String.eqb key "JR" then Ok "joint resolution"
  else Raise (KeyError key).

(** [self.bill_types[bill_id.split()[0][1:]]] *)
Definition bill_type_of (bill_id : string) : result string :=
  first ← getitem (Str.split_ws bill_id) 0;
  bill_types (Str.drop 1 first).

(** The two tests on the chamber an action moves the bill to *)
Definition to_senate (action : string) : bool :=
  String.eqb action "Communicated to Senate"
  || Str.startswith "Senate received" action
  || Str.startswith "Ordered to Senate" action.

Definition to_house (action : string) : bool :=
  String.eqb action "Communicated to House"
  || Str.startswith "House received" action
  || Str.startswith "Ordered to House" action.

(** [actor] after the first [if] of the loop body *)
Definition actor_after (actor action : string) : string :=
  if to_senate action then "upper"
  else if to_house action then "lower"
  else actor.

(** [re.match(r'To [A-Z]', action)] *)
Definition match_to_upper (action : string) : bool :=
  match Re.lit "To " action with
  | Some (String c _) => Str.is_upper c
  | _ => false
  end.

(** [atype] after the second [if] of the loop body *)
Definition atype_of (action : string) : string :=
  if String.eqb action "Read 1st time" then "bill:reading:1"
  else if String.eqb action "Read 2nd time" then "bill:reading:2"
  else if String.eqb action "Read 3rd time" then "bill:reading:3"
  else if String.eqb action "Filed for introduction" then "bill:filed"
  else if Str.startswith "To Governor" action
          && negb (Str.contains "Journal" action) then "governor:received"
  else if match_to_upper action then "committee:referred"
  else if Str.startswith "Introduced in" action then "bill:introduced"
  else if Str.startswith "Approved by Governor" action
          && negb (Str.contains "Journal" action) then "governor:signed"
  else if Str.startswith "Passed Senate" action
          || Str.startswith "Passed House" action then "bill:passed"
  else if Str.startswith "Reported do pass" action
          || Str.startswith "With amendment, do pass" action
       then "committee:passed"
  else "other".

(** What [bill.add_action(actor, action, date, type=atype)] records *)
Record action_t : Type := mkAction {
  act_actor : string;
  act_text : string;
  act_date : date;
  act_type : string
}.

(** A row of the history table: the [text_content()] of its [td]
    children, in order *)
Definition row : Type := list string.

(** The cell the date is read from: the third on a bill, the first on
    a resolution.  [None] for a row of fewer than three cells, which
    the loop skips. *)
Definition date_cell (bill_type : string) (tds : row) : option string :=
  match tds with
  | td0 :: _ :: td2 :: _ =>
      Some (Str.strip (if String.eqb bill_type "bill" then td2 else td0))
  | _ => None
  end.

Definition action_cell (tds : row) : option string :=
  match tds with
  | _ :: td1 :: _ :: _ => Some (Str.strip td1)
  | _ => None
  end.

Section Actions.

(** [datetime.datetime.strptime(s, "%m/%d/%y").date()] *)
Variable strptime_y : string -> result date.

(** The loop over the rows, from the actor it starts with to the
    actions it adds. *)
Fixpoint actions_loop (bill_type actor : string) (trs : list row)
  : result (list action_t) :=
  match trs with
  | [] => Ok []
  | tds :: rest =>
      match date_cell bill_type tds, action_cell tds with
      | Some d, Some action =>
          dt ← strptime_y d;
          let actor' := actor_after actor action in
          acts ← actions_loop bill_type actor' rest;
          Ok (mkAction actor' action dt (atype_of action) :: acts)
      | _, _ => actions_loop bill_type actor rest
      end
  end.

(** The rows are taken without the first and from the last one up. *)
Definition scrape_actions (bill_type chamber : string) (trs : list row)
  : result (list action_t) :=
  actions_loop bill_type chamber (List.rev (List.tail trs)).

End Actions.

(** The actor in force after a list of actions *)
Definition last_actor (actor : string) (acts : list action_t) : string :=
  match last acts with
  | Some a => act_actor a
  | None => actor
  end.

(** Closing a decidable goal on closed terms by evaluation *)
Ltac decide_by_compute :=
  match goal with
  | |- ?P =>
      let d := constr:(_ : Decision P) in
      apply (@bool_decide_eq_true_1 P d); vm_compute; reflexivity
  end.

(** * Properties *)

#[local] Set Warnings "-clear-no-such-hyp".

#[local] Set Warnings "-clear-no-such-hyp".

(** ** Strings *)

Lemma append_nil_r (s : string) : s +:+ "" = s.
Proof. induction s as [|a s IH]; [reflexivity|]. change (String a (s +:+ "") = String a s). by rewrite IH. Qed.

Lemma append_cons (x : ascii) (a b : string) :
  String x a +:+ b = String x (a +:+ b).
Proof. reflexivity. Qed.

Lemma append_assoc (a b c : string) : (a +:+ b) +:+ c = a +:+ (b +:+ c).
Proof. induction a as [|x a IH]; [reflexivity|]. rewrite !append_cons. by rewrite IH. Qed.

Lemma lower_app (a b : string) :
  Str.lower (a +:+ b) = Str.lower a +:+ Str.lower b.
Proof. induction a as [|x a IH]; [reflexivity|]. rewrite append_cons. cbn [Str.lower]. rewrite append_cons. by rewrite IH. Qed.

Lemma rev_acc_app (s acc : string) : Str.rev_acc s acc = Str.rev s +:+ acc.
Proof.
  unfold Str.rev. revert acc.
  induction s as [|a s IH]; intros acc; cbn [Str.rev_acc]; [reflexivity|].
  rewrite (IH (String a acc)), (IH (String a "")), append_assoc. reflexivity.
Qed.

Lemma rev_cons (a : ascii) (s : string) :
  Str.rev (String a s) = Str.rev s +:+ String a "".
Proof. unfold Str.rev at 1. cbn [Str.rev_acc]. apply rev_acc_app. Qed.

Lemma rev_app (a b : string) : Str.rev (a +:+ b) = Str.rev b +:+ Str.rev a.
Proof.
  induction a as [|x a IH].
  - cbn. by rewrite append_nil_r.
  - rewrite append_cons, !rev_cons, IH, append_assoc. reflexivity.
Qed.

Lemma rev_involutive (s : string) : Str.rev (Str.rev s) = s.
Proof.
  induction s as [|a s IH]; [reflexivity|].
  rewrite rev_cons, rev_app, IH. reflexivity.
Qed.

Lemma startswith_spec (p s : string) :
  Str.startswith p s = true <-> exists t, s = p +:+ t.
Proof.
  unfold Str.startswith. revert s.
  induction p as [|a p IH]; intros s; cbn [String.prefix].
  - split; [intros _; by exists s | by destruct s].
  - destruct s as [|b s]; [split; [done | intros [t Ht]; discriminate]|].
    cbn [String.prefix]. destruct (ascii_dec a b) as [<-|Hne].
    + rewrite IH. split; intros [t Ht]; exists t.
      * rewrite append_cons. by f_equal.
      * rewrite append_cons in Ht. by injection Ht.
    + split; [done|]. intros [t Ht]. rewrite append_cons in Ht.
      injection Ht as Hab _. congruence.
Qed.

Lemma endswith_spec (p s : string) :
  Str.endswith p s = true <-> exists t, s = t +:+ p.
Proof.
  unfold Str.endswith. rewrite startswith_spec. split; intros [t Ht].
  - exists (Str.rev t). apply (f_equal Str.rev) in Ht.
    by rewrite rev_involutive, rev_app, rev_involutive in Ht.
  - exists (Str.rev t). by rewrite Ht, rev_app.
Qed.

Lemma reconcile_app (a b : list version) (s : gset UrlParts) :
  reconcile (a ++ b) s = reconcile a s ++ reconcile b (keyset a ∪ s).
Proof.
  revert s. induction a as [|v a IH]; intros s; cbn [reconcile keyset app].
  - f_equal. set_solver.
  - destruct (_Url_obj (url v)) as [k|e]; [|apply IH].
    case_bool_decide as Hk.
    + cbn [app]. f_equal. rewrite IH. do 2 f_equal. set_solver.
    + rewrite IH. do 2 f_equal. set_solver.
Qed.


Section ReconcilerFacts.
Variable urlopen : string -> result string.

Lemma add_versions_ok g st st' :
  add_versions g st = Ok st' ->
  st'.1 = st.1 ++ reconcile (yielded g) st.2 /\
  st'.2 = keyset (yielded g) ∪ st.2.
Proof.
  revert st. induction g as [|data g IH|e]; intros [res cache] H; cbn in H.
  - injection H as <-. cbn. split; [by rewrite app_nil_r | set_solver].
  - cbn [yielded reconcile keyset fst snd].
    destruct (_Url_obj (url data)) as [k|e]; [|discriminate]. cbn in H.
    destruct (decide (k ∈ cache)) as [Hk|Hk].
    + rewrite bool_decide_false in H |- * by (intros ?; done).
      apply IH in H as [H1 H2]; cbn in *.
      rewrite H1, H2. split; [done | set_solver].
    + rewrite bool_decide_true in H |- * by done.
      apply IH in H as [H1 H2]; cbn in *.
      rewrite H1, H2, <- app_assoc. split; [done | set_solver].
  - discriminate.
Qed.

Lemma add_guesses_ok g st count st' count' :
  add_guesses urlopen g st count = Ok (st', count') ->
  st'.1 = st.1 ++ reconcile (map guess_version (fetched urlopen (yielded g))) st.2 /\
  st'.2 = keyset (map guess_version (fetched urlopen (yielded g))) ∪ st.2.
Proof.
  revert st count. induction g as [|[f u] g IH|e]; intros [res cache] count H; cbn in H.
  - injection H as <- <-. cbn. split; [by rewrite app_nil_r | set_solver].
  - cbn [yielded fetched List.filter fst snd].
    destruct (_Url u) as [k|e] eqn:Hu; [|discriminate]. cbn in H.
    destruct (decide (k ∈ cache)) as [Hk|Hk].
    + rewrite bool_decide_false in H by (intros ?; done).
      apply IH in H as [H1 H2]; cbn [fst snd] in *.
      destruct (urlopen u) as [body|e]; cbn [is_ok]; [|by split].
      cbn [map reconcile keyset guess_version url _Url_obj fst snd].
      rewrite Hu, bool_decide_false by (intros ?; done).
      rewrite H2. split; [done | set_solver].
    + rewrite bool_decide_true in H by done.
      destruct (urlopen u) as [body|e]; cbn [is_ok].
      * destruct count as [n|]; [|discriminate].
        apply IH in H as [H1 H2]; cbn [fst snd] in *.
        cbn [map reconcile keyset guess_version url _Url_obj fst snd].
        rewrite Hu, bool_decide_true by done.
        rewrite H1, H2, <- app_assoc. split; [done | set_solver].
      * destruct e; try discriminate. by apply IH in H.
  - discriminate.
Qed.

(** The versions [scrape_versions] returns are the candidates of the
    three adapters, in that order, each kept when its key is new. *)
Lemma scrape_versions_ok self session chamber pg bill_id res self' :
  scrape_versions urlopen self session chamber pg bill_id = Ok (res, self') ->
  res = reconcile
          (yielded (_scrape_versions_normally pg)
           ++ map guess_version
                (fetched urlopen (yielded (_scrape_versions_guess_url self session bill_id)))
           ++ yielded (_scrape_versions_wpd self session chamber bill_id)) ∅.
Proof.
  unfold scrape_versions. intros H.
  destruct (add_versions _ _) as [st1|] eqn:H1; [|discriminate]. cbn in H.
  destruct (add_guesses _ _ _ _) as [[st2 c2]|] eqn:H2; [|discriminate]. cbn in H.
  destruct (add_versions _ st2) as [st3|] eqn:H3; [|discriminate]. cbn in H.
  injection H as <- <-.
  apply add_versions_ok in H1 as [R1 C1], H3 as [R3 C3].
  apply add_guesses_ok in H2 as [R2 C2]. cbn [fst snd] in *.
  rewrite !reconcile_app, R3, R2, R1, C2, C1. cbn [app].
  rewrite <- app_assoc. repeat f_equal; set_solver.
Qed.

Lemma add_versions_returns g st :
  thrown g = None ->
  Forall (fun v => is_ok (_Url_obj (url v)) = true) (yielded g) ->
  is_ok (add_versions g st) = true.
Proof.
  revert st. induction g as [|data g IH|e]; intros st Ht Hk; cbn in *.
  - done.
  - apply Forall_cons in Hk as [Hd Hk].
    destruct (_Url_obj (url data)) as [k|]; [|done]. cbn.
    case_bool_decide; by apply IH.
  - done.
Qed.

Lemma add_guesses_returns g st count :
  thrown g = None ->
  Forall (fun c => is_ok (_Url c.2) = true) (yielded g) ->
  Forall (fun c => page_or_http_error (urlopen c.2)) (yielded g) ->
  (count = None -> fetched urlopen (yielded g) = []) ->
  is_ok (add_guesses urlopen g st count) = true.
Proof.
  revert st count.
  induction g as [|[f u] g IH|e]; intros st count Ht Hk Hf Hc; cbn in *.
  - done.
  - apply Forall_cons in Hk as [Hd Hk]. apply Forall_cons in Hf as [Hu Hf].
    cbn [snd] in *.
    destruct (_Url u) as [k|]; [|done]. cbn.
    destruct (urlopen u) as [body|e] eqn:Hb; cbn [is_ok] in Hc.
    + destruct count as [n|]; [|by specialize (Hc eq_refl)].
      case_bool_decide; by apply IH.
    + destruct e; try done. case_bool_decide; by apply IH.
  - done.
Qed.

Lemma add_guesses_unset g st c k body :
  c ∈ yielded g -> _Url c.2 = Ok k -> k ∉ st.2 -> urlopen c.2 = Ok body ->
  exists e, add_guesses urlopen g st None = Raise e /\
    (Forall (fun c => is_ok (_Url c.2) = true) (yielded g) ->
     Forall (fun c => page_or_http_error (urlopen c.2)) (yielded g) ->
     e = AttributeError "guess_count").
Proof.
  intros Hin Hk Hnew Hb.
  induction g as [|[f u] g IH|e]; cbn in *.
  - by apply elem_of_nil in Hin.
  - destruct (_Url u) as [k'|e] eqn:Hu; cbn.
    2:{ eexists; split; [done|]. intros Hok _.
        apply Forall_cons in Hok as [Hok _]. cbn in Hok. by rewrite Hu in Hok. }
    assert (Hrest : (f, u) ≠ c -> exists e,
      add_guesses urlopen g st None = Raise e /\
      (Forall (fun c => is_ok (_Url c.2) = true) ((f, u) :: yielded g) ->
       Forall (fun c => page_or_http_error (urlopen c.2)) ((f, u) :: yielded g) ->
       e = AttributeError "guess_count")).
    { intros Hne. apply elem_of_cons in Hin as [->|Hin]; [done|].
      destruct (IH Hin) as (e & He & Hwhy). exists e. split; [done|].
      intros H1 H2. apply Forall_cons in H1 as [_ H1], H2 as [_ H2]. auto. }
    case_bool_decide as Hseen.
    + destruct (urlopen u) as [b|e] eqn:Hf.
      * eexists; split; done.
      * destruct e; try (eexists; split; [done|]; intros _ Hp;
          apply Forall_cons in Hp as [Hp _]; cbn in Hp; by rewrite Hf in Hp).
        apply Hrest. intros <-. cbn in Hb. congruence.
    + apply Hrest. intros <-. cbn in Hk. assert (k = k') by congruence. by subst.
  - by apply elem_of_nil in Hin.
Qed.

End ReconcilerFacts.

(** ** urlparse, by components *)

Lemma urlparse_fields (u : string) :
  urlparse u =
    match split_netloc (split_scheme u).2 with
    | Raise e => Raise e
    | Ok (net, rest) =>
        let sch := (split_scheme u).1 in
        let '(rest, frag) := split_off "#" rest in
        let '(rest, qry) := split_off "?" rest in
        let '(pth, prm) := split_path sch rest in
        Ok (mkParseResult sch net pth prm qry frag)
    end.
Proof.
  unfold urlparse, urlsplit.
  destruct (split_scheme u) as [sch r]. cbn [fst snd].
  destruct (split_netloc r) as [[net rest]|e]; [|reflexivity]. cbn.
  destruct (split_off "#" rest) as [r1 frag].
  destruct (split_off "?" r1) as [r2 qry]. cbn.
  destruct (split_path sch r2); reflexivity.
Qed.

Lemma _Url_is_ok (u : string) :
  is_ok (_Url u) = is_ok (split_netloc (split_scheme (Str.lower u)).2).
Proof.
  unfold _Url. rewrite urlparse_fields.
  destruct (split_netloc _) as [[net rest]|e]; [|reflexivity]. cbn.
  destruct (split_off "#" rest) as [r1 frag].
  destruct (split_off "?" r1) as [r2 qry].
  destruct (split_path _ r2). reflexivity.
Qed.

Lemma guess_url_eq session i filename :
  guess_url session i filename =
    "http://www.legis.state.wv.us/Bill_Status/bills_text.cfm?billdoc="
    +:+ Urllib.quote_plus (Str.replace "+" "%20" filename +:+ ".htm")
    +:+ "&yr=" +:+ Urllib.quote_plus session
    +:+ "&sesstype=RS&i=" +:+ Urllib.quote_plus i.
Proof.
  unfold guess_url, urlunparse, urlunsplit, Urllib.urlencode.
  cbn [map Str.join fst snd].
  change (Urllib.quote_plus "billdoc") with "billdoc".
  change (Urllib.quote_plus "yr") with "yr".
  change (Urllib.quote_plus "sesstype") with "sesstype".
  change (Urllib.quote_plus "RS") with "RS".
  change (Urllib.quote_plus "i") with "i".
  set (a := Urllib.quote_plus (_ +:+ ".htm")).
  set (b := Urllib.quote_plus session). set (c := Urllib.quote_plus i).
  cbv -[a b c String.append]. 
  rewrite !append_assoc. reflexivity.
Qed.

Lemma guess_url_key_ok session i filename :
  is_ok (_Url (guess_url session i filename)) = true.
Proof.
  rewrite _Url_is_ok, guess_url_eq, lower_app.
  generalize (Str.lower (Urllib.quote_plus (Str.replace "+" "%20" filename +:+ ".htm")
    +:+ "&yr=" +:+ Urllib.quote_plus session
    +:+ "&sesstype=RS&i=" +:+ Urllib.quote_plus i)).
  intros t. reflexivity.
Qed.

Lemma wpd_loop_keys_ok chamber_name r filenames :
  Forall (fun v => is_ok (_Url_obj (url v)) = true)
    (yielded (wpd_loop chamber_name ("ftp://www.legis.state.wv.us/" +:+ r) filenames)).
Proof.
  revert r. induction filenames as [|[folder filename] l IH]; intros r; cbn.
  - constructor.
  - set (tl := chamber_name +:+ "/" +:+ _).
    replace (("ftp://www.legis.state.wv.us/" +:+ r) +:+ "/" +:+ tl)
      with ("ftp://www.legis.state.wv.us/" +:+ (r +:+ "/" +:+ tl))
      by (by rewrite append_assoc).
    constructor; [|apply IH].
    cbn [url _Url_obj]. rewrite _Url_is_ok, lower_app.
    generalize (Str.lower (r +:+ "/" +:+ tl)). intros t. reflexivity.
Qed.

Lemma wpd_keys_ok self session chamber bill_id :
  Forall (fun v => is_ok (_Url_obj (url v)) = true)
    (yielded (_scrape_versions_wpd self session chamber bill_id)).
Proof.
  unfold _scrape_versions_wpd.
  destruct (chamber_names chamber); [|constructor].
  change ("ftp://www.legis.state.wv.us/publicdocs/" +:+ session +:+ "/RS")
    with ("ftp://www.legis.state.wv.us/" +:+ ("publicdocs/" +:+ session +:+ "/RS")).
  apply wpd_loop_keys_ok.
Qed.

Lemma guess_keys_ok self session bill_id :
  Forall (fun c => is_ok (_Url c.2) = true)
    (yielded (_scrape_versions_guess_url self session bill_id)).
Proof.
  unfold _scrape_versions_guess_url.
  destruct (Str.split_ws bill_id) as [|bt [|i [|? ?]]]; try constructor.
  induction (default [] _) as [|e l IH]; cbn; constructor; [|exact IH].
  apply guess_url_key_ok.
Qed.

Section ReconcilerTheorems.
Variable urlopen : string -> result string.

(** C1: when no adapter raises, the linked urls parse, every guessed
    url is answered by a page or by the HTTP error that is caught, and
    no page is fetched while [guess_count] is unset, [scrape_versions]
    returns the candidates of the linked-documents adapter, then the
    guessed candidates whose fetch returned a page, then the
    legacy-index descriptors, each kept exactly when its canonical key
    was not seen before, in that order of traversal and unsorted. *)
Theorem scrape_versions_adapter_order self session chamber pg bill_id :
  thrown (_scrape_versions_normally pg) = None ->
  thrown (_scrape_versions_guess_url self session bill_id) = None ->
  thrown (_scrape_versions_wpd self session chamber bill_id) = None ->
  Forall (fun v => is_ok (_Url_obj (url v)) = true)
         (yielded (_scrape_versions_normally pg)) ->
  Forall (fun c => page_or_http_error (urlopen c.2))
         (yielded (_scrape_versions_guess_url self session bill_id)) ->
  (guess_count self = None ->
   fetched urlopen (yielded (_scrape_versions_guess_url self session bill_id)) = []) ->
  exists self',
    scrape_versions urlopen self session chamber pg bill_id =
      Ok (reconcile
            (yielded (_scrape_versions_normally pg)
             ++ map guess_version
                  (fetched urlopen
                     (yielded (_scrape_versions_guess_url self session bill_id)))
             ++ yielded (_scrape_versions_wpd self session chamber bill_id)) ∅,
          self').
Proof.
  intros T1 T2 T3 K1 F2 C2.
  destruct (scrape_versions urlopen self session chamber pg bill_id)
    as [[res self']|e] eqn:H.
  - exists self'. by rewrite (scrape_versions_ok _ _ _ _ _ _ _ _ H).
  - exfalso. unfold scrape_versions in H.
    pose proof (add_versions_returns (_scrape_versions_normally pg) ([], ∅) T1 K1) as R1.
    destruct (add_versions _ _) as [st1|]; [|done]. cbn in H.
    pose proof (add_guesses_returns urlopen _ st1 _ T2
                  (guess_keys_ok self session bill_id) F2 C2) as R2.
    destruct (add_guesses _ _ _ _) as [[st2 c2]|]; [|done]. cbn in H.
    pose proof (add_versions_returns _ st2 T3
                  (wpd_keys_ok self session chamber bill_id)) as R3.
    destruct (add_versions _ st2) as [st3|]; done.
Qed.

(** C4: with [guess_count] never set, if the linked versions were
    consumed without error and the guessed-url adapter yields a
    candidate whose key is not among theirs and whose fetch returns a
    page, [scrape_versions] raises instead of returning a list; the
    exception is the [AttributeError] of [self.guess_count += 1]
    unless a fetch raised something other than the HTTP error that is
    caught. *)
Theorem scrape_versions_guess_count_unset self session chamber pg bill_id c :
  guess_count self = None ->
  is_ok (add_versions (_scrape_versions_normally pg) ([], ∅)) = true ->
  c ∈ yielded (_scrape_versions_guess_url self session bill_id) ->
  unseen c.2 (keyset (yielded (_scrape_versions_normally pg))) = true ->
  is_ok (urlopen c.2) = true ->
  exists e,
    scrape_versions urlopen self session chamber pg bill_id = Raise e /\
    (Forall (fun c => page_or_http_error (urlopen c.2))
            (yielded (_scrape_versions_guess_url self session bill_id)) ->
     e = AttributeError "guess_count").
Proof.
  intros Hc H1 Hin Hnew Hb. unfold scrape_versions.
  destruct (add_versions _ _) as [st1|] eqn:E1; [|done].
  apply add_versions_ok in E1 as [_ E1]. cbn in E1.
  unfold unseen in Hnew. destruct (_Url c.2) as [k|] eqn:Hk; [|done].
  apply bool_decide_eq_true_1 in Hnew.
  destruct (urlopen c.2) as [body|] eqn:Hbody; [|done].
  rewrite Hc. cbn.
  destruct (add_guesses_unset urlopen
              (_scrape_versions_guess_url self session bill_id) st1 c k body)
    as (e & -> & He); [done | done | set_solver | done |].
  exists e. split; [done|]. intros Hf. apply He; [apply guess_keys_ok | done].
Qed.

End ReconcilerTheorems.

Lemma scrape_versions_adapter_order_witness :
  exists self',
    scrape_versions Sample.site_404 Sample.self "2011" "upper" Sample.detail_page "SB 1" =
      Ok (reconcile
            (yielded (_scrape_versions_normally Sample.detail_page)
             ++ map guess_version
                  (fetched Sample.site_404
                     (yielded (_scrape_versions_guess_url Sample.self "2011" "SB 1")))
             ++ yielded (_scrape_versions_wpd Sample.self "2011" "upper" "SB 1")) ∅,
          self').
Proof.
  apply scrape_versions_adapter_order.
  - vm_compute. reflexivity.
  - vm_compute. reflexivity.
  - vm_compute. reflexivity.
  - decide_by_compute.
  - decide_by_compute.
  - intros _. vm_compute. reflexivity.
Defined.

Example sample_versions :
  fst <$> scrape_versions Sample.site_404 Sample.self "2011" "upper" Sample.detail_page "SB 1"
  = Ok [mkVersion "Introduced Version" (Some "http://www.legis.state.wv.us/Bill_Status/bills_text.cfm?billdoc=SB1%20INTR.htm&yr=2011&sesstype=RS&i=1") text_html;
        mkVersion "sb1 intr" (Some "ftp://www.legis.state.wv.us/publicdocs/2011/RS/senate/01-12/sb1%20intr.wpd") application_wordperfect;
        mkVersion "sb1 sub1" (Some "ftp://www.legis.state.wv.us/publicdocs/2011/RS/senate/01-12/sb1%20intr.wpd/senate/02-20/sb1%20sub1.wpd") application_wordperfect].
Proof. vm_compute. reflexivity. Qed.


Lemma scrape_versions_guess_count_unset_witness :
  scrape_versions Sample.site_placeholder Sample.self "2011" "upper"
    Sample.detail_page "SB 1" = Raise (AttributeError "guess_count").
Proof.
  destruct (scrape_versions_guess_count_unset Sample.site_placeholder
              Sample.self "2011" "upper" Sample.detail_page "SB 1"
              ("sb1 sub1", guess_url "2011" "1" "sb1 sub1")) as (e & He & Hwhy).
  - reflexivity.
  - vm_compute. reflexivity.
  - decide_by_compute.
  - vm_compute. reflexivity.
  - reflexivity.
  - rewrite He. f_equal. apply Hwhy. decide_by_compute.
Defined.

(** C3: the fetched page holds the phrase [is not available] once
    lower-cased, and the guessed candidates are not skipped: with
    [guess_count] set they are in the list returned, ahead of the
    legacy-index descriptors, and with [guess_count] unset the call
    raises [AttributeError]. *)
Theorem guessed_placeholder_page_not_skipped :
  Str.contains "is not available" (Str.lower Sample.placeholder) = true /\
  fst <$> scrape_versions Sample.site_placeholder
            (mkScraper Sample.index (Some 0%Z)) "2011" "upper" [] "SB 1"
  = Ok [mkVersion "sb1 intr"
          (Some "http://www.legis.state.wv.us/Bill_Status/bills_text.cfm?billdoc=sb1+intr.htm&yr=2011&sesstype=RS&i=1")
          text_html;
        mkVersion "sb1 sub1"
          (Some "http://www.legis.state.wv.us/Bill_Status/bills_text.cfm?billdoc=sb1+sub1.htm&yr=2011&sesstype=RS&i=1")
          text_html;
        mkVersion "sb1 intr"
          (Some "ftp://www.legis.state.wv.us/publicdocs/2011/RS/senate/01-12/sb1%20intr.wpd")
          application_wordperfect;
        mkVersion "sb1 sub1"
          (Some "ftp://www.legis.state.wv.us/publicdocs/2011/RS/senate/01-12/sb1%20intr.wpd/senate/02-20/sb1%20sub1.wpd")
          application_wordperfect] /\
  scrape_versions Sample.site_placeholder Sample.self "2011" "upper" [] "SB 1"
  = Raise (AttributeError "guess_count").
Proof. split; [|split]; vm_compute; reflexivity. Qed.


(** The text of a fetched page is never looked at. *)
Lemma add_guesses_ignores_text urlopen1 urlopen2 g st count :
  (forall u, match urlopen1 u, urlopen2 u with
             | Ok _, Ok _ => True
             | Raise e1, Raise e2 => e1 = e2
             | _, _ => False
             end) ->
  add_guesses urlopen1 g st count = add_guesses urlopen2 g st count.
Proof.
  intros Hs. revert st count.
  induction g as [|[f u] g IH|e]; intros st count; cbn; [done| |done].
  destruct (_Url u) as [k|]; [|done]. cbn.
  case_bool_decide; [|apply IH].
  specialize (Hs u).
  destruct (urlopen1 u) as [b1|e1], (urlopen2 u) as [b2|e2]; try done.
  - destruct count; first [apply IH | done].
  - subst e2. destruct e1; first [apply IH | done].
Qed.

(** ** The guessed-url adapter *)

Lemma gen_for_total {A B} (f : A -> B) (l : list A) :
  gen_for (fun x => Ok (f x)) l Stop = gen_of_list (map f l).
Proof. induction l as [|x l IH]; cbn; [done | by rewrite IH]. Qed.

(** C8, amended: for a bill id of two words and the entries the legacy
    index holds for it, the guessed-url adapter yields one pair per
    entry, in order: the file name and the url of the document
    endpoint whose [billdoc] parameter is the url-encoded file name with
    every plus sign replaced by [%20] and [.htm] appended (spaces are
    kept, and leave as plus signs), followed by the year, the session
    type [RS] and the second word of the bill id. *)
Theorem guess_url_adapter_yields self session bill_id billtype i entries :
  Str.split_ws bill_id = [billtype; i] ->
  _version_filenames self !! normalize_bill_id bill_id = Some entries ->
  _scrape_versions_guess_url self session bill_id =
    gen_of_list
      (map (fun e =>
              (e.2,
               "http://www.legis.state.wv.us/Bill_Status/bills_text.cfm?billdoc="
               +:+ Urllib.quote_plus (Str.replace "+" "%20" e.2 +:+ ".htm")
               +:+ "&yr=" +:+ Urllib.quote_plus session
               +:+ "&sesstype=RS&i=" +:+ Urllib.quote_plus i))
           entries).
Proof.
  intros Hid Hentries. unfold _scrape_versions_guess_url.
  rewrite Hid, Hentries. cbn [default].
  rewrite (gen_for_total (fun e => (e.2, guess_url session i e.2))).
  reflexivity.
Qed.

Lemma guess_url_adapter_yields_witness :
  _scrape_versions_guess_url Sample.self "2011" "SB 1" =
    gen_of_list
      [("sb1 intr",
        "http://www.legis.state.wv.us/Bill_Status/bills_text.cfm?billdoc=sb1+intr.htm&yr=2011&sesstype=RS&i=1");
       ("sb1 sub1",
        "http://www.legis.state.wv.us/Bill_Status/bills_text.cfm?billdoc=sb1+sub1.htm&yr=2011&sesstype=RS&i=1")].
Proof.
  exact (guess_url_adapter_yields Sample.self "2011" "SB 1" "SB" "1"
           [("01-12", "sb1 intr"); ("02-20", "sb1 sub1")] eq_refl eq_refl).
Defined.

(** C8, as stated, fails: for the entry [sb1 intr] no yielded url has
    a [billdoc] parameter in which the space was replaced by [%20]. *)
Lemma guess_url_keeps_spaces :
  ~ exists u,
      ("sb1 intr", u) ∈ yielded (_scrape_versions_guess_url Sample.self "2011" "SB 1") /\
      query_params u =
        Ok [("billdoc", Str.replace " " "%20" "sb1 intr" +:+ ".htm");
            ("yr", "2011"); ("sesstype", "RS"); ("i", "1")].
Proof.
  intros (u & Hin & Hq).
  assert (yielded (_scrape_versions_guess_url Sample.self "2011" "SB 1") =
          [("sb1 intr", guess_url "2011" "1" "sb1 intr");
           ("sb1 sub1", guess_url "2011" "1" "sb1 sub1")]) as E by reflexivity.
  rewrite E in Hin. clear E.
  apply elem_of_cons in Hin as [Hin|Hin].
  - injection Hin as ->. vm_compute in Hq. discriminate.
  - apply elem_of_cons in Hin as [Hin|Hin]; [discriminate|].
    by apply elem_of_nil in Hin.
Qed.

(** ** The legacy-index adapter *)

(** The descriptor of the first entry has the url described. *)
Lemma wpd_first_entry self session chamber chamber_name bill_id folder filename rest :
  chamber_names chamber = Ok chamber_name ->
  _version_filenames self !! normalize_bill_id bill_id = Some ((folder, filename) :: rest) ->
  head (yielded (_scrape_versions_wpd self session chamber bill_id)) =
    Some (mkVersion filename (Some (wpd_url session chamber_name folder filename))
                    application_wordperfect).
Proof.
  intros Hc He. unfold _scrape_versions_wpd. rewrite Hc, He. reflexivity.
Qed.

(** Each later descriptor's url is the previous descriptor's url with
    the chamber folder, the dated folder and the file name appended. *)
Lemma wpd_loop_accumulates chamber_name u folder filename folder' filename' rest :
  yielded (wpd_loop chamber_name u ((folder, filename) :: (folder', filename') :: rest))
  = let u1 := Str.join "/" [u; chamber_name; folder; Urllib.quote (filename +:+ ".wpd")] in
    let u2 := Str.join "/" [u1; chamber_name; folder'; Urllib.quote (filename' +:+ ".wpd")] in
    mkVersion filename (Some u1) application_wordperfect
    :: mkVersion filename' (Some u2) application_wordperfect
    :: yielded (wpd_loop chamber_name u2 rest).
Proof. reflexivity. Qed.

(** C9: on the second entry of the sample index the adapter yields a
    url that continues the first entry's url, not the url made of the
    remote root, the chamber folder, the entry's folder and its file
    name. *)
Theorem wpd_second_entry_url :
  yielded (_scrape_versions_wpd Sample.self "2011" "upper" "SB 1") =
    [mkVersion "sb1 intr"
       (Some "ftp://www.legis.state.wv.us/publicdocs/2011/RS/senate/01-12/sb1%20intr.wpd")
       application_wordperfect;
     mkVersion "sb1 sub1"
       (Some "ftp://www.legis.state.wv.us/publicdocs/2011/RS/senate/01-12/sb1%20intr.wpd/senate/02-20/sb1%20sub1.wpd")
       application_wordperfect] /\
  wpd_url "2011" "senate" "02-20" "sb1 sub1" =
    "ftp://www.legis.state.wv.us/publicdocs/2011/RS/senate/02-20/sb1%20sub1.wpd".
Proof. split; vm_compute; reflexivity. Qed.

(** ** The legacy index cache *)

(** C10, amended: a cache file that opens and parses is loaded and
    used, whatever the remote site holds and without a fetch; a cache
    file that cannot be opened makes the call rebuild the mapping from
    the remote listing and write it, so that the next call loads it
    without a fetch; a cache file that opens but is not JSON makes the
    call fail with [json.load]'s [ValueError], nothing fetched and
    nothing written. *)
Theorem get_version_filenames_cache urlopen fs self session chamber :
  match fs !! cache_path chamber with
  | Some (json_file m) =>
      forall site,
        _get_version_filenames site fs self session chamber
        = ([], Ok (mkScraper m (guess_count self), fs))
  | Some (not_json _) =>
      _get_version_filenames urlopen fs self session chamber
      = ([], Raise (ValueError "No JSON object could be decoded"))
  | None =>
      match rebuild urlopen session chamber with
      | (log, Ok m) =>
          let self' := mkScraper m (guess_count self) in
          let fs' := <[cache_path chamber := json_file m]> fs in
          _get_version_filenames urlopen fs self session chamber
          = (log, Ok (self', fs')) /\
          forall site,
            _get_version_filenames site fs' self' session chamber
            = ([], Ok (self', fs'))
      | (log, Raise e) =>
          _get_version_filenames urlopen fs self session chamber
          = (log, Raise e)
      end
  end.
Proof.
  unfold _get_version_filenames, open.
  destruct (fs !! cache_path chamber) as [[m|t]|] eqn:Hf; [done | done |].
  destruct (rebuild urlopen session chamber) as [log [m|e]]; [|done].
  cbv zeta. split; [done|]. intros site. unfold files in *.
  by rewrite lookup_insert_eq.
Qed.

(** C10, as stated, fails: with a cache file that is not JSON the call
    raises and fetches nothing, although rebuilding from the remote
    listing would have given a mapping. *)
Lemma corrupt_cache_not_rebuilt :
  _get_version_filenames Sample.ftp_site Sample.corrupt_cache Sample.self "2011" "upper"
  = ([], Raise (ValueError "No JSON object could be decoded")) /\
  is_ok (rebuild Sample.ftp_site "2011" "upper").2 = true.
Proof. split; vm_compute; reflexivity. Qed.

Example rebuild_sample :
  rebuild Sample.ftp_site "2011" "upper" =
  (["ftp://www.legis.state.wv.us/publicdocs/2011/RS/senate/";
    "ftp://www.legis.state.wv.us/publicdocs/2011/RS/senate/jan%2012/";
    "ftp://www.legis.state.wv.us/publicdocs/2011/RS/senate/feb20/"],
   Ok {[ "sb1" := [("jan 12", "SB1 intr"); ("feb20", "sb1 sub1")] ]}).
Proof. vm_compute. reflexivity. Qed.

(** ** The roll-call parser *)

Lemma make_vote_ok st v :
  make_vote st = Ok v ->
  l_date st = Some (date_of v) /\ l_motion st = Some (motion v) /\
  l_passed st = Some (passed v) /\
  l_yes_count st = Some (yes_count v) /\ l_no_count st = Some (no_count v) /\
  l_other_count st = Some (other_count v) /\
  yes_votes v = votes_yes st /\ no_votes v = votes_no st /\
  other_votes v = votes_other st /\
  Z.of_nat (length (yes_votes v)) = yes_count v /\
  Z.of_nat (length (no_votes v)) = no_count v /\
  Z.of_nat (length (other_votes v)) = other_count v.
Proof.
  unfold make_vote. intros H.
  destruct (l_date st) as [d|]; [|discriminate].
  destruct (l_motion st) as [mo|]; [|discriminate].
  destruct (l_passed st) as [p|]; [|discriminate].
  destruct (l_yes_count st) as [y|]; [|discriminate].
  destruct (l_no_count st) as [n|]; [|discriminate].
  destruct (l_other_count st) as [o|]; [|discriminate].
  cbn in H.
  destruct (Z.eqb_spec (Z.of_nat (length (votes_yes st))) y); [|discriminate].
  destruct (Z.eqb_spec (Z.of_nat (length (votes_no st))) n); [|discriminate].
  destruct (Z.eqb_spec (Z.of_nat (length (votes_other st))) o); [|discriminate].
  cbn in H. injection H as <-. cbn. done.
Qed.

(** C5: a vote that [scrape_vote] returns lists as many members under
    yes, no and other as the counts it carries; when the loop ends with
    all names bound and one list differs in length from its count, the
    call raises [AssertionError]. *)
Theorem scrape_vote_counts_asserted (text : string) :
  (forall v, scrape_vote text = Ok v ->
     Z.of_nat (length (yes_votes v)) = yes_count v /\
     Z.of_nat (length (no_votes v)) = no_count v /\
     Z.of_nat (length (other_votes v)) = other_count v) /\
  (forall st d mo p y n o,
     vote_lines (splitlines text) 0 (splitlines text) locals0 = Ok st ->
     l_date st = Some d -> l_motion st = Some mo -> l_passed st = Some p ->
     l_yes_count st = Some y -> l_no_count st = Some n ->
     l_other_count st = Some o ->
     ~ (Z.of_nat (length (votes_yes st)) = y /\
        Z.of_nat (length (votes_no st)) = n /\
        Z.of_nat (length (votes_other st)) = o) ->
     scrape_vote text = Raise AssertionError).
Proof.
  unfold scrape_vote. split.
  - intros v H.
    destruct (vote_lines _ _ _ _) as [st|]; [|discriminate]. cbn in H.
    apply make_vote_ok in H. tauto.
  - intros st d mo p y n o -> Hd Hm Hp Hy Hn Ho Hbad. cbn.
    unfold make_vote. rewrite Hd, Hm, Hp, Hy, Hn, Ho. cbn.
    destruct (Z.eqb_spec (Z.of_nat (length (votes_yes st))) y); [|done].
    destruct (Z.eqb_spec (Z.of_nat (length (votes_no st))) n); [|done].
    destruct (Z.eqb_spec (Z.of_nat (length (votes_other st))) o); [|done].
    tauto.
Qed.

Lemma scrape_vote_counts_asserted_witness :
  (exists v, scrape_vote Sample.vote_text = Ok v /\
     Z.of_nat (length (yes_votes v)) = 2%Z /\
     Z.of_nat (length (no_votes v)) = 1%Z /\
     Z.of_nat (length (other_votes v)) = 2%Z) /\
  scrape_vote Sample.paired_text = Raise AssertionError.
Proof.
  split.
  - destruct (scrape_vote Sample.vote_text) as [v|] eqn:Hv; [|by vm_compute in Hv].
    exists v. split; [done|].
    destruct (proj1 (scrape_vote_counts_asserted Sample.vote_text) v Hv) as (-> & -> & ->).
    vm_compute in Hv. injection Hv as <-. done.
  - destruct (vote_lines (splitlines Sample.paired_text) 0
                (splitlines Sample.paired_text) locals0) as [st|] eqn:Hst;
      [|by vm_compute in Hst].
    apply (proj2 (scrape_vote_counts_asserted Sample.paired_text) st
             (mkDate 2011 3 12) "HB 2001   03/12/2011" true 1%Z 1%Z 0%Z Hst);
      vm_compute in Hst; injection Hst as <-; try reflexivity.
    cbn. intros (? & ? & ?). discriminate.
Defined.

(** C6: on a line recognized as a tally summary that has a line two
    positions before it, the step takes the motion from that earlier
    line (stripped), takes the three counts from the line, adds the
    EXCUSED count, if one is found, to the other count, and sets
    [passed] to true exactly when the line, stripped on the right, ends
    with ADOPTED or PASSED; date, vote type and member lists are left
    as they were. *)
Theorem tally_line_step lines idx raw st y n o earlier :
  Re.search_date (Str.rstrip raw) = None ->
  Re.match_tally (Str.rstrip raw) = Some (y, n, o) ->
  2 <= idx ->
  lines !! (idx - 2) = Some earlier ->
  exists st' p,
    vote_line lines idx raw st = Ok st' /\
    l_motion st' = Some (Str.strip earlier) /\
    l_yes_count st' = Some (Re.int y) /\
    l_no_count st' = Some (Re.int n) /\
    l_other_count st' =
      Some (Re.int o + match Re.search_excused (Str.rstrip raw) with
                       | Some g => Re.int g
                       | None => 0
                       end)%Z /\
    l_passed st' = Some p /\
    (p = true <->
     (exists t, Str.rstrip raw = t +:+ "ADOPTED") \/
     (exists t, Str.rstrip raw = t +:+ "PASSED")) /\
    l_date st' = l_date st /\ l_vote_type st' = l_vote_type st /\
    votes_yes st' = votes_yes st /\ votes_no st' = votes_no st /\
    votes_other st' = votes_other st.
Proof.
  intros Hdate Htally Hidx Hearlier. unfold vote_line.
  rewrite Hdate, Htally.
  assert (getitem lines (Z.of_nat idx - 2) = Ok earlier) as ->.
  { unfold getitem.
    destruct (Z.ltb_spec (Z.of_nat idx - 2) 0); [lia|].
    destruct (Z.ltb_spec (Z.of_nat idx - 2) 0); [lia|].
    replace (Z.to_nat (Z.of_nat idx - 2)) with (idx - 2) by lia.
    by rewrite Hearlier. }
  cbn. eexists _, _. split; [reflexivity|]. cbn.
  repeat split; try reflexivity.
  - destruct (Re.search_excused _); [done | by rewrite Z.add_0_r].
  - intros H. apply orb_true_iff in H as [H|H]; apply endswith_spec in H; eauto.
  - intros [H|H]; apply endswith_spec in H; rewrite H;
      [done | apply orb_true_r].
Qed.

Lemma tally_line_step_witness :
  exists st' p,
    vote_line (splitlines Sample.vote_text) 3
      "  YEAS: 2   NAYS: 1   NOT VOTING: 1   EXCUSED: 1  PASSED" locals0 = Ok st' /\
    l_motion st' = Some "HB 2001   03/12/2011" /\
    l_yes_count st' = Some 2%Z /\ l_no_count st' = Some 1%Z /\
    l_other_count st' = Some 2%Z /\ l_passed st' = Some p /\ p = true.
Proof.
  destruct (tally_line_step (splitlines Sample.vote_text) 3
              "  YEAS: 2   NAYS: 1   NOT VOTING: 1   EXCUSED: 1  PASSED"
              locals0 "2" "1" "1" "  HB 2001   03/12/2011")
    as (st' & p & H1 & H2 & H3 & H4 & H5 & H6 & H7 & _);
    [reflexivity | reflexivity | lia | reflexivity |].
  exists st', p. split; [exact H1|]. split; [exact H2|]. split; [exact H3|].
  split; [exact H4|]. split; [exact H5|]. split; [exact H6|].
  apply H7. right. by exists "  YEAS: 2   NAYS: 1   NOT VOTING: 1   EXCUSED: 1  ".
Defined.

(** In the paired state every non-blank fragment of the line adds the
    name the pattern finds at the start of the whole line. *)
Lemma paired_loop_yea line parts st nm :
  Re.match_pair line = Some (nm, "YEA") ->
  exists st',
    paired_loop line parts st = Ok st' /\
    votes_yes st' =
      votes_yes st ++
      replicate (length (List.filter (fun p => negb (String.eqb (Str.strip p) "")) parts))
                (Str.strip nm) /\
    votes_no st' = votes_no st /\ votes_other st' = votes_other st.
Proof.
  intros Hm. revert st.
  induction parts as [|part rest IH]; intros st; cbn [paired_loop List.filter].
  - exists st. cbn. by rewrite app_nil_r.
  - destruct (String.eqb (Str.strip part) "") eqn:Hblank; cbn [negb].
    + apply IH.
    + rewrite Hm. cbn [String.eqb Ascii.eqb Bool.eqb].
      destruct (IH (votes_append vt_yes (Str.strip nm) st)) as (st' & H1 & H2 & H3 & H4).
      exists st'. split; [exact H1|]. rewrite H2, H3, H4. cbn.
      by rewrite <- app_assoc.
Qed.

(** C7: in the paired state the line [Smith (YEA)   Jones (NAY)] adds
    Smith to the yes list twice and nobody to the no list, and the
    record that holds this line fails its count assertion. *)
Theorem paired_line_takes_first_name :
  (exists st',
     vote_line [] 0 "Smith (YEA)   Jones (NAY)" (set_vote_type vt_paired locals0) = Ok st' /\
     votes_yes st' = ["Smith"; "Smith"] /\ votes_no st' = []) /\
  scrape_vote Sample.paired_text = Raise AssertionError.
Proof.
  split.
  - eexists. split; [vm_compute; reflexivity|]. split; reflexivity.
  - vm_compute. reflexivity.
Qed.

(** ** Characters and membership *)

Lemma eqc_true (a b : ascii) : Str.eqc a b = true <-> a = b.
Proof. apply Ascii.eqb_eq. Qed.

Lemma eqc_false (a b : ascii) : Str.eqc a b = false <-> a <> b.
Proof. apply Ascii.eqb_neq. Qed.

Lemma eqc_refl (a : ascii) : Str.eqc a a = true.
Proof. by apply eqc_true. Qed.

Lemma mem_app (c : ascii) (a b : string) :
  Str.mem c (a +:+ b) = Str.mem c a || Str.mem c b.
Proof.
  induction a as [|x a IH]; [reflexivity|].
  rewrite append_cons. cbn [Str.mem]. by rewrite IH, orb_assoc.
Qed.

Lemma all_app (p : ascii -> bool) (a b : string) :
  Str.all p (a +:+ b) = Str.all p a && Str.all p b.
Proof.
  induction a as [|x a IH]; [reflexivity|].
  rewrite append_cons. cbn [Str.all]. by rewrite IH, andb_assoc.
Qed.

Lemma all_mem_false (p : ascii -> bool) (c : ascii) (s : string) :
  Str.all p s = true -> p c = false -> Str.mem c s = false.
Proof.
  intros Hs Hc. induction s as [|a s IH]; [reflexivity|].
  cbn in *. apply andb_true_iff in Hs as [Ha Hs]. rewrite (IH Hs), orb_false_r.
  apply eqc_false. intros ->. congruence.
Qed.

Lemma mem_all_false (p : ascii -> bool) (c : ascii) (s : string) :
  Str.mem c s = true -> p c = false -> Str.all p s = false.
Proof.
  intros Hs Hc. induction s as [|a s IH]; [discriminate|].
  cbn in *. apply orb_true_iff in Hs as [Ha|Hs].
  - apply eqc_true in Ha as ->. by rewrite Hc.
  - by rewrite (IH Hs), andb_false_r.
Qed.

(** ** [cut] and [break] on a concatenation *)

Lemma cut_none (c : ascii) (s : string) :
  Str.mem c s = false -> Str.cut c s = None.
Proof.
  induction s as [|a s IH]; [reflexivity|]. cbn. intros H.
  apply orb_false_iff in H as [Ha Hs]. by rewrite Ha, (IH Hs).
Qed.

Lemma cut_app_r (c : ascii) (a b : string) :
  Str.mem c a = false ->
  Str.cut c (a +:+ b) =
    match Str.cut c b with
    | Some (h, t) => Some (a +:+ h, t)
    | None => None
    end.
Proof.
  induction a as [|x a IH]; intros H.
  - change ("" +:+ b) with b. destruct (Str.cut c b) as [[h t]|]; reflexivity.
  - cbn in H. apply orb_false_iff in H as [Hx Ha].
    rewrite append_cons. cbn [Str.cut]. rewrite Hx, (IH Ha).
    destruct (Str.cut c b) as [[h t]|]; reflexivity.
Qed.

Lemma cut_app_l (c : ascii) (a b h t : string) :
  Str.cut c a = Some (h, t) -> Str.cut c (a +:+ b) = Some (h, t +:+ b).
Proof.
  revert h. induction a as [|x a IH]; intros h; [discriminate|].
  rewrite append_cons. cbn [Str.cut]. destruct (Str.eqc x c).
  - by intros [= <- <-].
  - destruct (Str.cut c a) as [[h' t']|]; [|discriminate].
    intros [= <- <-]. by rewrite (IH h' eq_refl).
Qed.

Lemma cut_here (c : ascii) (a b : string) :
  Str.mem c a = false -> Str.cut c (a +:+ String c b) = Some (a, b).
Proof.
  intros H. rewrite (cut_app_r _ _ _ H). cbn. by rewrite eqc_refl, append_nil_r.
Qed.

Lemma cut_some (c : ascii) (s h t : string) :
  Str.cut c s = Some (h, t) -> s = h +:+ String c t /\ Str.mem c h = false.
Proof.
  revert h. induction s as [|a s IH]; intros h; [discriminate|].
  cbn [Str.cut]. destruct (Str.eqc a c) eqn:Ha.
  - intros [= <- <-]. apply eqc_true in Ha as ->. done.
  - destruct (Str.cut c s) as [[h' t']|]; [|discriminate].
    intros [= <- <-]. destruct (IH h' eq_refl) as [-> Hm].
    split; [done|]. cbn. by rewrite Ha, Hm.
Qed.

Lemma break_app_r (p : ascii -> bool) (a b : string) :
  Str.all (fun c => negb (p c)) a = true ->
  Str.break p (a +:+ b) = (a +:+ (Str.break p b).1, (Str.break p b).2).
Proof.
  induction a as [|x a IH]; intros H.
  - change ("" +:+ b) with b. destruct (Str.break p b); reflexivity.
  - cbn in H. apply andb_true_iff in H as [Hx Ha].
    rewrite append_cons. cbn [Str.break].
    apply negb_true_iff in Hx. rewrite Hx, (IH Ha). reflexivity.
Qed.

Lemma break_stop (p : ascii -> bool) (a : string) (c : ascii) (b : string) :
  Str.all (fun c => negb (p c)) a = true -> p c = true ->
  Str.break p (a +:+ String c b) = (a, String c b).
Proof.
  intros Ha Hc. rewrite (break_app_r _ _ _ Ha). cbn. rewrite Hc. cbn.
  by rewrite append_nil_r.
Qed.

(** ** Lower-casing *)

Lemma lower_char_upper (a : ascii) :
  Str.is_upper a = true -> Str.is_lower (Str.lower_char a) = true.
Proof. destruct a as [[] [] [] [] [] [] [] []]; vm_compute; congruence. Qed.

Lemma lower_char_not_upper (a : ascii) :
  Str.is_upper a = false -> Str.lower_char a = a.
Proof. unfold Str.lower_char. by intros ->. Qed.



Lemma eqc_lower_char (a c : ascii) :
  Str.is_alpha c = false -> Str.eqc (Str.lower_char a) c = Str.eqc a c.
Proof.
  intros Hc. unfold Str.is_alpha in Hc. apply orb_false_iff in Hc as [Hu Hl].
  destruct (Str.is_upper a) eqn:Ha.
  - transitivity false; [|symmetry]; apply eqc_false; intros E.
    + apply lower_char_upper in Ha. congruence.
    + congruence.
  - by rewrite lower_char_not_upper.
Qed.

Lemma mem_lower (c : ascii) (s : string) :
  Str.is_alpha c = false -> Str.mem c (Str.lower s) = Str.mem c s.
Proof.
  intros Hc. induction s as [|a s IH]; [reflexivity|].
  cbn. by rewrite IH, eqc_lower_char.
Qed.

Lemma lower_join (sep : string) (l : list string) :
  Str.lower (Str.join sep l) = Str.join (Str.lower sep) (map Str.lower l).
Proof.
  induction l as [|x [|y l] IH]; [reflexivity | reflexivity |].
  change (Str.join sep (x :: y :: l)) with (x +:+ sep +:+ Str.join sep (y :: l)).
  rewrite !lower_app, IH. reflexivity.
Qed.

Lemma all_lower (q : ascii -> bool) (s : string) :
  (forall a, q (Str.lower_char a) = q a) ->
  Str.all q (Str.lower s) = Str.all q s.
Proof.
  intros Hq. induction s as [|a s IH]; [reflexivity|]. cbn. by rewrite Hq, IH.
Qed.

Lemma scheme_char_lower (a : ascii) :
  scheme_char (Str.lower_char a) = scheme_char a.
Proof. destruct a as [[] [] [] [] [] [] [] []]; reflexivity. Qed.

Lemma host_char_lower (a : ascii) : host_char (Str.lower_char a) = host_char a.
Proof. destruct a as [[] [] [] [] [] [] [] []]; reflexivity. Qed.

Lemma after_path_lower (rest : string) :
  after_path (Str.lower rest) = after_path rest.
Proof.
  destruct rest as [|c rest]; [reflexivity|]. cbn [Str.lower after_path].
  destruct c as [[] [] [] [] [] [] [] []]; reflexivity.
Qed.

Lemma lower_absolute sch host p rest :
  Str.lower (absolute sch host p rest) =
  absolute (Str.lower sch) (Str.lower host) (Str.lower p) (Str.lower rest).
Proof. unfold absolute. by rewrite !lower_app. Qed.

(** ** [urlparse] on an absolute url *)

Lemma split_off_app_r (c : ascii) (a b : string) :
  Str.mem c a = false ->
  split_off c (a +:+ b) = (a +:+ (split_off c b).1, (split_off c b).2).
Proof.
  intros H. unfold split_off. rewrite (cut_app_r _ _ _ H).
  by destruct (Str.cut c b) as [[h t]|].
Qed.

Lemma after_path_no_path (rest : string) :
  after_path rest = true -> (split_off "?" (split_off "#" rest).1).1 = "".
Proof.
  destruct rest as [|c rest]; [reflexivity|]. cbn [after_path Str.mem].
  intros H. apply orb_true_iff in H as [H|H].
  - apply eqc_true in H. subst c. unfold split_off at 2. cbn [Str.cut].
    change (Str.eqc "?" "#") with false. cbv iota.
    destruct (Str.cut "#" rest) as [[h t]|]; reflexivity.
  - rewrite orb_false_r in H. apply eqc_true in H. subst c. reflexivity.
Qed.

Lemma split_scheme_absolute (sch tail : string) :
  sch <> "" -> Str.all scheme_char sch = true ->
  split_scheme (sch +:+ "://" +:+ tail) = (Str.lower sch, "//" +:+ tail).
Proof.
  intros Hne Hsch. unfold split_scheme.
  change (sch +:+ "://" +:+ tail) with (sch +:+ String ":" ("//" +:+ tail)).
  rewrite cut_here by (by apply (all_mem_false scheme_char)).
  destruct sch as [|a h]; [done|].
  destruct (String.eqb_spec (String a h) "http") as [->|_]; [reflexivity|].
  rewrite Hsch. reflexivity.
Qed.

Lemma split_netloc_absolute (host tail : string) :
  Str.all host_char host = true ->
  split_netloc ("//" +:+ host +:+ "/" +:+ tail) =
    if (Str.mem "[" host && negb (Str.mem "]" host)) ||
       (Str.mem "]" host && negb (Str.mem "[" host))
    then Raise (ValueError "Invalid IPv6 URL")
    else Ok (host, "/" +:+ tail).
Proof.
  intros Hh. unfold split_netloc, _splitnetloc.
  rewrite (proj2 (startswith_spec "//" ("//" +:+ host +:+ "/" +:+ tail)))
    by (by exists (host +:+ "/" +:+ tail)).
  change (Str.drop 2 ("//" +:+ host +:+ "/" +:+ tail))
    with (host +:+ String "/" tail).
  cbv iota. rewrite break_stop; [reflexivity | exact Hh | reflexivity].
Qed.

Lemma urlparse_absolute sch host p rest :
  sch <> "" -> Str.all scheme_char sch = true ->
  Str.all host_char host = true -> after_path rest = true ->
  Str.mem "?" p = false -> Str.mem "#" p = false -> Str.mem ";" p = false ->
  urlparse (absolute sch host p rest) =
    if (Str.mem "[" host && negb (Str.mem "]" host)) ||
       (Str.mem "]" host && negb (Str.mem "[" host))
    then Raise (ValueError "Invalid IPv6 URL")
    else Ok (mkParseResult (Str.lower sch) host ("/" +:+ p) ""
               (split_off "?" (split_off "#" rest).1).2
               (split_off "#" rest).2).
Proof.
  intros Hne Hsch Hh Hrest Hq Hf Hs. rewrite urlparse_fields. unfold absolute.
  rewrite split_scheme_absolute by done. cbn [fst snd].
  rewrite split_netloc_absolute by done.
  destruct (_ || _); [reflexivity|].
  change ("/" +:+ p +:+ rest) with (("/" +:+ p) +:+ rest).
  rewrite (split_off_app_r "#") by (by rewrite mem_app, Hf).
  rewrite (split_off_app_r "?") by (by rewrite mem_app, Hq).
  rewrite after_path_no_path, append_nil_r by done.
  unfold split_path. rewrite mem_app, Hs. cbn [Str.mem orb].
  change (Str.eqc "/" ";") with false. rewrite andb_false_r. reflexivity.
Qed.

(** ** [unquote], one character at a time *)

Lemma split_skip_nonempty (sep : string) (k : nat) (s : string) :
  Str.split_skip sep k s <> [].
Proof.
  revert k. induction s as [|a s IH]; intros k; cbn [Str.split_skip]; [done|].
  destruct k; [|apply IH].
  destruct (Str.startswith sep (String a s)); [done|].
  destruct (Str.split_skip sep 0 s); done.
Qed.

Lemma split1_other (c a : ascii) (t : string) :
  a <> c ->
  Str.split (String c "") (String a t) =
    match Str.split (String c "") t with
    | h :: r => String a h :: r
    | [] => [String a ""]
    end.
Proof.
  intros Hne. unfold Str.split. cbn [Str.split_skip].
  unfold Str.startswith. cbn [String.prefix].
  destruct (ascii_dec c a) as [->|_]; [done|reflexivity].
Qed.

Lemma split1_here (c : ascii) (t : string) :
  Str.split (String c "") (String c t) = "" :: Str.split (String c "") t.
Proof.
  unfold Str.split. cbn [Str.split_skip].
  rewrite (proj2 (startswith_spec (String c "") (String c t))) by (by exists t).
  reflexivity.
Qed.

Lemma concat_cons (x : string) (l : list string) :
  String.concat "" (x :: l) = x +:+ String.concat "" l.
Proof. destruct l; cbn [String.concat]; [by rewrite append_nil_r | reflexivity]. Qed.

Lemma unquote_split (s : string) :
  exists b0 bits,
    Str.split "%" s = b0 :: bits /\
    Urllib.unquote s = b0 +:+ String.concat "" (map Urllib.unquote_item bits).
Proof.
  unfold Urllib.unquote. destruct (Str.split "%" s) as [|b0 bits] eqn:E.
  - by apply split_skip_nonempty in E.
  - by exists b0, bits.
Qed.

Lemma unquote_other (c : ascii) (t : string) :
  c <> "%"%char -> Urllib.unquote (String c t) = String c (Urllib.unquote t).
Proof.
  intros Hne. destruct (unquote_split t) as (b0 & bits & E & ->).
  unfold Urllib.unquote. rewrite (split1_other "%" c t Hne), E. reflexivity.
Qed.

Lemma hexval_not_percent (h : ascii) (x : nat) :
  Urllib.hexval h = Some x -> h <> "%"%char.
Proof. intros H ->. discriminate. Qed.

Lemma unquote_escape (h1 h2 : ascii) (x y : nat) (t : string) :
  Urllib.hexval h1 = Some x -> Urllib.hexval h2 = Some y ->
  Urllib.unquote (String "%" (String h1 (String h2 t))) =
    String (Str.chr (16 * x + y)) (Urllib.unquote t).
Proof.
  intros H1 H2. destruct (unquote_split t) as (b0 & bits & E & ->).
  unfold Urllib.unquote. rewrite split1_here.
  rewrite (split1_other "%" h1) by (by eapply hexval_not_percent).
  rewrite (split1_other "%" h2) by (by eapply hexval_not_percent).
  rewrite E. cbn [map]. rewrite concat_cons.
  unfold Urllib.unquote_item at 1. rewrite H1, H2. reflexivity.
Qed.

Lemma unquote_plus_other (c : ascii) (t : string) :
  c <> "%"%char -> c <> "+"%char ->
  Urllib.unquote_plus (String c t) = String c (Urllib.unquote_plus t).
Proof.
  intros H1 H2. unfold Urllib.unquote_plus. cbn [Str.replace].
  apply eqc_false in H2. rewrite H2. by apply unquote_other.
Qed.

(** ** Percent-escapes *)










(** ** Spellings of a path *)






(** ** [urlparse] and the query string *)

Lemma cut_none_inv (c : ascii) (s : string) :
  Str.cut c s = None -> Str.mem c s = false.
Proof.
  induction s as [|a s IH]; [reflexivity|]. cbn.
  destruct (Str.eqc a c); [discriminate|].
  destruct (Str.cut c s) as [[h t]|]; [discriminate|]. auto.
Qed.

Lemma eqb_http_no_mark (s : string) :
  Str.mem "?" s = true -> String.eqb s "http" = false.
Proof.
  intros H. destruct (String.eqb_spec s "http") as [->|]; [discriminate|done].
Qed.

Lemma break_app_mark (p : ascii -> bool) (a : string) (c : ascii) (q : string) :
  p c = true ->
  Str.break p (a +:+ String c q) =
    ((Str.break p a).1, (Str.break p a).2 +:+ String c q).
Proof.
  intros Hc. induction a as [|x a IH].
  - change ("" +:+ String c q) with (String c q). cbn [Str.break fst snd].
    by rewrite Hc.
  - rewrite append_cons. cbn [Str.break]. destruct (p x); [reflexivity|].
    rewrite IH. by destruct (Str.break p a).
Qed.

Lemma break_parts (p : ascii -> bool) (a : string) :
  a = (Str.break p a).1 +:+ (Str.break p a).2.
Proof.
  induction a as [|x a IH]; [reflexivity|]. cbn [Str.break].
  destruct (p x); [reflexivity|]. destruct (Str.break p a) as [h t].
  cbn in *. by rewrite IH at 1.
Qed.

Lemma markless_app (a b : string) :
  markless (a +:+ b) <-> markless a /\ markless b.
Proof.
  unfold markless. rewrite !mem_app, !orb_false_iff. tauto.
Qed.

Lemma split_scheme_query (b : string) :
  markless b ->
  exists s b', markless b' /\
    forall q, split_scheme (b +:+ String "?" q) = (s, b' +:+ String "?" q).
Proof.
  intros Hb. unfold split_scheme.
  destruct (Str.cut ":" b) as [[h t]|] eqn:Hcut.
  - destruct (cut_some _ _ _ _ Hcut) as [Hparts Hh].
    assert (Ht : markless t).
    { rewrite Hparts in Hb. apply markless_app in Hb as [_ Hb].
      change (String ":" t) with (":" +:+ t) in Hb.
      by apply markless_app in Hb as [_ Hb]. }
    destruct h as [|a h].
    + exists "", b. split; [done|]. intros q.
      by rewrite (cut_app_l _ _ _ _ _ Hcut).
    + destruct (String.eqb (String a h) "http") eqn:Hhttp.
      * exists "http", t. split; [done|]. intros q.
        by rewrite (cut_app_l _ _ _ _ _ Hcut), Hhttp.
      * destruct (Str.all scheme_char (String a h)) eqn:Hsch.
        -- exists (Str.lower (String a h)), t. split; [done|]. intros q.
           rewrite (cut_app_l _ _ _ _ _ Hcut), Hhttp, Hsch.
           rewrite all_app. cbn [Str.all]. change (Str.is_digit "?") with false.
           rewrite andb_false_r. cbn [negb]. by rewrite orb_true_r.
        -- exists "", b. split; [done|]. intros q.
           by rewrite (cut_app_l _ _ _ _ _ Hcut), Hhttp, Hsch.
  - exists "", b. split; [done|]. intros q.
    apply cut_none_inv in Hcut. rewrite (cut_app_r _ _ _ Hcut).
    cbn [Str.cut]. change (Str.eqc "?" ":") with false. cbv iota.
    destruct (Str.cut ":" q) as [[h t]|]; [|reflexivity].
    assert (Hm : Str.mem "?" (b +:+ String "?" h) = true).
    { rewrite mem_app. cbn. by rewrite orb_true_r. }
    destruct (b +:+ String "?" h) as [|a pre] eqn:Hpre; [discriminate|].
    rewrite (eqb_http_no_mark _ Hm).
    by rewrite (mem_all_false scheme_char "?" _ Hm).
Qed.

Lemma split_netloc_query (b : string) :
  markless b ->
  exists r : result (string * string),
    (forall n b', r = Ok (n, b') -> markless b') /\
    forall q,
      split_netloc (b +:+ String "?" q) =
        match r with
        | Ok (n, b') => Ok (n, b' +:+ String "?" q)
        | Raise e => Raise e
        end.
Proof.
  intros Hb. unfold split_netloc.
  destruct (Str.startswith "//" b) eqn:Hs.
  - apply startswith_spec in Hs as [t ->].
    assert (Ht : markless t) by (by apply markless_app in Hb as [_ Hb]).
    pose (n := (Str.break (fun c => Str.mem c "/?#") t).1).
    pose (b' := (Str.break (fun c => Str.mem c "/?#") t).2).
    assert (Hb' : markless b').
    { rewrite (break_parts (fun c => Str.mem c "/?#") t) in Ht.
      by apply markless_app in Ht as [_ Ht]. }
    exists (if (Str.mem "[" n && negb (Str.mem "]" n)) ||
               (Str.mem "]" n && negb (Str.mem "[" n))
            then Raise (ValueError "Invalid IPv6 URL") else Ok (n, b')).
    split.
    + intros n' b''. destruct (_ || _); [done|]. by intros [= <- <-].
    + intros q. rewrite append_assoc.
      rewrite (proj2 (startswith_spec "//" _)) by (by eexists).
      unfold _splitnetloc.
      change (Str.drop 2 ("//" +:+ t +:+ String "?" q)) with (t +:+ String "?" q).
      rewrite break_app_mark by reflexivity. fold n b'.
      by destruct (_ || _).
  - exists (Ok ("", b)). split; [by intros n b' [= <- <-]|]. intros q.
    assert (Str.startswith "//" (b +:+ String "?" q) = false) as ->; [|done].
    destruct (Str.startswith "//" (b +:+ String "?" q)) eqn:E; [|done].
    apply startswith_spec in E as [t Et]. exfalso.
    destruct b as [|c1 [|c2 b]].
    + discriminate.
    + injection Et as -> Et. discriminate.
    + injection Et as -> -> Et.
      rewrite (proj2 (startswith_spec "//" _)) in Hs by (by exists b). done.
Qed.

(** All fields but the query are those of the url with an empty query. *)
Lemma urlparse_query (b : string) :
  markless b ->
  exists r : result (string * string * string * string),
    forall q, Str.mem "#" q = false ->
      urlparse (b +:+ String "?" q) =
        match r with
        | Ok (s, n, pth, prm) => Ok (mkParseResult s n pth prm q "")
        | Raise e => Raise e
        end.
Proof.
  intros Hb.
  destruct (split_scheme_query b Hb) as (s & b1 & Hb1 & Hscheme).
  destruct (split_netloc_query b1 Hb1) as (r & Hr & Hnet).
  destruct r as [[n b2]|e].
  - specialize (Hr n b2 eq_refl). destruct Hr as [Hq2 Hf2].
    exists (Ok (s, n, (split_path s b2).1, (split_path s b2).2)).
    intros q Hq. rewrite urlparse_fields, Hscheme. cbn [fst snd].
    rewrite Hnet. cbv beta iota zeta.
    assert (split_off "#" (b2 +:+ String "?" q) = (b2 +:+ String "?" q, "")) as ->.
    { unfold split_off. rewrite cut_none; [done|].
      rewrite mem_app. cbn. by rewrite Hf2, Hq. }
    assert (split_off "?" (b2 +:+ String "?" q) = (b2, q)) as ->.
    { unfold split_off. by rewrite cut_here. }
    by destruct (split_path s b2).
  - exists (Raise e). intros q Hq.
    rewrite urlparse_fields, Hscheme. cbn [fst snd]. by rewrite Hnet.
Qed.

(** ** [parse_qsl] on joined segments *)

Lemma split1_none (c : ascii) (x : string) :
  Str.mem c x = false -> Str.split (String c "") x = [x].
Proof.
  induction x as [|a x IH]; [reflexivity|]. cbn [Str.mem]. intros H.
  apply orb_false_iff in H as [Ha Hx]. apply eqc_false in Ha.
  by rewrite (split1_other c a x Ha), (IH Hx).
Qed.

Lemma split1_app (c : ascii) (x y : string) :
  Str.mem c x = false ->
  Str.split (String c "") (x +:+ String c y) = x :: Str.split (String c "") y.
Proof.
  induction x as [|a x IH]; intros H.
  - apply split1_here.
  - cbn [Str.mem] in H. apply orb_false_iff in H as [Ha Hx].
    apply eqc_false in Ha.
    rewrite append_cons, (split1_other c a _ Ha), (IH Hx). reflexivity.
Qed.

Lemma split_join (c : ascii) (l : list string) :
  l <> [] -> Forall (fun s => Str.mem c s = false) l ->
  Str.split (String c "") (Str.join (String c "") l) = l.
Proof.
  induction l as [|x [|y l] IH]; intros Hne Hl; [done| |].
  - apply Forall_cons in Hl as [Hx _]. by apply split1_none.
  - apply Forall_cons in Hl as [Hx Hl].
    change (Str.join (String c "") (x :: y :: l))
      with (x +:+ String c (Str.join (String c "") (y :: l))).
    rewrite (split1_app c x _ Hx), IH; done.
Qed.

Lemma mem_join (c : ascii) (sep : string) (l : list string) :
  Str.mem c sep = false -> Forall (fun s => Str.mem c s = false) l ->
  Str.mem c (Str.join sep l) = false.
Proof.
  intros Hsep. induction l as [|x [|y l] IH]; intros Hl; [reflexivity| |].
  - by apply Forall_cons in Hl as [Hx _].
  - apply Forall_cons in Hl as [Hx Hl].
    change (Str.join sep (x :: y :: l)) with (x +:+ sep +:+ Str.join sep (y :: l)).
    by rewrite !mem_app, Hx, Hsep, (IH Hl).
Qed.

Lemma parse_qsl_join (l : list string) :
  Forall (fun s => Str.mem "&" s = false) l ->
  parse_qsl (Str.join "&" l) =
    concat (map parse_nv (concat (map (Str.split ";") l))).
Proof.
  intros Hl. destruct l as [|x l]; [reflexivity|].
  unfold parse_qsl. by rewrite (split_join "&") by done.
Qed.




(** The key of a url with a query, by its segments. *)
Lemma _Url_query (base : string) :
  markless base ->
  exists r : result (string * string * string * string),
    forall segs, Forall segment segs ->
      _Url (base +:+ "?" +:+ Str.join "&" segs) =
        match r with
        | Ok (s, n, pth, prm) =>
            Ok (mkParseResult s n (Urllib.unquote_plus pth) prm
                  (list_to_set
                     (concat (map parse_nv
                        (concat (map (Str.split ";") (map Str.lower segs))))))
                  "")
        | Raise e => Raise e
        end.
Proof.
  intros [Hq Hf].
  destruct (urlparse_query (Str.lower base)) as (r & Hr).
  { split; by rewrite mem_lower. }
  exists r. intros segs Hsegs. unfold _Url.
  rewrite !lower_app, lower_join.
  change (Str.lower "?" +:+ Str.join (Str.lower "&") (map Str.lower segs))
    with (String "?" (Str.join "&" (map Str.lower segs))).
  rewrite Hr.
  - destruct r as [[[[s n] pth] prm]|e]; [|reflexivity].
    unfold mbind, result_bind, rbind.
    cbn [scheme netloc path params query fragment].
    rewrite parse_qsl_join; [reflexivity|].
    apply Forall_forall. intros x Hx.
    apply list_elem_of_In, in_map_iff in Hx as (y & <- & Hy).
    rewrite mem_lower by reflexivity.
    rewrite Forall_forall in Hsegs. by apply Hsegs, list_elem_of_In.
  - apply mem_join; [reflexivity|].
    apply Forall_forall. intros x Hx.
    apply list_elem_of_In, in_map_iff in Hx as (y & <- & Hy).
    rewrite mem_lower by reflexivity.
    rewrite Forall_forall in Hsegs. by apply Hsegs, list_elem_of_In.
Qed.

(** ** Equal keys *)



(** C2: [http://h/A] and [http://h/%41] differ only in the
    percent-encoding of the path, and [http://h/p?k=A] and
    [http://h/p?k=%41] only in that of a query value.  [_Url]
    lower-cases the url before it decodes it, so the letter written as
    itself is lowered and the escaped one is not: the path is [/a] for
    one and [/A] for the other, the query value [a] for one and [A] for
    the other, and the keys of each pair differ. *)
Theorem escaped_capital_changes_key :
  differ_in_path_encoding "http://h/A" "http://h/%41" /\
  path <$> _Url "http://h/A" = Ok "/a" /\
  path <$> _Url "http://h/%41" = Ok "/A" /\
  _Url "http://h/A" <> _Url "http://h/%41" /\
  (fun k => elements (query k)) <$> _Url "http://h/p?k=A" = Ok [("k", "a")] /\
  (fun k => elements (query k)) <$> _Url "http://h/p?k=%41" = Ok [("k", "A")] /\
  _Url "http://h/p?k=A" <> _Url "http://h/p?k=%41".
Proof.
  split; [|split; [|split; [|split; [|split; [|split]]]]].
  - exists "http", "h", "A", "A", "%41", "".
    repeat (split; [done|]). split; [|split; [|done]].
    + apply spell_lit; [reflexivity | constructor].
    + apply (spell_esc plain "A" "%41" "" ""); [reflexivity | constructor].
  - vm_compute. reflexivity.
  - vm_compute. reflexivity.
  - intros E. apply (f_equal (fmap path)) in E. vm_compute in E. discriminate.
  - vm_compute. reflexivity.
  - vm_compute. reflexivity.
  - intros E. apply (f_equal (fmap (fun k => elements (query k)))) in E.
    vm_compute in E. discriminate.
Qed.

(** ** More on the reconciler *)

Lemma reconcile_fresh (l : list version) (seen : gset UrlParts) :
  Forall (fun v => exists k, _Url_obj (url v) = Ok k /\ k ∉ seen) (reconcile l seen) /\
  NoDup (map (fun v => _Url_obj (url v)) (reconcile l seen)).
Proof.
  revert seen. induction l as [|v l IH]; intros seen; cbn [reconcile].
  - split; constructor.
  - destruct (_Url_obj (url v)) as [k|e] eqn:Hk; [|apply IH].
    case_bool_decide as Hnew; [|apply IH].
    destruct (IH ({[k]} ∪ seen)) as [Hrest Hnd]. split.
    + constructor; [by exists k|].
      eapply Forall_impl; [exact Hrest|]. intros w (k' & Hw & Hk').
      exists k'. split; [done | set_solver].
    + cbn [map]. constructor; [|exact Hnd]. rewrite Hk.
      intros Hin. apply list_elem_of_In, in_map_iff in Hin as (w & Hw & Hin).
      rewrite Forall_forall in Hrest.
      destruct (Hrest w (proj2 (list_elem_of_In _ _) Hin)) as (k' & Hw' & Hk').
      rewrite Hw' in Hw. injection Hw as ->. set_solver.
Qed.

Lemma reconcile_sublist (l : list version) (seen : gset UrlParts) :
  sublist (reconcile l seen) l.
Proof.
  revert seen. induction l as [|v l IH]; intros seen; cbn [reconcile].
  - constructor.
  - destruct (_Url_obj (url v)) as [k|e]; [|by constructor].
    case_bool_decide; by constructor.
Qed.

Lemma filter_sublist {A} (p : A -> bool) (l : list A) :
  sublist (List.filter p l) l.
Proof.
  induction l as [|x l IH]; cbn; [constructor|].
  destruct (p x); by constructor.
Qed.

Lemma map_sublist {A B} (f : A -> B) (l k : list A) :
  sublist l k -> sublist (map f l) (map f k).
Proof. induction 1; cbn; by constructor. Qed.

Section ReconcilerExtras.
Variable urlopen : string -> result string.

(** X1: no two versions of a returned list have the same canonical
    key, and every key parses. *)
Theorem scrape_versions_distinct_keys self session chamber pg bill_id res self' :
  scrape_versions urlopen self session chamber pg bill_id = Ok (res, self') ->
  NoDup (map (fun v => _Url_obj (url v)) res) /\
  Forall (fun v => is_ok (_Url_obj (url v)) = true) res.
Proof.
  intros H. rewrite (scrape_versions_ok _ _ _ _ _ _ _ _ H).
  destruct (reconcile_fresh
    (yielded (_scrape_versions_normally pg)
     ++ map guess_version
          (fetched urlopen (yielded (_scrape_versions_guess_url self session bill_id)))
     ++ yielded (_scrape_versions_wpd self session chamber bill_id)) ∅) as [Hf Hnd].
  split; [exact Hnd|].
  eapply Forall_impl; [exact Hf|]. intros v (k & -> & _). reflexivity.
Qed.

(** X2: a returned list starts with the linked versions whose key is
    new, and is a subsequence of the candidates in the order of
    traversal: linked, guessed, legacy. *)
Theorem scrape_versions_subsequence self session chamber pg bill_id res self' :
  scrape_versions urlopen self session chamber pg bill_id = Ok (res, self') ->
  (exists rest, res = reconcile (yielded (_scrape_versions_normally pg)) ∅ ++ rest) /\
  sublist res
    (yielded (_scrape_versions_normally pg)
     ++ map guess_version (yielded (_scrape_versions_guess_url self session bill_id))
     ++ yielded (_scrape_versions_wpd self session chamber bill_id)).
Proof.
  intros H. rewrite (scrape_versions_ok _ _ _ _ _ _ _ _ H). split.
  - rewrite reconcile_app. eauto.
  - etrans; [apply reconcile_sublist|].
    apply sublist_app; [done|]. apply sublist_app; [|done].
    apply map_sublist. apply filter_sublist.
Qed.

(** X3: for a bill id of two words that the legacy index does not
    hold, the second and third adapter yield nothing: whatever the
    site answers, the call returns the linked versions with new keys
    and leaves [guess_count] as it was, set or not. *)
Theorem scrape_versions_no_index_entry self session chamber chamber_name
    pg bill_id billtype i :
  _version_filenames self !! normalize_bill_id bill_id = None ->
  Str.split_ws bill_id = [billtype; i] ->
  chamber_names chamber = Ok chamber_name ->
  thrown (_scrape_versions_normally pg) = None ->
  Forall (fun v => is_ok (_Url_obj (url v)) = true)
         (yielded (_scrape_versions_normally pg)) ->
  exists self',
    scrape_versions urlopen self session chamber pg bill_id =
      Ok (reconcile (yielded (_scrape_versions_normally pg)) ∅, self') /\
    guess_count self' = guess_count self.
Proof.
  intros Hmiss Hid Hch Ht Hk. unfold scrape_versions.
  pose proof (add_versions_returns _ ([], ∅) Ht Hk) as Hok.
  destruct (add_versions _ _) as [st1|] eqn:E1; [|done].
  apply add_versions_ok in E1 as [R1 _]. cbn [fst snd app] in R1.
  unfold _scrape_versions_guess_url, _scrape_versions_wpd.
  rewrite Hid, Hch, Hmiss. cbn. rewrite R1. by eexists.
Qed.

(** X4: a bill id that is not made of exactly two words makes the
    call raise [ValueError] once the linked versions are consumed,
    whatever the index holds. *)
Theorem scrape_versions_bill_id_words self session chamber pg bill_id :
  length (Str.split_ws bill_id) <> 2 ->
  is_ok (add_versions (_scrape_versions_normally pg) ([], ∅)) = true ->
  scrape_versions urlopen self session chamber pg bill_id =
    Raise (ValueError "unpack").
Proof.
  intros Hlen H1. unfold scrape_versions.
  destruct (add_versions _ _) as [st1|]; [|done]. cbn.
  unfold _scrape_versions_guess_url.
  destruct (Str.split_ws bill_id) as [|a [|b [|c l]]]; cbn in *; done.
Qed.

Lemma add_guesses_count g st n st' count' :
  add_guesses urlopen g st (Some n) = Ok (st', count') ->
  count' = Some (n + Z.of_nat (length st'.1) - Z.of_nat (length st.1))%Z.
Proof.
  revert st n. induction g as [|[f u] g IH|e]; intros st n H; cbn in H.
  - injection H as <- <-. f_equal. lia.
  - destruct (_Url u) as [k|]; [|discriminate]. cbn in H.
    case_bool_decide; [|by apply IH].
    destruct (urlopen u) as [body|e].
    + apply IH in H. rewrite H. cbn [fst]. rewrite length_app. cbn. f_equal. lia.
    + destruct e; try discriminate. by apply IH.
  - discriminate.
Qed.

(** X5: when [guess_count] is set and the call returns, the counter
    has grown by the number of guessed versions in the list returned,
    that is its html versions that are not linked ones. *)
Theorem scrape_versions_counts_guesses self session chamber pg bill_id n res self' :
  guess_count self = Some n ->
  scrape_versions urlopen self session chamber pg bill_id = Ok (res, self') ->
  guess_count self' =
    Some (n + Z.of_nat
                (length (reconcile
                   (map guess_version
                      (fetched urlopen
                         (yielded (_scrape_versions_guess_url self session bill_id))))
                   (keyset (yielded (_scrape_versions_normally pg))))))%Z.
Proof.
  intros Hn H. unfold scrape_versions in H. rewrite Hn in H.
  destruct (add_versions _ _) as [st1|] eqn:E1; [|discriminate]. cbn in H.
  destruct (add_guesses _ _ _ _) as [[st2 c2]|] eqn:E2; [|discriminate]. cbn in H.
  destruct (add_versions _ st2) as [st3|] eqn:E3; [|discriminate]. cbn in H.
  injection H as <- <-. cbn.
  pose proof (add_guesses_count _ _ _ _ _ E2) as ->.
  apply add_versions_ok in E1 as [_ C1]. apply add_guesses_ok in E2 as [R2 _].
  cbn [fst snd] in *. rewrite R2, C1, length_app. f_equal.
  replace (keyset (yielded (_scrape_versions_normally pg)) ∪ ∅)
    with (keyset (yielded (_scrape_versions_normally pg))) by set_solver.
  lia.
Qed.

End ReconcilerExtras.

(** X6: the text of a fetched page has no influence: two sites that
    answer every url alike, up to the text of their pages, give the
    same result. *)
Theorem scrape_versions_ignores_page_text site1 site2 self session chamber pg bill_id :
  (forall u, match site1 u, site2 u with
             | Ok _, Ok _ => True
             | Raise e1, Raise e2 => e1 = e2
             | _, _ => False
             end) ->
  scrape_versions site1 self session chamber pg bill_id =
  scrape_versions site2 self session chamber pg bill_id.
Proof.
  intros Hs. unfold scrape_versions.
  destruct (add_versions _ _) as [st1|]; [|done]. cbn.
  by rewrite (add_guesses_ignores_text site1 site2 _ _ _ Hs).
Qed.

(** X7: the urls the guessed-url adapter and the legacy-index adapter
    build always parse: [_Url] raises on none of them. *)
Theorem adapter_urls_parse self session chamber bill_id :
  Forall (fun c => is_ok (_Url c.2) = true)
         (yielded (_scrape_versions_guess_url self session bill_id)) /\
  Forall (fun v => is_ok (_Url_obj (url v)) = true)
         (yielded (_scrape_versions_wpd self session chamber bill_id)).
Proof. split; [apply guess_keys_ok | apply wpd_keys_ok]. Qed.

Lemma scrape_versions_distinct_keys_witness :
  exists res,
    scrape_versions Sample.site_404 Sample.self "2011" "upper"
      Sample.detail_page "SB 1" = Ok (res, Sample.self) /\
    length res = 3 /\
    NoDup (map (fun v => _Url_obj (url v)) res).
Proof.
  destruct (scrape_versions Sample.site_404 Sample.self "2011" "upper"
              Sample.detail_page "SB 1") as [[res self']|] eqn:H;
    [|by vm_compute in H].
  pose proof (scrape_versions_distinct_keys _ _ _ _ _ _ _ _ H) as [Hnd _].
  exists res. vm_compute in H. injection H as <- <-.
  split; [reflexivity|]. split; [reflexivity | exact Hnd].
Defined.

Lemma scrape_versions_subsequence_witness :
  exists res,
    scrape_versions Sample.site_404 Sample.self "2011" "upper"
      Sample.detail_page "SB 1" = Ok (res, Sample.self) /\
    sublist res
      (yielded (_scrape_versions_normally Sample.detail_page)
       ++ map guess_version (yielded (_scrape_versions_guess_url Sample.self "2011" "SB 1"))
       ++ yielded (_scrape_versions_wpd Sample.self "2011" "upper" "SB 1")).
Proof.
  destruct (scrape_versions Sample.site_404 Sample.self "2011" "upper"
              Sample.detail_page "SB 1") as [[res self']|] eqn:H;
    [|by vm_compute in H].
  pose proof (scrape_versions_subsequence _ _ _ _ _ _ _ _ H) as [_ Hsub].
  exists res. split; [|exact Hsub].
  vm_compute in H. injection H as <- <-. reflexivity.
Defined.

Lemma scrape_versions_no_index_entry_witness :
  exists self',
    scrape_versions Sample.site_placeholder Sample.self "2011" "upper"
      Sample.detail_page "SB 2" =
    Ok (reconcile (yielded (_scrape_versions_normally Sample.detail_page)) ∅,
        self') /\
    guess_count self' = None.
Proof.
  apply (scrape_versions_no_index_entry Sample.site_placeholder Sample.self
           "2011" "upper" "senate" Sample.detail_page "SB 2" "SB" "2").
  - vm_compute. reflexivity.
  - reflexivity.
  - reflexivity.
  - reflexivity.
  - decide_by_compute.
Defined.

Lemma scrape_versions_bill_id_words_witness :
  scrape_versions Sample.site_404 Sample.self "2011" "upper"
    Sample.detail_page "SB1" = Raise (ValueError "unpack").
Proof.
  apply scrape_versions_bill_id_words.
  - vm_compute. lia.
  - vm_compute. reflexivity.
Defined.

Lemma scrape_versions_counts_guesses_witness :
  exists res self',
    scrape_versions Sample.site_placeholder (mkScraper Sample.index (Some 0%Z))
      "2011" "upper" Sample.detail_page "SB 1" = Ok (res, self') /\
    guess_count self' = Some 1%Z.
Proof.
  destruct (scrape_versions Sample.site_placeholder
              (mkScraper Sample.index (Some 0%Z)) "2011" "upper"
              Sample.detail_page "SB 1") as [[res self']|] eqn:H;
    [|by vm_compute in H].
  exists res, self'. split; [reflexivity|].
  rewrite (scrape_versions_counts_guesses Sample.site_placeholder
             (mkScraper Sample.index (Some 0%Z)) "2011" "upper"
             Sample.detail_page "SB 1" 0%Z res self' eq_refl H).
  vm_compute. reflexivity.
Defined.

Lemma scrape_versions_ignores_page_text_witness :
  scrape_versions Sample.site_placeholder Sample.self "2011" "upper"
    Sample.detail_page "SB 1" =
  scrape_versions (fun _ => Ok "") Sample.self "2011" "upper"
    Sample.detail_page "SB 1".
Proof. apply scrape_versions_ignores_page_text. intros u. exact I. Defined.

(** ** More on [_Url] *)

Lemma mem_split_scheme (c : ascii) (u : string) :
  Str.mem c u = false -> Str.mem c (split_scheme u).2 = false.
Proof.
  intros H. unfold split_scheme.
  destruct (Str.cut ":" u) as [[h t]|] eqn:Hcut; [|done].
  destruct (cut_some _ _ _ _ Hcut) as [Hu _].
  assert (Ht : Str.mem c t = false).
  { rewrite Hu, mem_app in H. apply orb_false_iff in H as [_ H].
    cbn in H. by apply orb_false_iff in H as [_ H]. }
  destruct h as [|a h]; [done|].
  destruct (String.eqb _ _); [done|].
  destruct (Str.all _ _); [|done].
  by destruct (_ || _).
Qed.

Lemma mem_drop (c : ascii) (n : nat) (s : string) :
  Str.mem c s = false -> Str.mem c (Str.drop n s) = false.
Proof.
  revert s. induction n as [|n IH]; intros s H; [done|].
  destruct s as [|a s]; [done|]. cbn in *.
  apply orb_false_iff in H as [_ H]. by apply IH.
Qed.

Lemma mem_break_fst (c : ascii) (p : ascii -> bool) (s : string) :
  Str.mem c s = false -> Str.mem c (Str.break p s).1 = false.
Proof.
  intros H. rewrite (break_parts p s), mem_app in H.
  by apply orb_false_iff in H as [H _].
Qed.

(** X8: [_Url] raises on no url without square brackets. *)
Theorem _Url_without_brackets (u : string) :
  Str.mem "[" u = false -> Str.mem "]" u = false -> is_ok (_Url u) = true.
Proof.
  intros Hl Hr. rewrite _Url_is_ok. unfold split_netloc, _splitnetloc.
  destruct (Str.startswith _ _); [|reflexivity].
  destruct (Str.break _ _) as [net rest] eqn:Hb.
  assert (Hnet : forall c, Str.is_alpha c = false -> Str.mem c u = false ->
                           Str.mem c net = false).
  { intros c Hc Hu. change net with (net, rest).1. rewrite <- Hb.
    apply mem_break_fst, mem_drop, mem_split_scheme. by rewrite mem_lower. }
  by rewrite !Hnet.
Qed.

Lemma _Url_without_brackets_witness :
  is_ok (_Url "ftp://www.legis.state.wv.us/publicdocs/2011/RS/senate/sb1 intr.wpd") = true.
Proof. apply _Url_without_brackets; reflexivity. Defined.

(** A query segment that [parse_qsl] drops: a name without a value. *)
Lemma parse_nv_blank (s : string) :
  blank_segment s -> Str.split ";" (Str.lower s) = [Str.lower s] /\
                     parse_nv (Str.lower s) = [].
Proof.
  intros [Hsemi Hs]. split.
  - apply split1_none. by rewrite mem_lower.
  - unfold parse_nv. destruct Hs as [Hs|(k & -> & Hk)].
    + rewrite cut_none; [done|]. by rewrite mem_lower.
    + rewrite lower_app. change (Str.lower "=") with (String "=" "").
      rewrite cut_here by (by rewrite mem_lower). reflexivity.
Qed.

Lemma query_pairs_blank (segs1 segs2 : list string) (s : string) :
  blank_segment s ->
  concat (map parse_nv
            (concat (map (Str.split ";") (map Str.lower (segs1 ++ s :: segs2))))) =
  concat (map parse_nv
            (concat (map (Str.split ";") (map Str.lower (segs1 ++ segs2))))).
Proof.
  intros Hs. destruct (parse_nv_blank s Hs) as [Hsplit Hnv].
  rewrite !map_app, !concat_app, !map_app, !concat_app. f_equal.
  cbn [map concat]. rewrite Hsplit. cbn [app map concat]. by rewrite Hnv.
Qed.

(** X9: a query segment that names a parameter without a value, or
    holds no equals sign at all, does not count: the url with it and
    the url without it get the same key. *)
Theorem _Url_blank_segment (base : string) (segs1 segs2 : list string) (s : string) :
  markless base -> Forall segment segs1 -> Forall segment segs2 ->
  segment s -> blank_segment s ->
  _Url (base +:+ "?" +:+ Str.join "&" (segs1 ++ s :: segs2)) =
  _Url (base +:+ "?" +:+ Str.join "&" (segs1 ++ segs2)).
Proof.
  intros Hb H1 H2 Hs Hblank.
  destruct (_Url_query base Hb) as (r & Hr).
  rewrite !Hr.
  - destruct r as [[[[sch n] pth] prm]|e]; [|reflexivity].
    by rewrite query_pairs_blank.
  - by apply Forall_app.
  - apply Forall_app. split; [done|]. by constructor.
Qed.

Lemma _Url_blank_segment_witness :
  _Url "http://www.legis.state.wv.us/Bill_Status/bills_text.cfm?yr=2011&billdoc=&i=1" =
  _Url "http://www.legis.state.wv.us/Bill_Status/bills_text.cfm?yr=2011&i=1".
Proof.
  apply (_Url_blank_segment "http://www.legis.state.wv.us/Bill_Status/bills_text.cfm"
           ["yr=2011"] ["i=1"] "billdoc=").
  - by split.
  - repeat constructor.
  - repeat constructor.
  - by split.
  - split; [reflexivity|]. right. by exists "billdoc".
Defined.

Lemma replace_plus_space (a b : string) :
  Str.replace "+" " " (a +:+ "+" +:+ b) = Str.replace "+" " " (a +:+ " " +:+ b).
Proof.
  induction a as [|x a IH]; [reflexivity|].
  rewrite !(append_cons x a). cbn [Str.replace]. by rewrite IH.
Qed.

(** X10: in the path of an absolute url a plus sign and a space are
    the same: the two urls get the same key. *)
Theorem _Url_plus_is_space sch host p1 p2 rest :
  sch <> "" -> Str.all scheme_char sch = true ->
  Str.all host_char host = true -> after_path rest = true ->
  Str.all path_char p1 = true -> Str.all path_char p2 = true ->
  _Url (absolute sch host (p1 +:+ "+" +:+ p2) rest) =
  _Url (absolute sch host (p1 +:+ " " +:+ p2) rest).
Proof.
  intros Hne Hsch Hh Hrest H1 H2. unfold _Url. rewrite !lower_absolute.
  assert (Hp : forall m : string, Str.all path_char m = true ->
            Str.all path_char (Str.lower (p1 +:+ m +:+ p2)) = true).
  { intros m Hm. rewrite (all_lower path_char); [|intros a; by destruct a as [[] [] [] [] [] [] [] []]].
    by rewrite !all_app, H1, Hm, H2. }
  rewrite !urlparse_absolute;
    try (by destruct sch);
    try (by rewrite (all_lower _ _ scheme_char_lower));
    try (by rewrite (all_lower _ _ host_char_lower));
    try (by rewrite after_path_lower);
    try (apply (all_mem_false path_char); [by apply Hp | reflexivity]).
  destruct (_ || _); [reflexivity|].
  unfold mbind, result_bind, rbind.
  cbn [scheme netloc path params query fragment]. do 2 f_equal.
  unfold Urllib.unquote_plus. f_equal.
  change ("/" +:+ Str.lower (p1 +:+ "+" +:+ p2))
    with (String "/" (Str.lower (p1 +:+ "+" +:+ p2))).
  change ("/" +:+ Str.lower (p1 +:+ " " +:+ p2))
    with (String "/" (Str.lower (p1 +:+ " " +:+ p2))).
  cbn [Str.replace]. change (Str.eqc "/" "+") with false. cbv iota. f_equal.
  rewrite !lower_app. apply replace_plus_space.
Qed.

Lemma _Url_plus_is_space_witness :
  _Url "ftp://www.legis.state.wv.us/publicdocs/2011/RS/senate/sb1+intr.wpd" =
  _Url "ftp://www.legis.state.wv.us/publicdocs/2011/RS/senate/sb1 intr.wpd".
Proof.
  apply (_Url_plus_is_space "ftp" "www.legis.state.wv.us"
           "publicdocs/2011/RS/senate/sb1" "intr.wpd" ""); done.
Defined.

(** ** [quote_plus] and back *)

Lemma replace_app (o : ascii) (n a b : string) :
  Str.replace o n (a +:+ b) = Str.replace o n a +:+ Str.replace o n b.
Proof.
  induction a as [|x a IH]; [reflexivity|].
  rewrite append_cons. cbn [Str.replace]. rewrite IH.
  destruct (Str.eqc x o); [by rewrite append_assoc | reflexivity].
Qed.

Lemma quoter_space (c : ascii) :
  Str.replace " " "+" (Urllib.quoter " " c) = quote_plus_char c.
Proof. destruct c as [[] [] [] [] [] [] [] []]; reflexivity. Qed.

Lemma quote_with_space (s : string) :
  Str.replace " " "+" (Urllib.quote_with " " s) = quote_plus_chars s.
Proof.
  induction s as [|c s IH]; [reflexivity|].
  cbn [Urllib.quote_with quote_plus_chars].
  by rewrite replace_app, quoter_space, IH.
Qed.

Lemma quote_with_none (s : string) :
  Str.mem " " s = false -> Urllib.quote_with "" s = quote_plus_chars s.
Proof.
  induction s as [|c s IH]; [reflexivity|]. cbn [Str.mem]. intros H.
  apply orb_false_iff in H as [Hc Hs].
  cbn [Urllib.quote_with quote_plus_chars]. rewrite (IH Hs).
  unfold quote_plus_char. by rewrite Hc.
Qed.

Lemma quote_plus_eq (s : string) : Urllib.quote_plus s = quote_plus_chars s.
Proof.
  unfold Urllib.quote_plus. destruct (Str.mem " " s) eqn:H.
  - apply quote_with_space.
  - by apply quote_with_none.
Qed.

Lemma replace_other (o a : ascii) (n s : string) :
  Str.eqc a o = false ->
  Str.replace o n (String a s) = String a (Str.replace o n s).
Proof. intros H. cbn [Str.replace]. by rewrite H. Qed.

Lemma unquote_plus_char (c : ascii) (t : string) :
  Urllib.unquote_plus (quote_plus_char c +:+ t) = String c (Urllib.unquote_plus t).
Proof.
  destruct c as [[] [] [] [] [] [] [] []];
    match goal with
    | |- context [quote_plus_char ?c] =>
        let e := eval vm_compute in (quote_plus_char c) in
        change (quote_plus_char c) with e
    end;
    rewrite !append_cons; change ("" +:+ t) with t;
    first
      [ rewrite unquote_plus_other by discriminate; reflexivity
      | unfold Urllib.unquote_plus; rewrite !replace_other by reflexivity;
        match goal with
        | |- Urllib.unquote (String "%" (String ?h1 (String ?h2 _))) = _ =>
            let x := eval vm_compute in (Urllib.hexval h1) in
            let y := eval vm_compute in (Urllib.hexval h2) in
            lazymatch x with
            | Some ?x' =>
                lazymatch y with
                | Some ?y' =>
                    rewrite (unquote_escape h1 h2 x' y' _ eq_refl eq_refl)
                end
            end
        end; reflexivity
      | unfold Urllib.unquote_plus;
        change (Str.replace "+" " " (String "+" t))
          with (String " " (Str.replace "+" " " t));
        rewrite unquote_other by discriminate; reflexivity ].
Qed.

Lemma unquote_plus_quote_plus (s : string) :
  Urllib.unquote_plus (Urllib.quote_plus s) = s.
Proof.
  rewrite quote_plus_eq. induction s as [|c s IH]; [reflexivity|].
  cbn [quote_plus_chars]. by rewrite unquote_plus_char, IH.
Qed.

Lemma quote_plus_char_safe (c : ascii) :
  Str.all query_safe (quote_plus_char c) = true.
Proof. destruct c as [[] [] [] [] [] [] [] []]; reflexivity. Qed.

Lemma quote_plus_safe (s : string) :
  Str.all query_safe (Urllib.quote_plus s) = true.
Proof.
  rewrite quote_plus_eq. induction s as [|c s IH]; [reflexivity|].
  cbn [quote_plus_chars]. by rewrite all_app, quote_plus_char_safe, IH.
Qed.

Lemma quote_plus_nonempty (s : string) :
  s <> "" -> String.eqb (Urllib.quote_plus s) "" = false.
Proof.
  intros Hs. rewrite quote_plus_eq. destruct s as [|c s]; [done|].
  cbn [quote_plus_chars].
  destruct c as [[] [] [] [] [] [] [] []]; reflexivity.
Qed.

Lemma segment_safe (k v : string) :
  Str.mem "&" (Urllib.quote_plus k +:+ "=" +:+ Urllib.quote_plus v) = false /\
  Str.mem "#" (Urllib.quote_plus k +:+ "=" +:+ Urllib.quote_plus v) = false /\
  Str.mem ";" (Urllib.quote_plus k +:+ "=" +:+ Urllib.quote_plus v) = false.
Proof.
  rewrite !mem_app.
  rewrite !(all_mem_false query_safe "&" _ (quote_plus_safe _) eq_refl).
  rewrite !(all_mem_false query_safe "#" _ (quote_plus_safe _) eq_refl).
  rewrite !(all_mem_false query_safe ";" _ (quote_plus_safe _) eq_refl).
  done.
Qed.

(** What [parse_qsl] reads back from [urlencode]: the pairs themselves,
    when no value is empty. *)
Lemma parse_qsl_urlencode (pairs : list (string * string)) :
  Forall (fun kv => kv.2 <> "") pairs ->
  parse_qsl (Urllib.urlencode pairs) = pairs.
Proof.
  intros Hv. unfold Urllib.urlencode.
  rewrite parse_qsl_join.
  2:{ apply Forall_forall. intros x Hx.
      apply list_elem_of_In, in_map_iff in Hx as ([k v] & <- & _).
      apply segment_safe. }
  induction pairs as [|[k v] pairs IH]; [reflexivity|].
  apply Forall_cons in Hv as [Hkv Hv]. cbn [map concat fst snd].
  rewrite split1_none by apply segment_safe. cbn [app map concat].
  rewrite (IH Hv). unfold parse_nv at 1.
  change (Urllib.quote_plus k +:+ "=" +:+ Urllib.quote_plus v)
    with (Urllib.quote_plus k +:+ String "=" (Urllib.quote_plus v)).
  rewrite cut_here
    by (apply (all_mem_false query_safe); [apply quote_plus_safe | reflexivity]).
  rewrite quote_plus_nonempty by done.
  fold (Urllib.unquote_plus (Urllib.quote_plus k)).
  fold (Urllib.unquote_plus (Urllib.quote_plus v)).
  by rewrite !unquote_plus_quote_plus.
Qed.

Lemma mem_urlencode (c : ascii) (pairs : list (string * string)) :
  query_safe c = false -> Str.eqc "&" c = false -> Str.eqc "=" c = false ->
  Str.mem c (Urllib.urlencode pairs) = false.
Proof.
  intros Hc Hamp Heq. unfold Urllib.urlencode.
  apply mem_join; [cbn [Str.mem]; by rewrite Hamp|].
  apply Forall_forall. intros x Hx.
  apply list_elem_of_In, in_map_iff in Hx as ([k v] & <- & _).
  rewrite !mem_app. cbn [fst snd Str.mem]. rewrite Heq.
  by rewrite !(all_mem_false query_safe c _ (quote_plus_safe _) Hc).
Qed.

(** X11: a server that decodes the query of a guessed url reads
    back four parameters: [billdoc], the file name with every plus
    sign replaced by [%20] and [.htm] appended; [yr], the session;
    [sesstype], [RS]; and [i], the number of the bill. *)
Theorem guess_url_query_params (session i filename : string) :
  session <> "" -> i <> "" ->
  query_params (guess_url session i filename) =
    Ok [("billdoc", Str.replace "+" "%20" filename +:+ ".htm");
        ("yr", session); ("sesstype", "RS"); ("i", i)].
Proof.
  intros Hs Hi. unfold query_params, guess_url, urlunparse, urlunsplit.
  set (q := Urllib.urlencode _).
  assert (Hq : String.eqb q "" = false).
  { unfold q, Urllib.urlencode. cbn [map Str.join fst snd].
    change (Urllib.quote_plus "billdoc") with "billdoc". reflexivity. }
  rewrite Hq.
  change (urlparse
            ("http://www.legis.state.wv.us/Bill_Status/bills_text.cfm"
             +:+ String "?" q) ≫= (fun parts => Ok (parse_qsl (query parts)))
          = Ok [("billdoc", Str.replace "+" "%20" filename +:+ ".htm");
                ("yr", session); ("sesstype", "RS"); ("i", i)]).
  destruct (urlparse_query "http://www.legis.state.wv.us/Bill_Status/bills_text.cfm")
    as (r & Hr); [by split|].
  pose proof (Hr "" eq_refl) as H0. vm_compute in H0.
  destruct r as [[[[s n] pth] prm]|e]; [|discriminate].
  rewrite Hr by (by apply mem_urlencode).
  unfold mbind, result_bind, rbind. cbn [query]. f_equal.
  unfold q. apply parse_qsl_urlencode.
  repeat constructor; cbn [snd]; try done.
  intros E. apply (f_equal Str.rev) in E. rewrite rev_app in E. discriminate.
Qed.

Lemma guess_url_query_params_witness :
  query_params (guess_url "2011" "1" "sb1 intr") =
    Ok [("billdoc", "sb1 intr.htm"); ("yr", "2011"); ("sesstype", "RS"); ("i", "1")].
Proof. apply (guess_url_query_params "2011" "1" "sb1 intr"); discriminate. Defined.

(** ** The legacy index builder *)

Lemma length_app_str (a b : string) :
  String.length (a +:+ b) = String.length a + String.length b.
Proof.
  induction a as [|x a IH]; [reflexivity|]. rewrite append_cons. cbn. by rewrite IH.
Qed.

Lemma length_lower (s : string) : String.length (Str.lower s) = String.length s.
Proof. induction s as [|a s IH]; [reflexivity|]. cbn. by rewrite IH. Qed.

Lemma drop_app_length (a b : string) : Str.drop (String.length a) (a +:+ b) = b.
Proof.
  induction a as [|x a IH]; [by destruct b|]. rewrite append_cons. cbn. apply IH.
Qed.

Lemma take_drop (n : nat) (s : string) : Str.take n s +:+ Str.drop n s = s.
Proof.
  revert s. induction n as [|n IH]; intros s; [by destruct s|].
  destruct s as [|a s]; [reflexivity|]. cbn [Str.take Str.drop].
  by rewrite append_cons, IH.
Qed.

(** X12: [matchwpd] accepts exactly the names that end in [.wpd],
    in any mix of upper and lower case. *)
Theorem matchwpd_spec (fn : string) :
  matchwpd fn = true <->
  exists stem ext, fn = stem +:+ ext /\ Str.lower ext = ".wpd".
Proof.
  unfold matchwpd. rewrite andb_true_iff, Nat.leb_le, String.eqb_eq. split.
  - intros [Hn Hext].
    exists (Str.take (String.length fn - 4) fn), (Str.drop (String.length fn - 4) fn).
    by rewrite take_drop.
  - intros (stem & ext & -> & Hext).
    assert (Hlen : String.length ext = 4).
    { by rewrite <- length_lower, Hext. }
    rewrite length_app_str, Hlen. split; [lia|].
    replace (String.length stem + 4 - 4) with (String.length stem) by lia.
    by rewrite drop_app_length.
Qed.

Lemma entries_of_append (key k : string) (e : string * string) (m : version_filenames) :
  entries_of (append_entry key e m) k =
    if decide (key = k) then entries_of m k ++ [e] else entries_of m k.
Proof.
  unfold entries_of, append_entry, version_filenames in *.
  rewrite lookup_insert. by destruct (decide (key = k)) as [->|].
Qed.

(** X13: the loop over the names of one folder appends, under each
    key, the names filed under that key, in the order of the listing
    and after the entries the key already had; other keys keep their
    entries. *)
Theorem add_filenames_entries (d : string) (filenames : list string)
    (m m' : version_filenames) (k : string) :
  add_filenames d filenames m = Ok m' ->
  entries_of m' k =
    entries_of m k ++
    map (fun fn => (d, splitext_root fn))
        (List.filter (fun fn => bool_decide (entry_key fn = Some k)) filenames).
Proof.
  revert m. induction filenames as [|fn rest IH]; intros m H; cbn in H.
  - injection H as <-. cbn. by rewrite app_nil_r.
  - cbn [List.filter].
    destruct (Str.cut " " (splitext_root fn)) as [[bill_id tl]|] eqn:Hcut;
      [|discriminate].
    assert (Hkey : entry_key fn = Some (unicode_lower bill_id)).
    { unfold entry_key. by rewrite Hcut. }
    rewrite (IH _ H), entries_of_append.
    destruct (decide (unicode_lower bill_id = k)) as [Heq|Hne].
    + rewrite bool_decide_true by congruence. cbn [map]. by rewrite <- app_assoc.
    + rewrite bool_decide_false by congruence. done.
Qed.

Lemma add_filenames_entries_witness :
  exists m',
    add_filenames "jan 12" ["SB1 intr.WPD"; "sb2 intr.wpd"; "sb1 sub1.wpd"] ∅ = Ok m' /\
    entries_of m' "sb1" = [("jan 12", "SB1 intr"); ("jan 12", "sb1 sub1")].
Proof.
  destruct (add_filenames "jan 12" ["SB1 intr.WPD"; "sb2 intr.wpd"; "sb1 sub1.wpd"] ∅)
    as [m'|] eqn:H; [|by vm_compute in H].
  exists m'. split; [reflexivity|].
  by rewrite (add_filenames_entries _ _ _ _ "sb1" H).
Defined.

(** X14: a [.wpd] name that has no space once its extension is off
    makes the loop raise [ValueError], whatever names come with it. *)
Theorem add_filenames_needs_space (d : string) (filenames : list string)
    (m : version_filenames) :
  Exists (fun fn => Str.mem " " (splitext_root fn) = false) filenames ->
  add_filenames d filenames m = Raise (ValueError "unpack").
Proof.
  intros H. revert m. induction H as [fn rest Hfn|fn rest _ IH]; intros m; cbn.
  - by rewrite cut_none.
  - destruct (Str.cut " " (splitext_root fn)) as [[bill_id tl]|]; [apply IH | done].
Qed.

Lemma add_filenames_needs_space_witness :
  add_filenames "jan 12" ["sb1 intr.wpd"; "sb2.wpd"] ∅ = Raise (ValueError "unpack").
Proof.
  apply add_filenames_needs_space.
  apply Exists_cons_tl, Exists_cons_hd. reflexivity.
Defined.

Lemma well_keyed_empty : well_keyed ∅.
Proof.
  intros k folder filename Hin. unfold entries_of, version_filenames in Hin.
  rewrite lookup_empty in Hin. by apply elem_of_nil in Hin.
Qed.

Lemma append_entry_well_keyed bill_id tl folder m :
  Str.mem " " bill_id = false -> well_keyed m ->
  well_keyed (append_entry (unicode_lower bill_id)
                (folder, bill_id +:+ " " +:+ tl) m).
Proof.
  intros Hsp Hm k folder' filename Hin. rewrite entries_of_append in Hin.
  destruct (decide (unicode_lower bill_id = k)) as [<-|]; [|by eapply Hm].
  apply elem_of_app in Hin as [Hin|Hin]; [by eapply Hm|].
  apply elem_of_cons in Hin as [[= -> ->]|Hin]; [|by apply elem_of_nil in Hin].
  by exists bill_id, tl.
Qed.

Lemma add_filenames_well_keyed d filenames m m' :
  well_keyed m -> add_filenames d filenames m = Ok m' -> well_keyed m'.
Proof.
  revert m. induction filenames as [|fn rest IH]; intros m Hm H; cbn in H.
  - by injection H as <-.
  - destruct (Str.cut " " (splitext_root fn)) as [[bill_id tl]|] eqn:Hcut;
      [|discriminate].
    destruct (cut_some _ _ _ _ Hcut) as [Hparts Hsp].
    eapply IH; [|exact H]. rewrite Hparts. by apply append_entry_well_keyed.
Qed.

Section BuilderExtras.
Variable urlopen : string -> result string.

Lemma scan_dirs_well_keyed ftp_url dirs m log m' :
  well_keyed m -> scan_dirs urlopen ftp_url dirs m = (log, Ok m') -> well_keyed m'.
Proof.
  revert m log. induction dirs as [|d rest IH]; intros m log Hm H; cbn in H.
  - by injection H as <- <-.
  - destruct (urlopen _) as [html|]; [|discriminate].
    destruct (add_filenames _ _ _) as [m1|] eqn:H1; [|discriminate].
    destruct (scan_dirs _ _ _ m1) as [log1 r1] eqn:H2.
    injection H as <- ->.
    eapply IH; [|exact H2]. by eapply add_filenames_well_keyed.
Qed.

(** X15: in a mapping that [rebuild] returns, every entry is filed
    under the lower-cased first word of its file name. *)
Theorem rebuild_well_keyed session chamber log m :
  rebuild urlopen session chamber = (log, Ok m) -> well_keyed m.
Proof.
  unfold rebuild. intros H.
  destruct (chamber_names chamber) as [cn|]; [|discriminate].
  destruct (urlopen _) as [html|]; [|discriminate].
  destruct (scan_dirs _ _ _ _) as [log1 r1] eqn:H1.
  injection H as <- ->.
  eapply scan_dirs_well_keyed; [|exact H1]. apply well_keyed_empty.
Qed.

Lemma scan_dirs_log ftp_url dirs m log r :
  scan_dirs urlopen ftp_url dirs m = (log, r) ->
  exists n, log = map (dir_url ftp_url) (take n dirs) /\
            (is_ok r = true -> n = length dirs).
Proof.
  revert m log r. induction dirs as [|d rest IH]; intros m log r H; cbn in H.
  - injection H as <- <-. by exists 0.
  - fold (dir_url ftp_url d) in H.
    destruct (urlopen _) as [html|e].
    + destruct (add_filenames _ _ _) as [m1|e1].
      * destruct (scan_dirs _ _ _ m1) as [log1 r1] eqn:H1.
        injection H as <- <-. destruct (IH _ _ _ H1) as (n & -> & Hn).
        exists (S n). split; [reflexivity|]. intros Hok. cbn. f_equal. auto.
      * injection H as <- <-. exists 1. split; [by destruct rest | done].
    + injection H as <- <-. exists 1. split; [by destruct rest | done].
Qed.

(** X16: [rebuild] fetches the listing of the chamber first and then
    the listings of its dated folders, one each and in order, stopping
    at the first failure; when it returns a mapping it has fetched the
    listing of every folder. *)
Theorem rebuild_fetches session chamber chamber_name html log r :
  chamber_names chamber = Ok chamber_name ->
  urlopen ("ftp://www.legis.state.wv.us/publicdocs/" +:+ session +:+ "/RS/"
           +:+ chamber_name +:+ "/") = Ok html ->
  rebuild urlopen session chamber = (log, r) ->
  exists n,
    log =
      ("ftp://www.legis.state.wv.us/publicdocs/" +:+ session +:+ "/RS/"
       +:+ chamber_name +:+ "/")
      :: map (dir_url ("ftp://www.legis.state.wv.us/publicdocs/" +:+ session
                       +:+ "/RS/" +:+ chamber_name +:+ "/"))
             (take n (map listing_dir (Str.splitlines_by unicode_linebreak html))) /\
    (is_ok r = true ->
     n = length (map listing_dir (Str.splitlines_by unicode_linebreak html))).
Proof.
  intros Hc Hroot H. unfold rebuild in H. rewrite Hc, Hroot in H.
  destruct (scan_dirs _ _ _ _) as [log1 r1] eqn:H1.
  injection H as <- <-.
  destruct (scan_dirs_log _ _ _ _ _ H1) as (n & -> & Hn). by exists n.
Qed.

End BuilderExtras.

Lemma rebuild_well_keyed_witness :
  exists log m, rebuild Sample.ftp_site "2011" "upper" = (log, Ok m) /\ well_keyed m.
Proof.
  destruct (rebuild Sample.ftp_site "2011" "upper") as [log [m|]] eqn:H;
    [|by vm_compute in H].
  exists log, m. split; [reflexivity|].
  exact (rebuild_well_keyed Sample.ftp_site "2011" "upper" log m H).
Defined.

Lemma rebuild_fetches_witness :
  exists r,
    rebuild Sample.ftp_site "2011" "upper" =
      (["ftp://www.legis.state.wv.us/publicdocs/2011/RS/senate/";
        "ftp://www.legis.state.wv.us/publicdocs/2011/RS/senate/jan%2012/";
        "ftp://www.legis.state.wv.us/publicdocs/2011/RS/senate/feb20/"], r).
Proof.
  destruct (rebuild Sample.ftp_site "2011" "upper") as [log r] eqn:H.
  exists r. f_equal.
  destruct (rebuild_fetches Sample.ftp_site "2011" "upper" "senate"
              ("01-12-11  03:04PM  <DIR>  jan 12" +:+ Sample.nl +:+
               "02-20-11  03:04PM  <DIR>  feb20") log r eq_refl eq_refl H)
    as (n & -> & Hn).
  rewrite Hn; [reflexivity|]. vm_compute in H. by injection H as _ <-.
Defined.

(** ** The legacy adapter on a built index *)

Lemma wpd_loop_names chamber_name u filenames :
  map name (yielded (wpd_loop chamber_name u filenames)) = map snd filenames.
Proof.
  revert u. induction filenames as [|[folder filename] l IH]; intros u; cbn;
    [reflexivity|]. by rewrite IH.
Qed.

(** X17: on an index whose entries are filed under the first word of
    their file name, as [rebuild] files them, every descriptor of the
    legacy-index adapter is named after a file whose first word is the
    bill id, spaces and case apart. *)
Theorem wpd_versions_match_bill_id self session chamber bill_id v :
  well_keyed (_version_filenames self) ->
  v ∈ yielded (_scrape_versions_wpd self session chamber bill_id) ->
  exists word rest,
    name v = word +:+ " " +:+ rest /\ Str.mem " " word = false /\
    unicode_lower word = normalize_bill_id bill_id.
Proof.
  intros Hm Hv. unfold _scrape_versions_wpd in Hv.
  destruct (chamber_names chamber) as [cn|]; [|by apply elem_of_nil in Hv].
  assert (Hname : name v ∈ map name (yielded (wpd_loop cn
            ("ftp://www.legis.state.wv.us/publicdocs/" +:+ session +:+ "/RS")
            (default [] (_version_filenames self !! normalize_bill_id bill_id))))).
  { apply list_elem_of_In, in_map. by apply list_elem_of_In. }
  rewrite wpd_loop_names in Hname.
  apply list_elem_of_In, in_map_iff in Hname as ([folder filename] & Hsnd & Hin).
  cbn in Hsnd. subst filename.
  destruct (Hm (normalize_bill_id bill_id) folder (name v)) as (word & rest & H1 & H2 & H3).
  { by apply list_elem_of_In. }
  by exists word, rest.
Qed.

Lemma wpd_versions_match_bill_id_witness :
  exists v word rest,
    yielded (_scrape_versions_wpd
               (mkScraper (append_entry "sb1" ("feb20", "sb1 sub1") ∅) None)
               "2011" "upper" "SB 1") = [v] /\
    name v = word +:+ " " +:+ rest /\ Str.mem " " word = false /\
    unicode_lower word = normalize_bill_id "SB 1".
Proof.
  destruct (yielded (_scrape_versions_wpd
               (mkScraper (append_entry "sb1" ("feb20", "sb1 sub1") ∅) None)
               "2011" "upper" "SB 1")) as [|v [|v' l]] eqn:H;
    [by vm_compute in H | | by vm_compute in H].
  destruct (wpd_versions_match_bill_id
              (mkScraper (append_entry "sb1" ("feb20", "sb1 sub1") ∅) None)
              "2011" "upper" "SB 1" v) as (word & rest & Hw).
  - apply (append_entry_well_keyed "sb1" "sub1" "feb20" ∅ eq_refl well_keyed_empty).
  - rewrite H. apply elem_of_cons. by left.
  - by exists v, word, rest.
Defined.

(** ** The roll-call parser, line by line *)

Lemma votes_append_fields key nm st :
  tally_fields (votes_append key nm st) = tally_fields st /\
  l_date (votes_append key nm st) = l_date st /\
  l_vote_type (votes_append key nm st) = l_vote_type st.
Proof. done. Qed.

Lemma votes_of_append key key' nm st :
  votes_of key' (votes_append key nm st) =
    if bool_decide (key' = key /\ key <> vt_paired)
    then votes_of key' st ++ [nm] else votes_of key' st.
Proof. destruct key, key'; reflexivity. Qed.

Lemma names_loop_spec key parts st :
  tally_fields (names_loop key parts st) = tally_fields st /\
  l_date (names_loop key parts st) = l_date st /\
  l_vote_type (names_loop key parts st) = l_vote_type st /\
  forall key',
    votes_of key' (names_loop key parts st) =
      if bool_decide (key' = key /\ key <> vt_paired)
      then votes_of key' st ++
           List.filter (fun nm => negb (String.eqb nm "")) (map Str.strip parts)
      else votes_of key' st.
Proof.
  revert st. induction parts as [|p parts IH]; intros st; cbn [names_loop map List.filter].
  - repeat split. intros key'. case_bool_decide; [by rewrite app_nil_r | done].
  - destruct (String.eqb (Str.strip p) ""); cbn [negb]; [apply IH|].
    destruct (IH (votes_append key (Str.strip p) st)) as (H1 & H2 & H3 & H4).
    repeat split; try done. intros key'. rewrite H4, votes_of_append.
    case_bool_decide; [|done]. by rewrite <- app_assoc.
Qed.

Lemma paired_loop_fields line parts st st' :
  paired_loop line parts st = Ok st' ->
  tally_fields st' = tally_fields st /\ l_date st' = l_date st /\
  l_vote_type st' = l_vote_type st.
Proof.
  revert st. induction parts as [|p parts IH]; intros st H; cbn in H.
  - by injection H as <-.
  - destruct (String.eqb (Str.strip p) ""); [by apply IH|].
    destruct (Re.match_pair line) as [[nm pair_type]|]; [|discriminate].
    destruct (String.eqb pair_type "YEA"); [by apply IH in H|].
    destruct (String.eqb pair_type "NAY"); by apply IH in H.
Qed.

(** X18: on a line that is no date, tally or header line, in a state
    whose vote type is yes, no or other, the names on the line are
    appended, in order, to the list of that vote type; the other lists
    and the other variables stay as they are. *)
Theorem names_line_appends lines idx raw st key :
  l_vote_type st = Some key -> key <> vt_paired ->
  is_date_line raw = false -> is_tally_line raw = false ->
  is_header_line raw = false ->
  exists st',
    vote_line lines idx raw st = Ok st' /\
    votes_of key st' = votes_of key st ++ fragments (Str.rstrip raw) /\
    (forall key', key' <> key -> votes_of key' st' = votes_of key' st) /\
    tally_fields st' = tally_fields st /\ l_date st' = l_date st /\
    l_vote_type st' = l_vote_type st.
Proof.
  unfold is_header_line, is_tally_line, is_date_line, vote_line.
  intros Hkey Hnp Hd Ht Hh.
  destruct (Re.search_date (Str.rstrip raw)); [discriminate|]. cbn [negb andb] in *.
  destruct (Re.match_tally (Str.rstrip raw)) as [[[y n] o]|]; [discriminate|].
  cbn [negb andb] in *.
  destruct (Re.match_header (Str.rstrip raw)) as [[k g]|]; [discriminate|].
  rewrite Hkey.
  destruct (names_loop_spec key (Str.split "   " (Str.rstrip raw)) st)
    as (H1 & H2 & H3 & H4).
  exists (names_loop key (Str.split "   " (Str.rstrip raw)) st).
  split; [by destruct key|]. split; [|split; [|repeat split; congruence]].
  - rewrite H4. by rewrite bool_decide_true.
  - intros key' Hne. rewrite H4. rewrite bool_decide_false; [done|]. by intros [? _].
Qed.

Lemma names_line_appends_witness :
  exists st',
    vote_line [] 5 "  Smith   Jones (Kanawha)     " (set_vote_type vt_yes locals0) = Ok st' /\
    votes_yes st' = ["Smith"; "Jones (Kanawha)"].
Proof.
  destruct (names_line_appends [] 5 "  Smith   Jones (Kanawha)     "
              (set_vote_type vt_yes locals0) vt_yes)
    as (st' & H1 & H2 & _); try reflexivity; [done|].
  exists st'. split; [exact H1 | exact H2].
Defined.

Lemma vote_line_keeps_tally lines idx raw st st' :
  is_tally_line raw = false ->
  vote_line lines idx raw st = Ok st' ->
  tally_fields st' = tally_fields st.
Proof.
  unfold is_tally_line, is_date_line, vote_line. intros Ht H.
  destruct (Re.search_date (Str.rstrip raw)) as [[[m d] y]|].
  - destruct (strptime m d y); [|discriminate]. by injection H as <-.
  - cbn [negb andb] in Ht.
    destruct (Re.match_tally (Str.rstrip raw)) as [[[y n] o]|]; [discriminate|].
    destruct (Re.match_header (Str.rstrip raw)) as [[k g]|].
    + destruct (vote_type_of k); [|discriminate]. by injection H as <-.
    + destruct (l_vote_type st) as [[]|]; try (injection H as <-);
        try apply names_loop_spec; try done.
      by apply paired_loop_fields in H as [H _].
Qed.

Lemma vote_lines_keep_tally lines idx todo st st' :
  Forall (fun raw => is_tally_line raw = false) todo ->
  vote_lines lines idx todo st = Ok st' -> tally_fields st' = tally_fields st.
Proof.
  revert idx st. induction todo as [|raw todo IH]; intros idx st Hd H; cbn in H.
  - by injection H as <-.
  - apply Forall_cons in Hd as [Hraw Hd].
    destruct (vote_line lines idx raw st) as [st1|] eqn:H1; [|discriminate].
    cbn in H. rewrite (IH _ _ Hd H). by eapply vote_line_keeps_tally.
Qed.

Lemma vote_lines_split lines idx pre raw post st stF :
  vote_lines lines idx (pre ++ raw :: post) st = Ok stF ->
  exists st0 st1,
    vote_lines lines idx pre st = Ok st0 /\
    vote_line lines (idx + length pre) raw st0 = Ok st1 /\
    vote_lines lines (S (idx + length pre)) post st1 = Ok stF.
Proof.
  revert idx st. induction pre as [|x pre IH]; intros idx st H; cbn in H.
  - destruct (vote_line lines idx raw st) as [st1|] eqn:H1; [|discriminate].
    cbn in H. exists st, st1. cbn. by rewrite Nat.add_0_r.
  - destruct (vote_line lines idx x st) as [stx|] eqn:Hx; [|discriminate].
    cbn in H. destruct (IH _ _ H) as (st0 & st1 & H0 & H1 & H2).
    exists st0, st1. cbn. rewrite Hx. cbn.
    replace (idx + S (length pre)) with (S idx + length pre) by lia. done.
Qed.

(** X19: in a vote that [scrape_vote] returns, the counts, the
    outcome and the motion are those of the last tally line of the
    text: the counts are the numbers on that line, the outcome tells
    whether the line ends with ADOPTED or PASSED, and the motion is
    the line two above it, stripped. *)
Theorem last_tally_line_wins text pre raw post v :
  splitlines text = pre ++ raw :: post ->
  is_tally_line raw = true ->
  Forall (fun r => is_tally_line r = false) post ->
  scrape_vote text = Ok v ->
  exists y n o l,
    Re.match_tally (Str.rstrip raw) = Some (y, n, o) /\
    yes_count v = Re.int y /\ no_count v = Re.int n /\
    other_count v =
      match Re.search_excused (Str.rstrip raw) with
      | Some g => (Re.int o + Re.int g)%Z
      | None => Re.int o
      end /\
    passed v = Str.endswith "ADOPTED" (Str.rstrip raw)
               || Str.endswith "PASSED" (Str.rstrip raw) /\
    getitem (splitlines text) (Z.of_nat (length pre) - 2) = Ok l /\
    motion v = Str.strip l /\
    (2 <= length pre -> pre !! (length pre - 2) = Some l).
Proof.
  intros Hs Ht Hpost Hv. unfold scrape_vote in Hv. rewrite Hs in *.
  destruct (vote_lines _ 0 _ locals0) as [stF|] eqn:Hrun; [|discriminate].
  cbn in Hv. apply make_vote_ok in Hv as (_ & Hmo & Hp & Hy & Hn & Ho & _).
  apply vote_lines_split in Hrun as (st0 & st1 & _ & H1 & H2).
  apply vote_lines_keep_tally in H2; [|done]. cbn [Nat.add] in H1.
  unfold is_tally_line, is_date_line, vote_line in Ht, H1.
  destruct (Re.search_date (Str.rstrip raw)); [discriminate|]. cbn [negb andb] in Ht.
  destruct (Re.match_tally (Str.rstrip raw)) as [[[y n] o]|]; [|discriminate].
  destruct (getitem _ _) as [l|] eqn:Hl; [|discriminate]. cbn in H1.
  injection H1 as <-. unfold tally_fields in H2. cbn in H2.
  injection H2 as Hmo' Hy' Hn' Ho' Hp'.
  exists y, n, o, l. split; [done|].
  split; [congruence|]. split; [congruence|]. split; [congruence|].
  split; [congruence|]. split; [done|]. split; [congruence|].
  intros Hlen. unfold getitem in Hl.
  destruct (Z.ltb_spec (Z.of_nat (length pre) - 2) 0); [lia|].
  destruct (Z.ltb_spec (Z.of_nat (length pre) - 2) 0); [lia|].
  replace (Z.to_nat (Z.of_nat (length pre) - 2)) with (length pre - 2) in Hl by lia.
  rewrite lookup_app_l in Hl by lia.
  destruct (pre !! (length pre - 2)); congruence.
Qed.

Lemma last_tally_line_wins_witness :
  exists v,
    scrape_vote Sample.vote_text = Ok v /\
    yes_count v = 2%Z /\ no_count v = 1%Z /\ other_count v = 2%Z /\
    passed v = true /\ motion v = "HB 2001   03/12/2011".
Proof.
  destruct (scrape_vote Sample.vote_text) as [v|] eqn:Hv; [|by vm_compute in Hv].
  exists v. split; [reflexivity|].
  destruct (last_tally_line_wins Sample.vote_text
              ["On passage of the bill"; "  HB 2001   03/12/2011"; ""]
              "  YEAS: 2   NAYS: 1   NOT VOTING: 1   EXCUSED: 1  PASSED"
              ["YEAS: 2"; "  Smith   Jones (Kanawha)"; "NAYS: 1"; " Adams";
               "NOT VOTING: 1"; "Brown"; "EXCUSED: 1"; "Green"] v)
    as (y & n & o & l & Hm & Hy & Hn & Ho & Hp & _ & Hmo & Hl);
    [reflexivity | reflexivity | decide_by_compute | exact Hv |].
  injection Hm as <- <- <-.
  specialize (Hl ltac:(cbn; lia)). injection Hl as <-.
  rewrite Hy, Hn, Ho, Hp, Hmo. by vm_compute.
Defined.

Lemma vote_line_keeps_date lines idx raw st st' :
  is_date_line raw = false ->
  vote_line lines idx raw st = Ok st' -> l_date st' = l_date st.
Proof.
  unfold is_date_line, vote_line. intros Hd H.
  destruct (Re.search_date (Str.rstrip raw)); [discriminate|].
  destruct (Re.match_tally (Str.rstrip raw)) as [[[y n] o]|].
  - destruct (getitem lines _); [|discriminate]. by injection H as <-.
  - destruct (Re.match_header (Str.rstrip raw)) as [[k g]|].
    + destruct (vote_type_of k); [|discriminate]. by injection H as <-.
    + destruct (l_vote_type st) as [[]|]; try (injection H as <-);
        try apply names_loop_spec; try done.
      by apply paired_loop_fields in H as (_ & H & _).
Qed.

Lemma vote_lines_keep_date lines idx todo st st' :
  Forall (fun raw => is_date_line raw = false) todo ->
  vote_lines lines idx todo st = Ok st' -> l_date st' = l_date st.
Proof.
  revert idx st. induction todo as [|raw todo IH]; intros idx st Hd H; cbn in H.
  - by injection H as <-.
  - apply Forall_cons in Hd as [Hraw Hd].
    destruct (vote_line lines idx raw st) as [st1|] eqn:H1; [|discriminate].
    cbn in H. rewrite (IH _ _ Hd H). by eapply vote_line_keeps_date.
Qed.

(** X20: a text without a date line, the empty text included, never
    gives a vote: the call raises, and what it raises when the loop
    gets through is [UnboundLocalError] for [date]. *)
Theorem scrape_vote_needs_date (text : string) :
  Forall (fun raw => is_date_line raw = false) (splitlines text) ->
  exists e,
    scrape_vote text = Raise e /\
    (is_ok (vote_lines (splitlines text) 0 (splitlines text) locals0) = true ->
     e = UnboundLocalError "date").
Proof.
  intros Hd. unfold scrape_vote.
  destruct (vote_lines _ _ _ _) as [st|e] eqn:H; cbn.
  - apply vote_lines_keep_date in H; [|done]. cbn in H.
    unfold make_vote. rewrite H. cbn. by eexists.
  - by exists e.
Qed.

Lemma scrape_vote_needs_date_witness :
  scrape_vote
    ("On passage" +:+ Sample.nl +:+ "x" +:+ Sample.nl +:+ "y" +:+ Sample.nl +:+
     "  YEAS: 0   NAYS: 0   NOT VOTING: 0")
  = Raise (UnboundLocalError "date").
Proof.
  destruct (scrape_vote_needs_date
    ("On passage" +:+ Sample.nl +:+ "x" +:+ Sample.nl +:+ "y" +:+ Sample.nl +:+
     "  YEAS: 0   NAYS: 0   NOT VOTING: 0")) as (e & -> & He).
  - decide_by_compute.
  - f_equal. by apply He.
Defined.

(** X21: a tally line among the first two lines takes its motion
    from the end of the text, as a negative index does: the line two
    before the end for the first line, the last line for the second;
    when the text has that one line only, the step raises
    [IndexError]. *)
Theorem tally_line_wraps lines idx raw st :
  is_tally_line raw = true -> idx < 2 ->
  (length lines + idx < 2 -> vote_line lines idx raw st = Raise IndexError) /\
  (forall l, lines !! (length lines + idx - 2) = Some l ->
             2 <= length lines + idx ->
             exists st', vote_line lines idx raw st = Ok st' /\
                         l_motion st' = Some (Str.strip l)).
Proof.
  unfold is_tally_line, is_date_line, vote_line. intros Ht Hidx.
  destruct (Re.search_date (Str.rstrip raw)); [discriminate|]. cbn [negb andb] in Ht.
  destruct (Re.match_tally (Str.rstrip raw)) as [[[y n] o]|]; [|discriminate].
  unfold getitem.
  destruct (Z.ltb_spec (Z.of_nat idx - 2) 0) as [_|]; [|lia]. split.
  - intros Hshort.
    destruct (Z.ltb_spec (Z.of_nat idx - 2 + Z.of_nat (length lines)) 0); [done|lia].
  - intros l Hl Hlong.
    destruct (Z.ltb_spec (Z.of_nat idx - 2 + Z.of_nat (length lines)) 0); [lia|].
    replace (Z.to_nat (Z.of_nat idx - 2 + Z.of_nat (length lines)))
      with (length lines + idx - 2) by lia.
    rewrite Hl. cbn. by eexists.
Qed.

Lemma tally_line_wraps_witness :
  vote_line ["  YEAS: 1   NAYS: 0   NOT VOTING: 0"] 0
    "  YEAS: 1   NAYS: 0   NOT VOTING: 0" locals0 = Raise IndexError /\
  exists st',
    vote_line ["  YEAS: 1   NAYS: 0   NOT VOTING: 0"; "YEAS: 1"; " Smith "] 1
      "  YEAS: 1   NAYS: 0   NOT VOTING: 0" locals0 = Ok st' /\
    l_motion st' = Some "Smith".
Proof.
  split.
  - apply (proj1 (tally_line_wraps ["  YEAS: 1   NAYS: 0   NOT VOTING: 0"] 0
                    "  YEAS: 1   NAYS: 0   NOT VOTING: 0" locals0 eq_refl
                    ltac:(lia))).
    cbn. lia.
  - apply (proj2 (tally_line_wraps
                    ["  YEAS: 1   NAYS: 0   NOT VOTING: 0"; "YEAS: 1"; " Smith "] 1
                    "  YEAS: 1   NAYS: 0   NOT VOTING: 0" locals0 eq_refl
                    ltac:(lia)) " Smith "); [reflexivity | cbn; lia].
Defined.

(** ** Recognising the lines *)

Lemma all_rev (p : ascii -> bool) (s : string) : Str.all p (Str.rev s) = Str.all p s.
Proof.
  induction s as [|a s IH]; [reflexivity|].
  rewrite rev_cons, all_app, IH. cbn. by rewrite andb_true_r, andb_comm.
Qed.

Lemma mem_rev (c : ascii) (s : string) : Str.mem c (Str.rev s) = Str.mem c s.
Proof.
  induction s as [|a s IH]; [reflexivity|].
  rewrite rev_cons, mem_app, IH. cbn. by rewrite orb_false_r, orb_comm.
Qed.

Lemma rev_nonempty (s : string) : s <> "" -> exists c r, Str.rev s = String c r.
Proof.
  intros Hs. destruct (Str.rev s) as [|c r] eqn:H; [|by exists c, r].
  apply (f_equal Str.rev) in H. rewrite rev_involutive in H. done.
Qed.

Lemma digit_not_space (c : ascii) : Str.is_digit c = true -> Str.is_space c = false.
Proof. by destruct c as [[] [] [] [] [] [] [] []]. Qed.

Lemma lstrip_spaces (a b : string) :
  Str.all Str.is_space a = true -> Str.lstrip (a +:+ b) = Str.lstrip b.
Proof.
  induction a as [|x a IH]; intros H; [reflexivity|].
  rewrite append_cons. cbn in *. apply andb_true_iff in H as [-> H]. by apply IH.
Qed.

Lemma rstrip_digits (body ds trail : string) :
  ds <> "" -> Str.all Str.is_digit ds = true ->
  Str.all Str.is_space trail = true ->
  Str.rstrip (body +:+ ds +:+ trail) = body +:+ ds.
Proof.
  intros Hne Hds Htrail. unfold Str.rstrip.
  rewrite !rev_app, append_assoc, lstrip_spaces by (by rewrite all_rev).
  destruct (rev_nonempty ds Hne) as (c & r & Hr).
  assert (Hc : Str.is_digit c = true).
  { rewrite <- all_rev, Hr in Hds. cbn in Hds. by apply andb_true_iff in Hds as [? _]. }
  rewrite Hr, append_cons. cbn [Str.lstrip]. rewrite (digit_not_space c Hc).
  by rewrite <- append_cons, <- Hr, rev_app, !rev_involutive.
Qed.

Lemma search_date_slash (line : string) :
  Str.mem "/" line = false -> Re.search_date line = None.
Proof.
  intros H. unfold Re.search_date.
  destruct (_ && _); [|done].
  assert (Hlit : Re.lit "/" (Str.drop 4 (Str.rev line)) = None); [|by rewrite Hlit].
  unfold Re.lit. destruct (Str.startswith _ _) eqn:Hsw; [|done].
  apply startswith_spec in Hsw as [t Ht].
  assert (Hm : Str.mem "/" (Str.drop 4 (Str.rev line)) = false).
  { apply mem_drop. by rewrite mem_rev. }
  by rewrite Ht in Hm.
Qed.

Lemma span_all (p : ascii -> bool) (s : string) :
  Str.all p s = true -> Str.span p s = (s, "").
Proof.
  induction s as [|a s IH]; intros H; [reflexivity|].
  cbn in *. apply andb_true_iff in H as [-> H]. by rewrite (IH H).
Qed.

Lemma span_app (p : ascii -> bool) (a : string) (c : ascii) (b : string) :
  Str.all p a = true -> p c = false ->
  Str.span p (a +:+ String c b) = (a, String c b).
Proof.
  intros Ha Hc. induction a as [|x a IH].
  - change ("" +:+ String c b) with (String c b). cbn. by rewrite Hc.
  - rewrite append_cons. cbn in *. apply andb_true_iff in Ha as [-> Ha].
    by rewrite (IH Ha).
Qed.

Lemma many1_app (p : ascii -> bool) (a : string) (c : ascii) (b : string) :
  a <> "" -> Str.all p a = true -> p c = false ->
  Re.many1 p (a +:+ String c b) = Some (a, String c b).
Proof.
  intros Hne Ha Hc. unfold Re.many1. rewrite span_app by done. by destruct a.
Qed.

Lemma many1_all (p : ascii -> bool) (s : string) :
  s <> "" -> Str.all p s = true -> Re.many1 p s = Some (s, "").
Proof.
  intros Hne Hs. unfold Re.many1. rewrite span_all by done. by destruct s.
Qed.

Lemma header_keyword kw t :
  (kw, t) ∈ headers ->
  Str.mem "/" kw = false /\ vote_type_of kw = Ok t /\
  forall rest,
    Re.match_tally (kw +:+ String ":" rest) = None /\
    Re.first_lit ["YEAS"; "NAYS"; "NOT VOTING"; "PAIRED"; "EXCUSED"]
      (kw +:+ String ":" rest) = Some (kw, String ":" rest).
Proof.
  unfold headers. rewrite !elem_of_cons, elem_of_nil.
  intros [[= -> ->]|[[= -> ->]|[[= -> ->]|[[= -> ->]|[[= -> ->]|[]]]]]];
    (split; [reflexivity|]; split; [reflexivity|]; intros rest; split; reflexivity).
Qed.

(** X22: a line made of one of the five category names, a colon,
    white space and a number, with or without white space after it,
    sets the vote type: yes for YEAS, no for NAYS, paired for PAIRED,
    and other for both NOT VOTING and EXCUSED; nothing else
    changes. *)
Theorem header_line_sets_vote_type lines idx kw t ws ds trail st :
  (kw, t) ∈ headers ->
  ws <> "" -> Str.all Str.is_space ws = true ->
  ds <> "" -> Str.all Str.is_digit ds = true ->
  Str.all Str.is_space trail = true ->
  vote_line lines idx (kw +:+ ":" +:+ ws +:+ ds +:+ trail) st
  = Ok (set_vote_type t st).
Proof.
  intros Hkw Hws1 Hws Hds1 Hds Htrail.
  destruct (header_keyword kw t Hkw) as (Hslash & Ht & Hrest).
  destruct (Hrest (ws +:+ ds)) as [Htally Hfirst].
  assert (Hline : Str.rstrip (kw +:+ ":" +:+ ws +:+ ds +:+ trail)
                  = kw +:+ String ":" (ws +:+ ds)).
  { replace (kw +:+ ":" +:+ ws +:+ ds +:+ trail)
      with ((kw +:+ ":" +:+ ws) +:+ ds +:+ trail) by (by rewrite !append_assoc).
    rewrite rstrip_digits by done. by rewrite !append_assoc. }
  unfold vote_line. rewrite Hline.
  rewrite search_date_slash, Htally.
  2:{ rewrite mem_app, Hslash. cbn [Str.mem orb]. rewrite mem_app.
      rewrite (all_mem_false Str.is_space) by done.
      by rewrite (all_mem_false Str.is_digit). }
  unfold Re.match_header. rewrite Hfirst. cbn.
  destruct ds as [|d ds]; [done|]. destruct ws as [|w ws]; [done|].
  change (Re.lit ":" (String ":" (String w ws +:+ String d ds)))
    with (Some (String w ws +:+ String d ds)).
  cbn [mbind option_bind].
  assert (Hd : Str.is_digit d = true).
  { cbn in Hds. by apply andb_true_iff in Hds as [? _]. }
  rewrite many1_app by (auto using digit_not_space).
  cbn [mbind option_bind]. rewrite many1_all by done.
  cbn. by rewrite Ht.
Qed.

Lemma header_line_sets_vote_type_witness :
  vote_line [] 9 "NOT VOTING:  12  " locals0 = Ok (set_vote_type vt_other locals0).
Proof.
  apply (header_line_sets_vote_type [] 9 "NOT VOTING" vt_other "  " "12" "  " locals0);
    try reflexivity; try done.
  unfold headers. apply elem_of_cons. right. apply elem_of_cons. right.
  apply elem_of_cons. by left.
Defined.

(** ** [scrape_bill]: the type of the bill *)

Lemma split_ws_word (sp : ascii -> bool) (w cur : string) (c : ascii) (rest : string) :
  Str.all (fun a => negb (sp a)) w = true -> sp c = true ->
  Str.split_ws_from sp (Some cur) (w +:+ String c rest)
  = (cur +:+ w) :: Str.split_ws_from sp None rest.
Proof.
  intros Hw Hc. revert cur. induction w as [|a w IH]; intros cur.
  - change ("" +:+ String c rest) with (String c rest). cbn.
    by rewrite Hc, append_nil_r.
  - rewrite append_cons. cbn in *. apply andb_true_iff in Hw as [Ha Hw].
    apply negb_true_iff in Ha. rewrite Ha, (IH Hw), append_assoc. done.
Qed.

(** X23: the type of a bill is looked up under the first word of
    its id without its first character, whatever that character and
    the rest of the id are. *)
Theorem bill_type_of_first_word (c : ascii) (suffix rest : string) :
  Str.is_space c = false ->
  Str.all (fun a => negb (Str.is_space a)) suffix = true ->
  bill_type_of (String c suffix +:+ " " +:+ rest) = bill_types suffix.
Proof.
  intros Hc Hs. unfold bill_type_of, Str.split_ws.
  rewrite append_cons. cbn [Str.split_ws_from]. rewrite Hc.
  change (" " +:+ rest) with (String " " rest).
  rewrite split_ws_word by done. reflexivity.
Qed.

Lemma bill_type_of_first_word_witness :
  bill_type_of "HCR 12" = Ok "concurrent resolution" /\
  bill_type_of "XB 7 of 2011" = Ok "bill".
Proof.
  split.
  - apply (bill_type_of_first_word "H" "CR" "12"); reflexivity.
  - apply (bill_type_of_first_word "X" "B" "7 of 2011"); reflexivity.
Defined.

(** ** [scrape_bill]: the actions *)

(** X24: an action whose text mentions the Journal is not taken for
    an act of the Governor: one that starts with [To Governor] is
    typed as a referral to a committee, one that starts with
    [Approved by Governor] as [other]. *)
Theorem governor_journal_actions (action : string) :
  Str.contains "Journal" action = true ->
  (Str.startswith "To Governor" action = true ->
   atype_of action = "committee:referred") /\
  (Str.startswith "Approved by Governor" action = true ->
   atype_of action = "other").
Proof.
  intros Hj. split; intros Hs; unfold atype_of; rewrite Hs, Hj;
    apply startswith_spec in Hs as [t ->]; reflexivity.
Qed.

Lemma governor_journal_actions_witness :
  atype_of "To Governor 3/18/11 - House Journal" = "committee:referred" /\
  atype_of "Approved by Governor 4/5/11 - Senate Journal" = "other".
Proof.
  split.
  - apply (governor_journal_actions "To Governor 3/18/11 - House Journal");
      reflexivity.
  - apply (governor_journal_actions "Approved by Governor 4/5/11 - Senate Journal");
      reflexivity.
Defined.

Lemma cells_agree (bill_type : string) (tds : row) :
  is_Some (date_cell bill_type tds) <-> is_Some (action_cell tds).
Proof.
  unfold is_Some.
  destruct tds as [|td0 [|td1 [|td2 tds]]]; cbn; split; intros [x H];
    try discriminate; eauto.
Qed.

Lemma last_actor_cons (actor : string) (a : action_t) (acts : list action_t) :
  last_actor actor (a :: acts) = last_actor (act_actor a) acts.
Proof.
  unfold last_actor. destruct acts as [|b acts]; [reflexivity|].
  change (last (a :: b :: acts)) with (last (b :: acts)).
  destruct (last (b :: acts)) eqn:H; [reflexivity|]. by apply last_None in H.
Qed.

Section ActionsExtras.
Variable strptime_y : string -> result date.

Lemma actions_loop_texts bill_type actor trs acts :
  actions_loop strptime_y bill_type actor trs = Ok acts ->
  map act_text acts = omap action_cell trs /\
  map act_type acts = map atype_of (omap action_cell trs) /\
  Forall2 (fun a d => strptime_y d = Ok (act_date a)) acts
          (omap (date_cell bill_type) trs).
Proof.
  revert actor acts. induction trs as [|tds trs IH]; intros actor acts H; cbn in H.
  - injection H as <-. cbn. repeat split. constructor.
  - cbn [omap list_omap].
    destruct (date_cell bill_type tds) as [d|] eqn:Hd.
    + destruct (action_cell tds) as [action|] eqn:Ha.
      * destruct (strptime_y d) as [dt|] eqn:Hdt; [|discriminate]. cbn in H.
        destruct (actions_loop _ _ _ trs) as [acts'|] eqn:Hrest; [|discriminate].
        cbn in H. injection H as <-. destruct (IH _ _ Hrest) as (H1 & H2 & H3).
        cbn. rewrite H1, H2. repeat split. by constructor.
      * destruct (proj1 (cells_agree bill_type tds)) as [x Hx]; [by eexists|].
        congruence.
    + destruct (action_cell tds) as [action|] eqn:Ha.
      * destruct (proj2 (cells_agree bill_type tds)) as [x Hx]; [by eexists|].
        congruence.
      * by eapply IH.
Qed.

(** X25: the actions [scrape_actions] returns are those of the rows
    of three cells or more, the first row of the table left out, from
    the last row up: each has the stripped text of the second cell,
    the type that text is given, and the date read from the date cell
    of its row. *)
Theorem scrape_actions_rows bill_type chamber trs acts :
  scrape_actions strptime_y bill_type chamber trs = Ok acts ->
  map act_text acts = omap action_cell (List.rev (List.tail trs)) /\
  map act_type acts = map atype_of (omap action_cell (List.rev (List.tail trs))) /\
  Forall2 (fun a d => strptime_y d = Ok (act_date a)) acts
          (omap (date_cell bill_type) (List.rev (List.tail trs))).
Proof. apply actions_loop_texts. Qed.

Lemma actions_loop_ok bill_type actor trs :
  is_ok (actions_loop strptime_y bill_type actor trs) = true <->
  Forall (fun d => is_ok (strptime_y d) = true) (omap (date_cell bill_type) trs).
Proof.
  revert actor. induction trs as [|tds trs IH]; intros actor; cbn.
  - split; [constructor | done].
  - destruct (date_cell bill_type tds) as [d|] eqn:Hd.
    + destruct (proj1 (cells_agree bill_type tds)) as [action Ha]; [by eexists|].
      rewrite Ha. rewrite Forall_cons.
      destruct (strptime_y d) as [dt|]; cbn.
      * specialize (IH (actor_after actor action)).
        destruct (actions_loop _ _ _ trs); cbn in *; split.
        -- intros _. split; [done | by apply IH].
        -- done.
        -- done.
        -- intros [_ H]. by apply IH.
      * split; [done | by intros [? _]].
    + destruct (action_cell tds); apply IH.
Qed.

(** X26: [scrape_actions] returns actions exactly when the date of
    every row it reads can be parsed; one date that cannot makes the
    call raise, and no action is returned. *)
Theorem scrape_actions_all_or_nothing bill_type chamber trs :
  is_ok (scrape_actions strptime_y bill_type chamber trs) = true <->
  Forall (fun d => is_ok (strptime_y d) = true)
         (omap (date_cell bill_type) (List.tail trs)).
Proof.
  unfold scrape_actions. rewrite actions_loop_ok.
  assert (Hsame : forall d, d ∈ omap (date_cell bill_type) (List.rev (List.tail trs))
                            <-> d ∈ omap (date_cell bill_type) (List.tail trs)).
  { intros d. rewrite !list_elem_of_omap.
    split; intros (x & Hx & Hd); exists x; (split; [|done]);
      apply list_elem_of_In; apply list_elem_of_In in Hx;
      [by apply in_rev | by apply in_rev in Hx]. }
  rewrite !List.Forall_forall.
  split; intros H d Hd; apply H, list_elem_of_In, Hsame, list_elem_of_In, Hd.
Qed.

Lemma actions_loop_keeps_actor bill_type actor trs acts :
  Forall (fun tds => forall a, action_cell tds = Some a ->
                               to_senate a = false /\ to_house a = false) trs ->
  actions_loop strptime_y bill_type actor trs = Ok acts ->
  Forall (fun a => act_actor a = actor) acts.
Proof.
  revert acts. induction trs as [|tds trs IH]; intros acts Hq H; cbn in H.
  - injection H as <-. constructor.
  - apply Forall_cons in Hq as [Hq1 Hq].
    destruct (date_cell bill_type tds) as [d|]; [|by apply IH].
    destruct (action_cell tds) as [action|]; [|by apply IH].
    destruct (strptime_y d) as [dt|]; [|discriminate]. cbn in H.
    destruct (Hq1 action eq_refl) as [Hs Hh].
    assert (Hact : actor_after actor action = actor).
    { unfold actor_after. by rewrite Hs, Hh. }
    rewrite Hact in H.
    destruct (actions_loop _ _ _ trs) as [acts'|] eqn:Hrest; [|discriminate].
    cbn in H. injection H as <-. constructor; [done | by apply IH].
Qed.

(** X27: the actions read after the last row that moves the bill to
    a chamber all carry the actor in force at that row: the actor of
    the last action before them, or the originating chamber when
    there is none. *)
Theorem actions_after_last_move bill_type actor pre post acts :
  actions_loop strptime_y bill_type actor (pre ++ post) = Ok acts ->
  Forall (fun tds => forall a, action_cell tds = Some a ->
                               to_senate a = false /\ to_house a = false) post ->
  exists before after,
    acts = before ++ after /\
    actions_loop strptime_y bill_type actor pre = Ok before /\
    Forall (fun a => act_actor a = last_actor actor before) after.
Proof.
  intros H Hq. revert actor acts H.
  induction pre as [|tds pre IH]; intros actor acts H.
  - exists [], acts. split; [done|]. split; [done|].
    by eapply actions_loop_keeps_actor.
  - cbn in H. cbn [actions_loop].
    destruct (date_cell bill_type tds) as [d|].
    + destruct (action_cell tds) as [action|]; [|by apply IH].
      destruct (strptime_y d) as [dt|]; [|discriminate]. cbn in H.
      destruct (actions_loop _ _ _ (pre ++ post)) as [acts'|] eqn:Hrest;
        [|discriminate].
      cbn in H. injection H as <-.
      destruct (IH _ _ Hrest) as (before & after & -> & Hb & Ha).
      exists (mkAction (actor_after actor action) action dt (atype_of action)
                :: before), after.
      split; [done|]. cbn. rewrite Hb. cbn. split; [done|].
      by rewrite last_actor_cons.
    + destruct (action_cell tds); by apply IH.
Qed.

End ActionsExtras.

Lemma scrape_actions_rows_witness :
  exists acts,
    scrape_actions (fun _ => Ok (mkDate 2011 1 12)) "bill" "lower"
      [["Action"; "Description"; "Date"];
       ["H"; " To Governor 3/18/11 "; "03/18/11"];
       ["note"];
       ["H"; "Filed for introduction"; "01/12/11"]] = Ok acts /\
    map act_text acts = ["Filed for introduction"; "To Governor 3/18/11"] /\
    map act_type acts = ["bill:filed"; "governor:received"].
Proof.
  destruct (scrape_actions (fun _ => Ok (mkDate 2011 1 12)) "bill" "lower"
      [["Action"; "Description"; "Date"];
       ["H"; " To Governor 3/18/11 "; "03/18/11"];
       ["note"];
       ["H"; "Filed for introduction"; "01/12/11"]]) as [acts|] eqn:H;
    [|by vm_compute in H].
  exists acts. split; [reflexivity|].
  destruct (scrape_actions_rows _ _ _ _ _ H) as (H1 & H2 & _).
  split; [exact H1 | exact H2].
Defined.

Lemma actions_after_last_move_witness :
  exists before after,
    actions_loop (fun _ => Ok (mkDate 2011 1 12)) "bill" "lower"
      [["H"; "Filed for introduction"; "01/12/11"];
       ["H"; "Communicated to Senate"; "02/01/11"];
       ["S"; "Read 1st time"; "02/02/11"];
       ["S"; "Read 2nd time"; "02/03/11"]] = Ok (before ++ after) /\
    length after = 2 /\
    Forall (fun a => act_actor a = "upper") after.
Proof.
  destruct (actions_loop (fun _ => Ok (mkDate 2011 1 12)) "bill" "lower"
      [["H"; "Filed for introduction"; "01/12/11"];
       ["H"; "Communicated to Senate"; "02/01/11"];
       ["S"; "Read 1st time"; "02/02/11"];
       ["S"; "Read 2nd time"; "02/03/11"]]) as [acts|] eqn:H;
    [|by vm_compute in H].
  destruct (actions_after_last_move (fun _ => Ok (mkDate 2011 1 12)) "bill" "lower"
      [["H"; "Filed for introduction"; "01/12/11"];
       ["H"; "Communicated to Senate"; "02/01/11"]]
      [["S"; "Read 1st time"; "02/02/11"];
       ["S"; "Read 2nd time"; "02/03/11"]] acts H)
    as (before & after & -> & Hb & Ha).
  - repeat (constructor; [intros a Hcell; cbn in Hcell; by injection Hcell as <-|]).
    constructor.
  - exists before, after. split; [reflexivity|].
    vm_compute in Hb. injection Hb as <-.
    vm_compute in H. injection H as H.
    split; [|exact Ha].
    by destruct after as [|a1 [|a2 [|a3 after]]].
Defined.
